(** * CHIP-8 interpreter: a shallow embedding of the fetch/decode/execute core

    The development follows the C++ sources of the emulator:
    - [load_rom], [update_timers], [fetch_instruction] and
      [perform_instruction] of the current interpreter file;
    - [put_value_in_Vreg], [get_value_in_Vreg] and the early revision of
      [perform_instruction] in chip8.cpp (module [Early]);
    - [get_key_from_u8] of the key map file.

    Machine integers are [Z] with the wrap-around of their C++ type written
    out ([u8], [u16]).  Arrays are lists read with [!!] and written with
    [<[ _ := _ ]>]; an access outside an array is undefined behaviour in the
    source and is a [Fault] here, raised at the access.  The trace printed on
    standard output ([printHex], [printf]) is not part of the model; the
    reports on standard error are. *)

From Stdlib Require Import ZArith Lia Bool String.
From stdpp Require Import base list gmap strings.

Local Open Scope Z_scope.

(** ** Machine integers *)

Definition u8 (z : Z) : Z := z `mod` 256.
Definition u16 (z : Z) : Z := z `mod` 65536.

(** Modelled from the spec: chip8.hpp is not among the sources; the memory
    bank has 4096 bytes and programs are loaded from address 0x200. *)
Definition RAM_SIZE : Z := 4096.
Definition ROM_START : Z := 0x200.

(** Modelled from the spec: the call stack has 16 entries and the display
    buffer is a 64 x 32 row-major grid. *)
Definition STACK_SIZE : Z := 16.
Definition SCREEN_WIDTH : Z := 64.
Definition SCREEN_HEIGHT : Z := 32.

(** ** Machine state *)

(** Modelled from the spec: the [Registers] struct is declared in a header
    that is not among the sources.  Its fields [v0] .. [vF] are kept as the
    16-element list [V], in that order; [I] and [pc] are 16-bit and the two
    timers are 8-bit.  The spec gives [sp] as unsigned with range [0, 16); it
    is an unsigned byte here (a wider unsigned type would wrap below zero to
    a larger value, equally far outside the stack). *)
Record Registers : Type := mkRegisters {
  V : list Z;
  I : Z;
  pc : Z;
  sp : Z;
  delay_timer : Z;
  sound_timer : Z
}.

(** Modelled from the spec: the [Chip8] struct is declared in chip8.hpp,
    which is not among the sources.  The fields are the ones the sources
    use: the registers, the 4096-byte memory, the 16-entry stack and the
    display buffer (the debugger window is left out).  [cerr] is the text
    written so far to standard error; it is threaded with the machine so
    that reports are observable. *)
Record Chip8 : Type := mkChip8 {
  regs : Registers;
  ram : list Z;
  stack : list Z;
  screen : list bool;
  cerr : list string
}.

Definition set_V (v : list Z) (r : Registers) : Registers :=
  mkRegisters v (I r) (pc r) (sp r) (delay_timer r) (sound_timer r).
Definition set_I (i : Z) (r : Registers) : Registers :=
  mkRegisters (V r) i (pc r) (sp r) (delay_timer r) (sound_timer r).
Definition set_pc (p : Z) (r : Registers) : Registers :=
  mkRegisters (V r) (I r) p (sp r) (delay_timer r) (sound_timer r).
Definition set_sp (p : Z) (r : Registers) : Registers :=
  mkRegisters (V r) (I r) (pc r) p (delay_timer r) (sound_timer r).
Definition set_delay_timer (t : Z) (r : Registers) : Registers :=
  mkRegisters (V r) (I r) (pc r) (sp r) t (sound_timer r).
Definition set_sound_timer (t : Z) (r : Registers) : Registers :=
  mkRegisters (V r) (I r) (pc r) (sp r) (delay_timer r) t.

Definition with_regs (r : Registers) (c : Chip8) : Chip8 :=
  mkChip8 r (ram c) (stack c) (screen c) (cerr c).
Definition with_ram (m : list Z) (c : Chip8) : Chip8 :=
  mkChip8 (regs c) m (stack c) (screen c) (cerr c).
Definition with_stack (st : list Z) (c : Chip8) : Chip8 :=
  mkChip8 (regs c) (ram c) st (screen c) (cerr c).
Definition with_screen (scr : list bool) (c : Chip8) : Chip8 :=
  mkChip8 (regs c) (ram c) (stack c) scr (cerr c).
Definition with_cerr (e : list string) (c : Chip8) : Chip8 :=
  mkChip8 (regs c) (ram c) (stack c) (screen c) e.

(** A state has the shape the constructor gives it: 16 registers, 4096 bytes,
    16 stack slots and 2048 pixels. *)
Definition wf (c : Chip8) : Prop :=
  length (V (regs c)) = 16%nat /\
  length (ram c) = Z.to_nat RAM_SIZE /\
  length (stack c) = Z.to_nat STACK_SIZE /\
  length (screen c) = Z.to_nat (SCREEN_WIDTH * SCREEN_HEIGHT).

(** ** Faults and the interpreter monad *)

Inductive fault : Type :=
| RamOutOfBounds (addr : Z)
| StackOutOfBounds (idx : Z)
| VectorLength (size : Z).

Inductive res (A : Type) : Type :=
| Ok (a : A) (c : Chip8)
| Fault (f : fault) (c : Chip8).
Arguments Ok {A} a c.
Arguments Fault {A} f c.

Definition M (A : Type) : Type := Chip8 -> res A.

Definition ret {A} (a : A) : M A := fun c => Ok a c.
Definition bind {A B} (m : M A) (k : A -> M B) : M B :=
  fun c => match m c with
           | Ok a c' => k a c'
           | Fault f c' => Fault f c'
           end.
Definition throw {A} (f : fault) : M A := fun c => Fault f c.
Definition gets {A} (f : Chip8 -> A) : M A := fun c => Ok (f c) c.
Definition modify (f : Chip8 -> Chip8) : M unit := fun c => Ok tt (f c).

Notation "'let*' x ':=' m 'in' k" := (bind m (fun x => k))
  (at level 10, x name, m at level 100, k at level 200).
Notation "m ;;; k" := (bind m (fun _ => k))
  (at level 100, k at level 200, right associativity).

Definition modify_regs (f : Registers -> Registers) : M unit :=
  modify (fun c => with_regs (f (regs c)) c).

Definition in_bounds (i size : Z) : bool := (0 <=? i) && (i <? size).

(** [chip.ram[addr]] as an rvalue and as an lvalue. *)
Definition read_ram (addr : Z) : M Z :=
  fun c => if in_bounds addr RAM_SIZE
           then match ram c !! Z.to_nat addr with
                | Some b => Ok b c
                | None => Fault (RamOutOfBounds addr) c
                end
           else Fault (RamOutOfBounds addr) c.
Definition write_ram (addr value : Z) : M unit :=
  fun c => if in_bounds addr RAM_SIZE
           then Ok tt (with_ram (<[Z.to_nat addr := value]> (ram c)) c)
           else Fault (RamOutOfBounds addr) c.

(** [chip.stack[idx]] as an rvalue and as an lvalue. *)
Definition read_stack (idx : Z) : M Z :=
  fun c => if in_bounds idx STACK_SIZE
           then match stack c !! Z.to_nat idx with
                | Some a => Ok a c
                | None => Fault (StackOutOfBounds idx) c
                end
           else Fault (StackOutOfBounds idx) c.
Definition write_stack (idx value : Z) : M unit :=
  fun c => if in_bounds idx STACK_SIZE
           then Ok tt (with_stack (<[Z.to_nat idx := value]> (stack c)) c)
           else Fault (StackOutOfBounds idx) c.

Definition report (msg : string) : M unit :=
  modify (fun c => with_cerr (cerr c ++ [msg]) c).

(** [for (int i = from; ...; ++i) body(i)] with [n] iterations. *)
Fixpoint for_loop (n : nat) (i : Z) (body : Z -> M unit) : M unit :=
  match n with
  | O => ret tt
  | S n' => body i ;;; for_loop n' (i + 1) body
  end.

(** ** Register access (chip8.cpp) *)

Definition put_value_in_Vreg (regNum value : Z) (r : Registers) : Registers :=
  if (regNum >? 15) || (regNum <? 0) then r
  else set_V (<[Z.to_nat regNum := value]> (V r)) r.

Definition get_value_in_Vreg (regNum : Z) (r : Registers) : Z :=
  if (regNum <? 0) || (regNum >? 15) then u8 (-1)
  else default (u8 (-1)) (V r !! Z.to_nat regNum).

Definition put_Vreg (regNum value : Z) : M unit :=
  modify_regs (put_value_in_Vreg regNum value).

(** ** Host keys *)

(** Modelled from the spec: key_map.hpp is not among the sources.  The
    [KEYCODE_*] constants name the 16 host keys of the key map, and
    [key_state] tells for each whether it is held down. *)
Inductive keycode : Type :=
| KEYCODE_1 | KEYCODE_2 | KEYCODE_3 | KEYCODE_4
| KEYCODE_Q | KEYCODE_W | KEYCODE_E | KEYCODE_R
| KEYCODE_A | KEYCODE_S | KEYCODE_D | KEYCODE_F
| KEYCODE_Z | KEYCODE_X | KEYCODE_C | KEYCODE_V.

(** What the interpreter reads from its host during one instruction: the
    global [key_state] table and the value drawn by [get_random_num]. *)
Record Host : Type := mkHost {
  key_state : keycode -> bool;
  random_num : Z
}.

(** [get_key_from_u8] of the key map: the host key of a hex digit.  The
    default case (the key named Unknown, which no handler ever sets) is
    [None]. *)
Definition get_keycode_from_u8 (value : Z) : option keycode :=
  match value with
  | 0x1 => Some KEYCODE_1
  | 0x2 => Some KEYCODE_2
  | 0x3 => Some KEYCODE_3
  | 0xC => Some KEYCODE_4
  | 0x4 => Some KEYCODE_Q
  | 0x5 => Some KEYCODE_W
  | 0x6 => Some KEYCODE_E
  | 0xD => Some KEYCODE_R
  | 0x7 => Some KEYCODE_A
  | 0x8 => Some KEYCODE_S
  | 0x9 => Some KEYCODE_D
  | 0xE => Some KEYCODE_F
  | 0xA => Some KEYCODE_Z
  | 0x0 => Some KEYCODE_X
  | 0xB => Some KEYCODE_C
  | 0xF => Some KEYCODE_V
  | _ => None
  end.

(** [key_state[keycode]] for the key of a hex digit. *)
Definition key_down (h : Host) (value : Z) : bool :=
  match get_keycode_from_u8 value with
  | Some k => key_state h k
  | None => false
  end.

(** ** Display buffer *)

(** Modelled from the spec: [clear_screen] is not among the sources; it
    clears the display buffer to all-zero. *)
Definition clear_screen (scr : list bool) : list bool :=
  replicate (length scr) false.

Definition pixel_index (px py : Z) : nat := Z.to_nat (py * SCREEN_WIDTH + px).

(** Modelled from the spec: the row renderer behind [draw_pixel_row] is not
    among the sources.  The 8 bits of the sprite byte, most significant
    first, are XORed into the pixels (x + bit_index, y); a pixel that was set
    and is XORed to zero is a collision; pixels past x = 63 fall off the
    buffer and are ignored. *)
Fixpoint draw_bits (k : nat) (bit_index x y cur_byte : Z)
    (scr : list bool) (collision : bool) : bool * list bool :=
  match k with
  | O => (collision, scr)
  | S k' =>
      let px := x + bit_index in
      let bit := Z.testbit cur_byte (7 - bit_index) in
      if px <? SCREEN_WIDTH then
        let old := default false (scr !! pixel_index px y) in
        draw_bits k' (bit_index + 1) x y cur_byte
          (<[pixel_index px y := xorb old bit]> scr)
          (collision || (old && bit))
      else draw_bits k' (bit_index + 1) x y cur_byte scr collision
  end.

(** Modelled from the spec: [draw_pixel_row] draws the 8 bits of one sprite
    byte and returns whether a collision occurred. *)
Definition draw_pixel_row (x y cur_byte : Z) : M bool :=
  fun c => let '(collision, scr) := draw_bits 8 0 x y cur_byte (screen c) false in
           Ok collision (with_screen scr c).

(** ** The ROM loader *)

(** What the file system holds under [fileName], as the loader sees it: the
    file may fail to open; the size query may fail, as on a directory, and
    [tellg] then returns -1; with the size known, reading the bytes may
    fail.  The result of [tellg] is not checked: [vector<char> buffer(size)]
    with the size -1 throws out of the loader, before the read and its
    check, and nothing is written to [cerr]. *)
Inductive rom_file : Type :=
| CannotOpen
| NoSize
| Opened (content : list Z) (read_ok : bool).

Definition load_rom (fileName : string) (f : rom_file) : M unit :=
  match f with
  | CannotOpen => report ("Error: could not open ROM file " ++ fileName)
  | NoSize => throw (VectorLength (-1))
  | Opened buffer read_ok =>
      if negb read_ok then report "Error: failed to read the entire ROM file"
      else
        for_loop (length buffer) 0
          (fun i => write_ram (ROM_START + i)
                      (u8 (default 0 (buffer !! Z.to_nat i))))
  end.

(** ** Timers and fetch *)

Definition update_timers : M unit :=
  modify_regs (fun r =>
    let r := if delay_timer r >? 0 then set_delay_timer (u8 (delay_timer r - 1)) r else r in
    if sound_timer r >? 0 then set_sound_timer (u8 (sound_timer r - 1)) r else r).

Definition fetch_instruction : M Z :=
  let* pc0 := gets (fun c => pc (regs c)) in
  let* hi := read_ram pc0 in
  let* lo := read_ram (pc0 + 1) in
  let instruction := u16 (Z.lor (Z.shiftl hi 8) lo) in
  modify_regs (fun r => set_pc (u16 (pc r + 2)) r) ;;;
  ret instruction.

(** ** Decoding fields *)

Definition opcode_of (instruction : Z) : Z := u8 (instruction ≫ 12).
Definition x_of (instruction : Z) : Z := Z.land (instruction ≫ 8) 0xF.
Definition y_of (instruction : Z) : Z := Z.land (instruction ≫ 4) 0xF.
Definition n_of (instruction : Z) : Z := Z.land instruction 0xF.
Definition kk_of (instruction : Z) : Z := u8 (Z.land instruction 0xFF).
Definition nnn_of (instruction : Z) : Z := Z.land instruction 0xFFF.

Definition skip : M unit := modify_regs (fun r => set_pc (u16 (pc r + 2)) r).
Definition Vreg (regNum : Z) : M Z :=
  gets (fun c => get_value_in_Vreg regNum (regs c)).

(** ** perform_instruction, the current interpreter *)

(** [case 0x0]: clear screen and return from subroutine. *)
Definition case_0x0 (instruction : Z) : M unit :=
  match instruction with
  | 0x00E0 => modify (fun c => with_screen (clear_screen (screen c)) c)
  | 0x00EE =>
      modify_regs (fun r => set_sp (u8 (sp r - 1)) r) ;;;
      let* top := gets (fun c => sp (regs c)) in
      let* addr := read_stack top in
      modify_regs (set_pc addr)
  | _ => ret tt
  end.

(** [case 0x1]: jump. *)
Definition case_0x1 (instruction : Z) : M unit :=
  let nnn := nnn_of instruction in
  modify_regs (set_pc nnn).

(** [case 0x2]: call. *)
Definition case_0x2 (instruction : Z) : M unit :=
  let* top := gets (fun c => sp (regs c)) in
  if top >=? 15 then report "Stack overflow"
  else
    let* ret_addr := gets (fun c => pc (regs c)) in
    write_stack top ret_addr ;;;
    modify_regs (fun r => set_sp (u8 (sp r + 1)) r) ;;;
    modify_regs (set_pc (nnn_of instruction)).

Definition case_0x3 (instruction : Z) : M unit :=
  let kk := kk_of instruction in
  let reg_num := x_of instruction in
  let* Vx := Vreg reg_num in
  if kk =? Vx then skip else ret tt.

Definition case_0x4 (instruction : Z) : M unit :=
  let kk := kk_of instruction in
  let reg_num := x_of instruction in
  let* Vx := Vreg reg_num in
  if negb (kk =? Vx) then skip else ret tt.

Definition case_0x5 (instruction : Z) : M unit :=
  let x_reg_num := x_of instruction in
  let y_reg_num := y_of instruction in
  let* Vx := Vreg x_reg_num in
  let* Vy := Vreg y_reg_num in
  if Vx =? Vy then skip else ret tt.

Definition case_0x6 (instruction : Z) : M unit :=
  let kk := kk_of instruction in
  let x := x_of instruction in
  put_Vreg x kk.

Definition case_0x7 (instruction : Z) : M unit :=
  let kk := kk_of instruction in
  let x_reg_num := x_of instruction in
  let* Vx := Vreg x_reg_num in
  let new_reg_val := u8 (Vx + kk) in
  put_Vreg x_reg_num new_reg_val.

(** [case 0x8]: register-to-register operations.  The flag is written to VF
    first, the result to Vx second. *)
Definition case_0x8 (instruction : Z) : M unit :=
  let finalNib := u8 (n_of instruction) in
  let x_reg_num := x_of instruction in
  let y_reg_num := y_of instruction in
  let* Vy := Vreg y_reg_num in
  let* Vx := Vreg x_reg_num in
  match finalNib with
  | 0x0 => put_Vreg x_reg_num Vy
  | 0x1 => put_Vreg x_reg_num (Z.lor Vx Vy)
  | 0x2 => put_Vreg x_reg_num (Z.land Vx Vy)
  | 0x3 => put_Vreg x_reg_num (Z.lxor Vx Vy)
  | 0x4 =>
      let sum := u16 (u16 Vx + u16 Vy) in
      let result := u8 sum in
      let carry := if sum >? 255 then 1 else 0 in
      put_Vreg 0xF carry ;;;
      put_Vreg x_reg_num result
  | 0x5 =>
      let carry := if Vx >? Vy then 1 else 0 in
      put_Vreg 0xF carry ;;;
      put_Vreg x_reg_num (u8 (Vx - Vy))
  | 0x6 =>
      let lsb := u8 (Z.land Vx 0x1) in
      put_Vreg 0xF lsb ;;;
      put_Vreg x_reg_num (u8 (Vx ≫ 1))
  | 0x7 =>
      let carry := if Vy >? Vx then 1 else 0 in
      put_Vreg 0xF carry ;;;
      put_Vreg x_reg_num (u8 (Vy - Vx))
  | 0xE =>
      let msb := u8 (Vx ≫ 7) in
      put_Vreg 0xF msb ;;;
      put_Vreg x_reg_num (u8 (Vx ≪ 1))
  | _ => ret tt
  end.

Definition case_0x9 (instruction : Z) : M unit :=
  let x_reg_num := u8 (x_of instruction) in
  let y_reg_num := u8 (y_of instruction) in
  let* Vx := Vreg x_reg_num in
  let* Vy := Vreg y_reg_num in
  if negb (Vx =? Vy) then skip else ret tt.

Definition case_0xA (instruction : Z) : M unit :=
  let nnn := nnn_of instruction in
  modify_regs (set_I nnn).

Definition case_0xB (instruction : Z) : M unit :=
  let nnn := nnn_of instruction in
  let* V0 := Vreg 0 in
  modify_regs (set_pc (u16 (nnn + V0))).

Definition case_0xC (h : Host) (instruction : Z) : M unit :=
  let kk := kk_of instruction in
  let x_reg_num := u8 (x_of instruction) in
  let random_byte := u8 (random_num h) in
  put_Vreg x_reg_num (Z.land kk random_byte).

(** The [while (n > 0)] loop of [case 0xD]; [n] counts the rows left. *)
Fixpoint draw_loop (n : nat) (x y memory_location : Z) : M unit :=
  match n with
  | O => ret tt
  | S n' =>
      let* cur_byte := read_ram memory_location in
      let* set_Vf_to_1 := draw_pixel_row x y cur_byte in
      (if set_Vf_to_1 : bool then put_Vreg 15 1 else ret tt) ;;;
      let y := y + 1 in
      let memory_location := u16 (memory_location + 1) in
      if y >=? 32 then ret tt
      else draw_loop n' x y memory_location
  end.

(** [case 0xD]: draw a sprite. *)
Definition case_0xD (instruction : Z) : M unit :=
  let x_reg_num := x_of instruction in
  let y_reg_num := y_of instruction in
  let n := n_of instruction in
  let* Vx := Vreg x_reg_num in
  let* Vy := Vreg y_reg_num in
  let x := Z.land Vx 63 in
  let y := Z.land Vy 31 in
  let* memory_location := gets (fun c => I (regs c)) in
  put_Vreg 15 0x00 ;;;
  draw_loop (Z.to_nat n) x y memory_location.

(** [case 0xE]: skip on key state. *)
Definition case_0xE (h : Host) (instruction : Z) : M unit :=
  let last8 := kk_of instruction in
  let x_reg_num := x_of instruction in
  let* Vx := Vreg x_reg_num in
  match last8 with
  | 0x9E => if key_down h Vx then skip else ret tt
  | 0xA1 => if negb (key_down h Vx) then skip else ret tt
  | _ => ret tt
  end.

(** The [if / else if] chain of [Fx0A]. *)
Definition wait_for_key (h : Host) (x_reg_num : Z) : M unit :=
  if key_state h KEYCODE_1 then put_Vreg x_reg_num 1
  else if key_state h KEYCODE_2 then put_Vreg x_reg_num 2
  else if key_state h KEYCODE_3 then put_Vreg x_reg_num 3
  else if key_state h KEYCODE_Q then put_Vreg x_reg_num 4
  else if key_state h KEYCODE_W then put_Vreg x_reg_num 5
  else if key_state h KEYCODE_E then put_Vreg x_reg_num 6
  else if key_state h KEYCODE_A then put_Vreg x_reg_num 7
  else if key_state h KEYCODE_S then put_Vreg x_reg_num 8
  else if key_state h KEYCODE_D then put_Vreg x_reg_num 9
  else if key_state h KEYCODE_Z then put_Vreg x_reg_num 10
  else if key_state h KEYCODE_X then put_Vreg x_reg_num 0
  else if key_state h KEYCODE_C then put_Vreg x_reg_num 11
  else if key_state h KEYCODE_4 then put_Vreg x_reg_num 12
  else if key_state h KEYCODE_R then put_Vreg x_reg_num 13
  else if key_state h KEYCODE_F then put_Vreg x_reg_num 14
  else if key_state h KEYCODE_V then put_Vreg x_reg_num 15
  else modify_regs (fun r => set_pc (u16 (pc r - 2)) r).

(** [case 0xF]: timers, keys, index register and memory transfers. *)
Definition case_0xF (h : Host) (instruction : Z) : M unit :=
  let last8 := kk_of instruction in
  let x_reg_num := x_of instruction in
  let* Vx := Vreg x_reg_num in
  match last8 with
  | 0x07 =>
      let* dt := gets (fun c => delay_timer (regs c)) in
      put_Vreg x_reg_num dt
  | 0x0A => wait_for_key h x_reg_num
  | 0x15 => modify_regs (set_delay_timer Vx)
  | 0x18 => modify_regs (set_sound_timer Vx)
  | 0x1E => modify_regs (fun r => set_I (u16 (I r + u16 Vx)) r)
  | 0x29 => modify_regs (set_I (u16 (0x050 + Vx * 5)))
  | 0x33 =>
      let* i := gets (fun c => I (regs c)) in
      write_ram (i + 2) (Vx `mod` 10) ;;;
      let Vx := u8 (Vx / 10) in
      write_ram (i + 1) (Vx `mod` 10) ;;;
      let Vx := u8 (Vx / 10) in
      write_ram i (Vx `mod` 10)
  | 0x55 =>
      for_loop (Z.to_nat (x_reg_num + 1)) 0 (fun i =>
        let* base := gets (fun c => I (regs c)) in
        let* Vi := Vreg i in
        write_ram (base + i) Vi)
  | 0x65 =>
      for_loop (Z.to_nat (x_reg_num + 1)) 0 (fun i =>
        let* base := gets (fun c => I (regs c)) in
        let* b := read_ram (base + i) in
        put_Vreg i b)
  | _ => ret tt
  end.

Definition perform_instruction (h : Host) (instruction : Z) : M unit :=
  let opcode := opcode_of instruction in
  match opcode with
  | 0x0 => case_0x0 instruction
  | 0x1 => case_0x1 instruction
  | 0x2 => case_0x2 instruction
  | 0x3 => case_0x3 instruction
  | 0x4 => case_0x4 instruction
  | 0x5 => case_0x5 instruction
  | 0x6 => case_0x6 instruction
  | 0x7 => case_0x7 instruction
  | 0x8 => case_0x8 instruction
  | 0x9 => case_0x9 instruction
  | 0xA => case_0xA instruction
  | 0xB => case_0xB instruction
  | 0xC => case_0xC h instruction
  | 0xD => case_0xD instruction
  | 0xE => case_0xE h instruction
  | 0xF => case_0xF h instruction
  | _ => ret tt
  end.

(** One instruction tick of [run]: fetch, then execute. *)
Definition cycle (h : Host) : M unit :=
  let* instruction := fetch_instruction in
  perform_instruction h instruction.

(** ** perform_instruction, the early revision (chip8.cpp) *)

Module Early.

(** [case 0x0] has no [break] after its inner switch and falls through
    into [case 0x1]. *)
Definition case_0x0 (instruction : Z) : M unit :=
  match instruction with
  | 0x00E0 => modify (fun c => with_screen (clear_screen (screen c)) c)
  | 0x00EE =>
      modify_regs (fun r => set_sp (u8 (sp r - 1)) r) ;;;
      let* top := gets (fun c => sp (regs c)) in
      let* addr := read_stack top in
      modify_regs (set_pc addr)
  | _ => ret tt
  end ;;;
  case_0x1 instruction.

(** [case 0x2] increments [sp] before it stores the return address. *)
Definition case_0x2 (instruction : Z) : M unit :=
  let* top := gets (fun c => sp (regs c)) in
  if top >=? 16 - 1 then report "Stack overflow"
  else
    modify_regs (fun r => set_sp (u8 (sp r + 1)) r) ;;;
    let* top := gets (fun c => sp (regs c)) in
    let* ret_addr := gets (fun c => pc (regs c)) in
    write_stack top ret_addr ;;;
    modify_regs (set_pc (nnn_of instruction)).

(** [case 0x8]: the result is written to Vx first and the flag to VF
    second, except for [0x6], which writes VF first. *)
Definition case_0x8 (instruction : Z) : M unit :=
  let finalNib := u8 (n_of instruction) in
  let x_reg_num := x_of instruction in
  let y_reg_num := y_of instruction in
  let* Vy := Vreg y_reg_num in
  let* Vx := Vreg x_reg_num in
  match finalNib with
  | 0x0 => put_Vreg x_reg_num Vy
  | 0x1 => put_Vreg x_reg_num (Z.lor Vx Vy)
  | 0x2 => put_Vreg x_reg_num (Z.land Vx Vy)
  | 0x3 => put_Vreg x_reg_num (Z.lxor Vx Vy)
  | 0x4 =>
      let sum := u16 (u16 Vx + u16 Vy) in
      let result := u8 sum in
      let carry := if sum >? 255 then 1 else 0 in
      put_Vreg x_reg_num result ;;;
      put_Vreg 0xF carry
  | 0x5 =>
      let carry := if Vx >? Vy then 1 else 0 in
      put_Vreg x_reg_num (u8 (Vx - Vy)) ;;;
      put_Vreg 0xF carry
  | 0x6 =>
      let lsb := u8 (Z.land Vx 0x1) in
      put_Vreg 0xF lsb ;;;
      put_Vreg x_reg_num (u8 (Vx ≫ 1))
  | 0x7 =>
      let carry := if Vy >? Vx then 1 else 0 in
      put_Vreg x_reg_num (u8 (Vy - Vx)) ;;;
      put_Vreg 0xF carry
  | 0xE =>
      let msb := u8 (Vx ≫ 7) in
      put_Vreg x_reg_num (u8 (Vx ≪ 1)) ;;;
      put_Vreg 0xF msb
  | _ => ret tt
  end.

(** Cases [0x3] .. [0x7], [0xA] and [0xD] have the text of the current
    interpreter; cases [0x9], [0xB], [0xC], [0xE] and [0xF] only print. *)
Definition perform_instruction (instruction : Z) : M unit :=
  let opcode := opcode_of instruction in
  match opcode with
  | 0x0 => case_0x0 instruction
  | 0x1 => case_0x1 instruction
  | 0x2 => case_0x2 instruction
  | 0x3 => case_0x3 instruction
  | 0x4 => case_0x4 instruction
  | 0x5 => case_0x5 instruction
  | 0x6 => case_0x6 instruction
  | 0x7 => case_0x7 instruction
  | 0x8 => case_0x8 instruction
  | 0x9 => ret tt
  | 0xA => case_0xA instruction
  | 0xB => ret tt
  | 0xC => ret tt
  | 0xD => case_0xD instruction
  | 0xE => ret tt
  | 0xF => ret tt
  | _ => ret tt
  end.

End Early.

(** ** Sample states and instruction words *)

(** The instruction word with the four nibbles [op], [x], [y], [n]. *)
Definition encode (op x y n : Z) : Z := op * 4096 + x * 256 + y * 16 + n.

(** A machine as the constructor leaves it when every cell is zero: no font
    and no program, PC at the program start. *)
Definition blank : Chip8 :=
  mkChip8 (mkRegisters (replicate 16 0) 0 ROM_START 0 0 0)
          (replicate (Z.to_nat RAM_SIZE) 0)
          (replicate (Z.to_nat STACK_SIZE) 0)
          (replicate (Z.to_nat (SCREEN_WIDTH * SCREEN_HEIGHT)) false)
          [].

Definition no_keys : Host := mkHost (fun _ => false) 0.

(** [poke addr bytes m]: the memory [m] with [bytes] stored from [addr] on. *)
Fixpoint poke (addr : nat) (bytes : list Z) (m : list Z) : list Z :=
  match bytes with
  | [] => m
  | b :: rest => poke (S addr) rest (<[addr := b]> m)
  end.

Definition with_program (bytes : list Z) (c : Chip8) : Chip8 :=
  with_ram (poke (Z.to_nat ROM_START) bytes (ram c)) c.

(** ** The key map (string keyed revision) *)

Module KeyMap.

(** The key codes of the host library that the handlers switch on.  They are
    the case labels of one switch, hence distinct; [SDLK_other] stands for
    every other key code. *)
Inductive SDL_Keycode : Type :=
| SDLK_1 | SDLK_2 | SDLK_3 | SDLK_4
| SDLK_q | SDLK_w | SDLK_e | SDLK_r
| SDLK_a | SDLK_s | SDLK_d | SDLK_f
| SDLK_z | SDLK_x | SDLK_c | SDLK_v
| SDLK_other.

(** The global [key_state] table as it is initialised. *)
Definition key_state : gmap string bool :=
  list_to_map
    [ ("1", false); ("2", false); ("3", false); ("4", false);
      ("Q", false); ("W", false); ("E", false); ("R", false);
      ("A", false); ("S", false); ("D", false); ("F", false);
      ("Z", false); ("X", false); ("C", false); ("V", false) ]%string.

Definition handle_key_down (key_pressed : SDL_Keycode) (ks : gmap string bool)
    : gmap string bool :=
  match key_pressed with
  | SDLK_1 => <["1"%string := true]> ks
  | SDLK_2 => <["2"%string := true]> ks
  | SDLK_3 => <["3"%string := true]> ks
  | SDLK_4 => <["4"%string := true]> ks
  | SDLK_q => <["Q"%string := true]> ks
  | SDLK_w => <["W"%string := true]> ks
  | SDLK_e => <["E"%string := true]> ks
  | SDLK_r => <["R"%string := true]> ks
  | SDLK_a => <["A"%string := true]> ks
  | SDLK_s => <["S"%string := true]> ks
  | SDLK_d => <["D"%string := true]> ks
  | SDLK_f => <["F"%string := true]> ks
  | SDLK_z => <["Z"%string := true]> ks
  | SDLK_x => <["X"%string := true]> ks
  | SDLK_c => <["C"%string := true]> ks
  | SDLK_v => <["V"%string := true]> ks
  | SDLK_other => ks
  end.

Definition handle_key_up (key_pressed : SDL_Keycode) (ks : gmap string bool)
    : gmap string bool :=
  match key_pressed with
  | SDLK_1 => <["1"%string := false]> ks
  | SDLK_2 => <["2"%string := false]> ks
  | SDLK_3 => <["3"%string := false]> ks
  | SDLK_4 => <["4"%string := false]> ks
  | SDLK_q => <["Q"%string := false]> ks
  | SDLK_w => <["W"%string := false]> ks
  | SDLK_e => <["E"%string := false]> ks
  | SDLK_r => <["R"%string := false]> ks
  | SDLK_a => <["A"%string := false]> ks
  | SDLK_s => <["S"%string := false]> ks
  | SDLK_d => <["D"%string := false]> ks
  | SDLK_f => <["F"%string := false]> ks
  | SDLK_z => <["Z"%string := false]> ks
  | SDLK_x => <["X"%string := false]> ks
  | SDLK_c => <["C"%string := false]> ks
  | SDLK_v => <["V"%string := false]> ks
  | SDLK_other => ks
  end.

Definition get_key_from_u8 (value : Z) : string :=
  match value with
  | 0x1 => "1"
  | 0x2 => "2"
  | 0x3 => "3"
  | 0xC => "4"
  | 0x4 => "Q"
  | 0x5 => "W"
  | 0x6 => "E"
  | 0xD => "R"
  | 0x7 => "A"
  | 0x8 => "S"
  | 0x9 => "D"
  | 0xE => "F"
  | 0xA => "Z"
  | 0x0 => "X"
  | 0xB => "C"
  | 0xF => "V"
  | _ => "Unknown"
  end%string.

(** The key events the run loop hands to the two handlers. *)
Inductive key_event : Type :=
| KEYDOWN (sym : SDL_Keycode)
| KEYUP (sym : SDL_Keycode).

Definition handle_event (ks : gmap string bool) (e : key_event) : gmap string bool :=
  match e with
  | KEYDOWN sym => handle_key_down sym ks
  | KEYUP sym => handle_key_up sym ks
  end.

(** The events of one drain of the event queue, oldest first. *)
Definition handle_events (es : list key_event) (ks : gmap string bool)
    : gmap string bool :=
  foldl handle_event ks es.

End KeyMap.

(** ** Timer ticks *)

(** [n] render ticks of [run], each calling [update_timers]. *)
Fixpoint ticks (n : nat) : M unit :=
  match n with
  | O => ret tt
  | S n' => update_timers ;;; ticks n'
  end.

(** * Vocabulary of the properties *)

(** The five sub-opcodes of [0x8] that write a flag to VF. *)
Definition writes_flag (instruction : Z) : Prop :=
  opcode_of instruction = 8 /\
  (n_of instruction = 0x4 \/ n_of instruction = 0x5 \/ n_of instruction = 0x7 \/
   n_of instruction = 0x6 \/ n_of instruction = 0xE).

(** V1 = 1 and VF = 3, everything else zero. *)
Definition flag_aliased : Chip8 :=
  with_regs (put_value_in_Vreg 15 3 (put_value_in_Vreg 1 1 (regs blank))) blank.

(** The register file V0..VF an instruction leaves behind. *)
Definition final_V (r : res unit) : option (list Z) :=
  match r with
  | Ok _ c => Some (V (regs c))
  | Fault _ _ => None
  end.

(** The carry or borrow the instruction set defines for 8xy4, 8xy5 and 8xy7,
    from the operand values. *)
Definition flag_of (n Vx Vy : Z) : Z :=
  match n with
  | 0x4 => if Vx + Vy >? 255 then 1 else 0
  | 0x5 => if Vx >? Vy then 1 else 0
  | 0x7 => if Vy >? Vx then 1 else 0
  | _ => 0
  end.

(** The instructions 8xy4, 8xy5 and 8xy7. *)
Definition arithmetic (instruction : Z) : Prop :=
  opcode_of instruction = 8 /\
  (n_of instruction = 0x4 \/ n_of instruction = 0x5 \/ n_of instruction = 0x7).

(** Every cell holds a byte. *)
Definition bytes (l : list Z) : Prop := Forall (fun b => 0 <= b <= 255) l.

(** The value 8xy4, 8xy5 and 8xy7 store in Vx. *)
Definition result_of (n Vx Vy : Z) : Z :=
  match n with
  | 0x4 => u8 (u16 (u16 Vx + u16 Vy))
  | 0x5 => u8 (Vx - Vy)
  | 0x7 => u8 (Vy - Vx)
  | _ => Vx
  end.

(** The instruction ticks of [run], one per host snapshot. *)
Fixpoint cycles (hs : list Host) : M unit :=
  match hs with
  | [] => ret tt
  | h :: rest => cycle h ;;; cycles rest
  end.

(** Every one of the next [length hs] instructions fetched is a call. *)
Fixpoint all_calls (hs : list Host) (c : Chip8) : bool :=
  match hs with
  | [] => true
  | h :: rest =>
      match fetch_instruction c with
      | Ok instruction c1 =>
          (opcode_of instruction =? 2) &&
          match perform_instruction h instruction c1 with
          | Ok _ c2 => all_calls rest c2
          | Fault _ _ => false
          end
      | Fault _ _ => false
      end
  end.

(** PC, SP and the reports a computation leaves behind. *)
Definition control_after (r : res unit) : option (Z * Z * list string) :=
  match r with
  | Ok _ c => Some (pc (regs c), sp (regs c), cerr c)
  | Fault _ _ => None
  end.

(** Sixteen calls chained one after the other: the call at 0x200 + 2k jumps
    to 0x200 + 2(k+1). *)
Definition call_chain : list Z :=
  flat_map (fun k => [0x22; 2 * k + 2]) (seqZ 0 16).

(** A call to 0x204, where a return sits. *)
Definition call_and_return : list Z := [0x22; 0x04; 0; 0; 0x00; 0xEE].

(** The logical keys in the order Fx0A gives them priority. *)
Definition key_priority : list Z :=
  [0x1; 0x2; 0x3; 0x4; 0x5; 0x6; 0x7; 0x8; 0x9; 0xA; 0x0; 0xB; 0xC; 0xD; 0xE; 0xF].

(** The keys W (hex 5) and Z (hex A) are held down. *)
Definition keys_5_and_A : Host :=
  mkHost (fun k => match k with KEYCODE_W | KEYCODE_Z => true | _ => false end) 0.

(** V0 .. V(n-1) set to zero, written on the register array itself. *)
Definition zero_registers (n : nat) (r : Registers) : Registers :=
  set_V (replicate n 0 ++ drop n (V r)) r.

(** The body of the Fx55 loop. *)
Definition store_body (i : Z) : M unit :=
  let* base := gets (fun c => I (regs c)) in
  let* Vi := Vreg i in
  write_ram (base + i) Vi.

(** The body of the Fx65 loop. *)
Definition load_body (i : Z) : M unit :=
  let* base := gets (fun c => I (regs c)) in
  let* b := read_ram (base + i) in
  put_Vreg i b.

(** V0..VF hold 1..16 and I points at 0x300. *)
Definition counting : Chip8 :=
  with_regs (mkRegisters (seqZ 1 16) 0x300 ROM_START 0 0 0) blank.

(** The loader gave up on the file: it reported [msg] and left the machine
    as it was. *)
Definition rejected (fileName : string) (f : rom_file) (c : Chip8) : Prop :=
  exists msg, load_rom fileName f c = Ok tt (with_cerr (cerr c ++ [msg]) c).

(** The body of the copy loop of [load_rom]. *)
Definition copy_body (buffer : list Z) (i : Z) : M unit :=
  write_ram (ROM_START + i) (u8 (default 0 (buffer !! Z.to_nat i))).

(** A blob of 3585 bytes, one more than fits behind 0x200. *)
Definition oversized : rom_file := Opened (replicate 3585 0xAA) true.

(** The run loop as a step relation: from [c0], instruction ticks and timer
    ticks in any order, under any host input.  [allowed] restricts the
    instructions that are executed. *)
Inductive reaches (allowed : Z -> Chip8 -> bool) (c0 : Chip8) : Chip8 -> Prop :=
| reaches_start : reaches allowed c0 c0
| reaches_cycle (h : Host) (c c1 c2 : Chip8) (instruction : Z) :
    reaches allowed c0 c ->
    fetch_instruction c = Ok instruction c1 ->
    allowed instruction c1 = true ->
    perform_instruction h instruction c1 = Ok tt c2 ->
    reaches allowed c0 c2
| reaches_timers (c c' : Chip8) :
    reaches allowed c0 c ->
    update_timers c = Ok tt c' ->
    reaches allowed c0 c'.

(** From a well-formed state with even PC and empty call stack, PC is even
    after every fetch of a run made of [allowed] instructions. *)
Definition pc_even_after_fetch (allowed : Z -> Chip8 -> bool) : Prop :=
  forall (c0 c c1 : Chip8) (instruction : Z),
    wf c0 -> Z.even (pc (regs c0)) = true -> sp (regs c0) = 0 ->
    reaches allowed c0 c ->
    fetch_instruction c = Ok instruction c1 ->
    Z.even (pc (regs c1)) = true.

(** No restriction on the instructions of a run. *)
Definition any_instruction (instruction : Z) (c : Chip8) : bool := true.

(** Jumps and calls go to [good] addresses: nnn for 1nnn and 2nnn, and the
    sum nnn + V0, as it is stored in PC, for Bnnn. *)
Definition targets (good : Z -> bool) (instruction : Z) (c : Chip8) : bool :=
  match opcode_of instruction with
  | 0x1 | 0x2 => good (nnn_of instruction)
  | 0xB => good (u16 (nnn_of instruction + get_value_in_Vreg 0 (regs c)))
  | _ => true
  end.

(** Jumps and calls go to even addresses. *)
Definition even_targets : Z -> Chip8 -> bool := targets Z.even.

(** PC is [good], and so is every return address on the call stack, which
    holds at most 15 of them. *)
Definition aligned (good : Z -> bool) (c : Chip8) : Prop :=
  good (pc (regs c)) = true /\
  0 <= sp (regs c) <= 15 /\
  forall i a, 0 <= i < sp (regs c) -> stack c !! Z.to_nat i = Some a -> good a = true.

(** [m] keeps the machine aligned. *)
Definition preserves (good : Z -> bool) {A} (m : M A) : Prop :=
  forall c a c', aligned good c -> m c = Ok a c' -> aligned good c'.

(** A jump to the odd address 0x203 at the program start. *)
Definition odd_jump : list Z := [0x12; 0x03].

(** A jump over two bytes to 0x204, where a jump back to 0x200 sits. *)
Definition even_jumps : list Z := [0x12; 0x04; 0; 0; 0x12; 0x00].

(** The pixel at column [px] and row [py]. *)
Definition pixel (scr : list bool) (px py : Z) : bool :=
  default false (scr !! pixel_index px py).

(** The bits [bit_index .. bit_index + k - 1] of a sprite byte drawn at
    (x, y), as a mask over the display. *)
Definition row_mask (x y cur_byte bit_index : Z) (k : nat) (px py : Z) : bool :=
  (py =? y) && (x + bit_index <=? px) && (px <? x + bit_index + Z.of_nat k) &&
  Z.testbit cur_byte (7 - (px - x)).

(** The [n] sprite rows stored from [mem] on, drawn with their top left
    corner at (x, y), as a mask over the display: row r of the sprite lies on
    display row y + r, bit b (from the most significant) on column x + b. *)
Definition sprite_mask (m : list Z) (x y mem : Z) (n : nat) (px py : Z) : bool :=
  (x <=? px) && (px <? x + 8) && (y <=? py) && (py <? y + Z.of_nat n) &&
  Z.testbit (default 0 (m !! Z.to_nat (mem + (py - y)))) (7 - (px - x)).

(** Some pixel of the display is set where the mask is set. *)
Definition collides (scr : list bool) (mask : Z -> Z -> bool) : Prop :=
  exists px py, 0 <= px < 64 /\ 0 <= py < 32 /\
                pixel scr px py = true /\ mask px py = true.

(** Some pixel went from set to clear between two displays. *)
Definition erased (before after : list bool) : Prop :=
  exists px py, 0 <= px < 64 /\ 0 <= py < 32 /\
                pixel before px py = true /\ pixel after px py = false.

(** A full sprite row 0xFF at 0x300, to be drawn at (62, 31) by D012: V0 =
    62 + 64, V1 = 31 + 32 and I = 0x300. *)
Definition corner_sprite : Chip8 :=
  with_ram (<[Z.to_nat 0x300 := 0xFF]> (<[Z.to_nat 0x301 := 0xFF]> (ram blank)))
    (with_regs (set_I 0x300 (put_value_in_Vreg 1 63 (put_value_in_Vreg 0 126 (regs blank))))
       blank).

(** The pixels set on the display, as (column, row) pairs. *)
Definition lit (scr : list bool) : list (Z * Z) :=
  omap (fun '(i, b) => if b : bool then Some (Z.of_nat i `mod` 64, Z.of_nat i / 64) else None)
       (imap pair scr).

(** The pixels lit and the value of VF an instruction leaves behind. *)
Definition lit_after (r : res unit) : option (list (Z * Z) * Z) :=
  match r with
  | Ok _ c => Some (lit (screen c), get_value_in_Vreg 0xF (regs c))
  | Fault _ _ => None
  end.

(** ** Vocabulary: the key map *)

(** The entry of [key_state] a key code drives, read off the handlers. *)
Definition key_name (sym : KeyMap.SDL_Keycode) : option string :=
  match sym with
  | KeyMap.SDLK_1 => Some "1" | KeyMap.SDLK_2 => Some "2"
  | KeyMap.SDLK_3 => Some "3" | KeyMap.SDLK_4 => Some "4"
  | KeyMap.SDLK_q => Some "Q" | KeyMap.SDLK_w => Some "W"
  | KeyMap.SDLK_e => Some "E" | KeyMap.SDLK_r => Some "R"
  | KeyMap.SDLK_a => Some "A" | KeyMap.SDLK_s => Some "S"
  | KeyMap.SDLK_d => Some "D" | KeyMap.SDLK_f => Some "F"
  | KeyMap.SDLK_z => Some "Z" | KeyMap.SDLK_x => Some "X"
  | KeyMap.SDLK_c => Some "C" | KeyMap.SDLK_v => Some "V"
  | KeyMap.SDLK_other => None
  end%string.

#[global] Instance SDL_Keycode_eq_dec : EqDecision KeyMap.SDL_Keycode.
Proof. solve_decision. Defined.

(** Whether an event is about the key [sym], and if so whether it presses
    it. *)
Definition event_on (sym : KeyMap.SDL_Keycode) (e : KeyMap.key_event) : option bool :=
  match e with
  | KeyMap.KEYDOWN k => if decide (k = sym) then Some true else None
  | KeyMap.KEYUP k => if decide (k = sym) then Some false else None
  end.

(** The direction of the last event about [sym] in a list of events, oldest
    first. *)
Fixpoint last_event (sym : KeyMap.SDL_Keycode) (es : list KeyMap.key_event)
    : option bool :=
  match es with
  | [] => None
  | e :: rest =>
      match last_event sym rest with
      | Some b => Some b
      | None => event_on sym e
      end
  end.

(** ** Vocabulary: timers and skips *)

(** The machine with its two timers set. *)
Definition timers_set (d s : Z) (c : Chip8) : Chip8 :=
  with_regs (set_sound_timer s (set_delay_timer d (regs c))) c.

(** The machine after a skip: PC two bytes further. *)
Definition skipped (c : Chip8) : Chip8 :=
  with_regs (set_pc (u16 (pc (regs c) + 2)) (regs c)) c.

(** Of two instructions run from the same state, exactly one skips and the
    other changes nothing; [first_skips] tells which. *)
Definition complementary (r1 r2 : res unit) (c : Chip8) (first_skips : Prop) : Prop :=
  (first_skips /\ r1 = Ok tt (skipped c) /\ r2 = Ok tt c) \/
  (~ first_skips /\ r1 = Ok tt c /\ r2 = Ok tt (skipped c)).

(** ** Vocabulary: keys and memory *)

(** The machine after the rewind of Fx0A: PC two bytes back. *)
Definition rewound (c : Chip8) : Chip8 :=
  with_regs (set_pc (u16 (pc (regs c) - 2)) (regs c)) c.

(** The machine after a jump to [addr]. *)
Definition jumped (addr : Z) (c : Chip8) : Chip8 :=
  with_regs (set_pc addr (regs c)) c.

(** ** Vocabulary: what an instruction leaves alone *)

(** The machine a computation ends in, whether it returns or faults. *)
Definition state_of {A} (r : res A) : Chip8 :=
  match r with
  | Ok _ c => c
  | Fault _ c => c
  end.

(** [m] never changes the part [f] of the machine. *)
Definition untouched {A B} (f : Chip8 -> B) (m : M A) : Prop :=
  forall c, f (state_of (m c)) = f c.

(** Fx33 and Fx55, the instructions with a write to memory in their text. *)
Definition writes_memory (instruction : Z) : bool :=
  (opcode_of instruction =? 0xF) &&
  ((kk_of instruction =? 0x33) || (kk_of instruction =? 0x55)).

(** 00E0 and Dxyn, the instructions that call into the display. *)
Definition draws (instruction : Z) : bool :=
  (instruction =? 0x00E0) || (opcode_of instruction =? 0xD).

(** Runs without the instructions that [excluded] picks. *)
Definition without (excluded : Z -> bool) (instruction : Z) (c : Chip8) : bool :=
  negb (excluded instruction).

(** * Properties *)

(** ** Words and nibbles *)

Lemma land_0xF_range (a : Z) : 0 <= Z.land a 0xF <= 15.
Proof.
  change (Z.land a 0xF) with (Z.land a (Z.ones 4)). rewrite Z.land_ones by lia.
  change (2 ^ 4) with 16. pose proof (Z.mod_pos_bound a 16). lia.
Qed.

Lemma x_of_range (instruction : Z) : 0 <= x_of instruction <= 15.
Proof. apply land_0xF_range. Qed.

Lemma y_of_range (instruction : Z) : 0 <= y_of instruction <= 15.
Proof. apply land_0xF_range. Qed.

Lemma n_of_range (instruction : Z) : 0 <= n_of instruction <= 15.
Proof. apply land_0xF_range. Qed.

Section Encode.
Variables op x y n : Z.
Hypothesis Hop : 0 <= op <= 15.
Hypothesis Hx : 0 <= x <= 15.
Hypothesis Hy : 0 <= y <= 15.
Hypothesis Hn : 0 <= n <= 15.

Lemma opcode_of_encode : opcode_of (encode op x y n) = op.
Proof using Hop Hx Hy Hn.
  unfold opcode_of, encode, u8. rewrite Z.shiftr_div_pow2 by lia.
  change (2 ^ 12) with 4096. Z.div_mod_to_equations. lia.
Qed.

Lemma x_of_encode : x_of (encode op x y n) = x.
Proof using Hop Hx Hy Hn.
  unfold x_of, encode. change 0xF with (Z.ones 4).
  rewrite Z.land_ones, Z.shiftr_div_pow2 by lia.
  change (2 ^ 8) with 256. change (2 ^ 4) with 16.
  Z.div_mod_to_equations. lia.
Qed.

Lemma y_of_encode : y_of (encode op x y n) = y.
Proof using Hop Hx Hy Hn.
  unfold y_of, encode. change 0xF with (Z.ones 4).
  rewrite Z.land_ones, Z.shiftr_div_pow2 by lia.
  change (2 ^ 4) with 16. Z.div_mod_to_equations. lia.
Qed.

Lemma n_of_encode : n_of (encode op x y n) = n.
Proof using Hop Hx Hy Hn.
  unfold n_of, encode. change 0xF with (Z.ones 4).
  rewrite Z.land_ones by lia. change (2 ^ 4) with 16.
  Z.div_mod_to_equations. lia.
Qed.

Lemma nnn_of_encode : nnn_of (encode op x y n) = x * 256 + y * 16 + n.
Proof using Hop Hx Hy Hn.
  unfold nnn_of, encode. change 0xFFF with (Z.ones 12).
  rewrite Z.land_ones by lia. change (2 ^ 12) with 4096.
  Z.div_mod_to_equations. lia.
Qed.
End Encode.

Lemma nnn_of_range (instruction : Z) : 0 <= nnn_of instruction <= 0xFFF.
Proof.
  unfold nnn_of. change (Z.land instruction 0xFFF) with (Z.land instruction (Z.ones 12)).
  rewrite Z.land_ones by lia. change (2 ^ 12) with 4096.
  pose proof (Z.mod_pos_bound instruction 4096). lia.
Qed.

(** ** The register file *)

Lemma get_put_same (i v : Z) (r : Registers) :
  0 <= i <= 15 -> length (V r) = 16%nat ->
  get_value_in_Vreg i (put_value_in_Vreg i v r) = v.
Proof.
  intros Hi Hlen. unfold get_value_in_Vreg, put_value_in_Vreg.
  replace (i >? 15) with false by lia. replace (i <? 0) with false by lia.
  simpl. rewrite list_lookup_insert_eq by lia. reflexivity.
Qed.

Lemma get_put_other (i j v : Z) (r : Registers) :
  0 <= j -> i <> j ->
  get_value_in_Vreg j (put_value_in_Vreg i v r) = get_value_in_Vreg j r.
Proof.
  intros Hj Hne. unfold get_value_in_Vreg, put_value_in_Vreg.
  destruct ((i >? 15) || (i <? 0)) eqn:Hi; [reflexivity|].
  destruct ((j <? 0) || (j >? 15)); [reflexivity|].
  simpl. rewrite list_lookup_insert_ne by lia. reflexivity.
Qed.

Lemma put_put_comm (i j a b : Z) (r : Registers) :
  0 <= i -> 0 <= j -> i <> j ->
  put_value_in_Vreg i a (put_value_in_Vreg j b r) =
  put_value_in_Vreg j b (put_value_in_Vreg i a r).
Proof.
  intros Hi Hj Hne. unfold put_value_in_Vreg.
  destruct ((i >? 15) || (i <? 0)), ((j >? 15) || (j <? 0)); try reflexivity.
  unfold set_V. simpl. f_equal. apply list_insert_insert_ne. lia.
Qed.

Lemma put_length (i v : Z) (r : Registers) :
  length (V (put_value_in_Vreg i v r)) = length (V r).
Proof.
  unfold put_value_in_Vreg. destruct ((i >? 15) || (i <? 0)); [reflexivity|].
  simpl. apply length_insert.
Qed.

Arguments put_value_in_Vreg : simpl never.
Arguments get_value_in_Vreg : simpl never.

(** Running the state monad by hand. *)
Ltac run_monad :=
  cbv [bind gets modify_regs modify put_Vreg Vreg ret skip report]; simpl.

(** ** The two revisions on the flag-writing opcodes *)

Lemma flag_writes_agree (h : Host) (instruction : Z) (c : Chip8) :
  writes_flag instruction -> x_of instruction <> 0xF ->
  perform_instruction h instruction c = Early.perform_instruction instruction c.
Proof.
  intros [Hop Hn] Hx. pose proof (x_of_range instruction) as Hr.
  unfold perform_instruction, Early.perform_instruction. rewrite Hop.
  unfold case_0x8, Early.case_0x8.
  destruct Hn as [Hn|[Hn|[Hn|[Hn|Hn]]]]; rewrite Hn; run_monad;
    unfold with_regs; simpl; try reflexivity;
    rewrite (put_put_comm (x_of instruction) 15) by lia; reflexivity.
Qed.

Lemma flag_writes_differ :
  final_V (perform_instruction no_keys (encode 8 0xF 1 4) flag_aliased) <>
  final_V (Early.perform_instruction (encode 8 0xF 1 4) flag_aliased).
Proof. vm_compute. discriminate. Qed.

(** 8xy6 writes VF first in both revisions: they agree on it for every x. *)
Lemma shift_right_agrees (h : Host) (instruction : Z) (c : Chip8) :
  opcode_of instruction = 8 -> n_of instruction = 0x6 ->
  perform_instruction h instruction c = Early.perform_instruction instruction c.
Proof.
  intros Hop Hn. unfold perform_instruction, Early.perform_instruction.
  rewrite Hop. unfold case_0x8, Early.case_0x8. rewrite Hn. reflexivity.
Qed.

(** 8xy5, 8xy7 and 8xyE differ like 8xy4 when the destination is VF. *)
Lemma other_flag_writes_differ :
  final_V (perform_instruction no_keys (encode 8 0xF 1 5) flag_aliased) <>
  final_V (Early.perform_instruction (encode 8 0xF 1 5) flag_aliased) /\
  final_V (perform_instruction no_keys (encode 8 0xF 1 7) flag_aliased) <>
  final_V (Early.perform_instruction (encode 8 0xF 1 7) flag_aliased) /\
  final_V (perform_instruction no_keys (encode 8 0xF 1 0xE) flag_aliased) <>
  final_V (Early.perform_instruction (encode 8 0xF 1 0xE) flag_aliased).
Proof. repeat split; vm_compute; discriminate. Qed.

(** C8: on the flag-writing opcodes 8xy4/5/7/6/E the two revisions of
    [perform_instruction] write VF and Vx in different orders: some state and
    some instruction of the family with x = 0xF give different final
    register files, and for every x other than 0xF the two revisions give the
    same final register file (indeed the same final state). *)
Theorem revisions_disagree_only_on_VF_destination :
  (exists (c : Chip8) (instruction : Z),
      writes_flag instruction /\ x_of instruction = 0xF /\
      final_V (perform_instruction no_keys instruction c) <>
      final_V (Early.perform_instruction instruction c)) /\
  (forall (h : Host) (c : Chip8) (instruction : Z),
      writes_flag instruction -> x_of instruction <> 0xF ->
      final_V (perform_instruction h instruction c) =
      final_V (Early.perform_instruction instruction c)).
Proof.
  split.
  - exists flag_aliased, (encode 8 0xF 1 4). split; [|split].
    + split; [reflexivity | left; reflexivity].
    + reflexivity.
    + apply flag_writes_differ.
  - intros h c instruction Hf Hx. f_equal. apply flag_writes_agree; assumption.
Qed.

Lemma revisions_disagree_only_on_VF_destination_witness :
  writes_flag (encode 8 2 1 5) /\ x_of (encode 8 2 1 5) <> 0xF /\
  final_V (perform_instruction no_keys (encode 8 2 1 5) flag_aliased) =
  final_V (Early.perform_instruction (encode 8 2 1 5) flag_aliased).
Proof.
  assert (Hf : writes_flag (encode 8 2 1 5))
    by (split; [reflexivity | right; left; reflexivity]).
  assert (Hx : x_of (encode 8 2 1 5) <> 0xF) by (vm_compute; discriminate).
  split; [exact Hf | split; [exact Hx |]].
  exact (proj2 revisions_disagree_only_on_VF_destination
           no_keys flag_aliased (encode 8 2 1 5) Hf Hx).
Defined.

(** ** The flag of the arithmetic opcodes *)

Lemma get_byte (i : Z) (r : Registers) :
  bytes (V r) -> 0 <= get_value_in_Vreg i r <= 255.
Proof.
  intros Hb. unfold get_value_in_Vreg.
  destruct ((i <? 0) || (i >? 15)); [vm_compute; split; discriminate|].
  destruct (V r !! Z.to_nat i) as [b|] eqn:Hl; simpl.
  - exact (Forall_lookup_1 _ _ _ _ Hb Hl).
  - vm_compute; split; discriminate.
Qed.

(** When the destination is not VF the flag written first survives. *)
Lemma flag_kept_when_unaliased (h : Host) (instruction : Z) (c : Chip8) :
  arithmetic instruction -> x_of instruction <> 0xF ->
  length (V (regs c)) = 16%nat -> bytes (V (regs c)) ->
  exists c', perform_instruction h instruction c = Ok tt c' /\
    get_value_in_Vreg 0xF (regs c') =
    flag_of (n_of instruction)
      (get_value_in_Vreg (x_of instruction) (regs c))
      (get_value_in_Vreg (y_of instruction) (regs c)).
Proof.
  intros [Hop Hn] Hx Hlen Hb. pose proof (x_of_range instruction) as Hr.
  pose proof (get_byte (x_of instruction) _ Hb) as Hbx.
  pose proof (get_byte (y_of instruction) _ Hb) as Hby.
  unfold perform_instruction. rewrite Hop. unfold case_0x8.
  destruct Hn as [Hn|[Hn|Hn]]; rewrite Hn; run_monad;
    eexists; (split; [reflexivity|]); simpl;
    rewrite get_put_other by lia; rewrite get_put_same by (lia || assumption);
    try reflexivity.
  unfold u16.
  rewrite (Z.mod_small (get_value_in_Vreg (x_of instruction) (regs c))) by lia.
  rewrite (Z.mod_small (get_value_in_Vreg (y_of instruction) (regs c))) by lia.
  rewrite Z.mod_small by lia. reflexivity.
Qed.

(** The same for the instruction word built from its nibbles: every
    destination V0..VE and every source V0..VF. *)
Corollary flag_kept_for_other_registers (h : Host) (x y n : Z) (c : Chip8) :
  0 <= x < 15 -> 0 <= y <= 15 -> n = 0x4 \/ n = 0x5 \/ n = 0x7 ->
  length (V (regs c)) = 16%nat -> bytes (V (regs c)) ->
  exists c', perform_instruction h (encode 8 x y n) c = Ok tt c' /\
    get_value_in_Vreg 0xF (regs c') =
    flag_of n (get_value_in_Vreg x (regs c)) (get_value_in_Vreg y (regs c)).
Proof.
  intros Hx Hy Hn Hlen Hb.
  assert (Hnr : 0 <= n <= 15) by lia.
  pose proof (flag_kept_when_unaliased h (encode 8 x y n) c) as H.
  rewrite x_of_encode, y_of_encode, n_of_encode in H by lia.
  apply H; try assumption; [|lia].
  split; [apply opcode_of_encode; lia | rewrite n_of_encode by lia; exact Hn].
Qed.

(** When the destination is VF the result written second replaces the
    flag. *)
Lemma flag_overwritten_when_aliased (h : Host) (instruction : Z) (c : Chip8) :
  arithmetic instruction -> x_of instruction = 0xF ->
  length (V (regs c)) = 16%nat ->
  exists c', perform_instruction h instruction c = Ok tt c' /\
    get_value_in_Vreg 0xF (regs c') =
    result_of (n_of instruction)
      (get_value_in_Vreg 0xF (regs c))
      (get_value_in_Vreg (y_of instruction) (regs c)).
Proof.
  intros [Hop Hn] Hx Hlen.
  unfold perform_instruction. rewrite Hop. unfold case_0x8. rewrite Hx.
  destruct Hn as [Hn|[Hn|Hn]]; rewrite Hn; run_monad;
    eexists; (split; [reflexivity|]); simpl;
    rewrite get_put_same by (lia || (rewrite put_length; assumption));
    reflexivity.
Qed.

(** C1, at the aliased destination: with V1 = 1 and VF = 3 the instruction
    8F14 (VF := VF + V1) leaves VF = 4, the low byte of the sum, although the
    carry of 3 + 1 computed from the operands is 0.  The flag is written
    first and then overwritten by the result. *)
Theorem add_into_VF_loses_carry :
  exists c',
    perform_instruction no_keys (encode 8 0xF 1 4) flag_aliased = Ok tt c' /\
    get_value_in_Vreg 0xF (regs c') = 4 /\
    flag_of 0x4 (get_value_in_Vreg 0xF (regs flag_aliased))
                (get_value_in_Vreg 1 (regs flag_aliased)) = 0.
Proof. eexists. split; [vm_compute; reflexivity | split; reflexivity]. Qed.

(** ** Calls and returns *)

Lemma fetch_ok (c c' : Chip8) (instruction : Z) :
  fetch_instruction c = Ok instruction c' ->
  c' = with_regs (set_pc (u16 (pc (regs c) + 2)) (regs c)) c /\
  0 <= pc (regs c) /\ pc (regs c) + 1 < RAM_SIZE.
Proof.
  unfold fetch_instruction, read_ram. run_monad.
  destruct (in_bounds (pc (regs c)) RAM_SIZE) eqn:H1; [|discriminate].
  destruct (ram c !! Z.to_nat (pc (regs c))); [|discriminate].
  destruct (in_bounds (pc (regs c) + 1) RAM_SIZE) eqn:H2; [|discriminate].
  destruct (ram c !! Z.to_nat (pc (regs c) + 1)); [|discriminate].
  intros H. injection H as _ <-. unfold in_bounds in *. split; [reflexivity | lia].
Qed.

Lemma call_pushes (h : Host) (instruction : Z) (c : Chip8) :
  opcode_of instruction = 2 -> 0 <= sp (regs c) < 15 ->
  perform_instruction h instruction c =
  Ok tt (with_regs (set_pc (nnn_of instruction)
                      (set_sp (sp (regs c) + 1) (regs c)))
           (with_stack (<[Z.to_nat (sp (regs c)) := pc (regs c)]> (stack c)) c)).
Proof.
  intros Hop Hsp. unfold perform_instruction. rewrite Hop. unfold case_0x2.
  run_monad. replace (sp (regs c) >=? 15) with false by lia.
  unfold write_stack, in_bounds, STACK_SIZE.
  replace ((0 <=? sp (regs c)) && (sp (regs c) <? 16)) with true by lia.
  simpl. unfold u8. rewrite Z.mod_small by lia. reflexivity.
Qed.

Lemma call_overflow (h : Host) (instruction : Z) (c : Chip8) :
  opcode_of instruction = 2 -> sp (regs c) = 15 ->
  perform_instruction h instruction c =
  Ok tt (with_cerr (cerr c ++ ["Stack overflow"%string]) c).
Proof.
  intros Hop Hsp. unfold perform_instruction. rewrite Hop. unfold case_0x2.
  run_monad. rewrite Hsp. reflexivity.
Qed.

Lemma return_pops (h : Host) (c : Chip8) :
  wf c -> 1 <= sp (regs c) <= 16 ->
  exists addr,
    stack c !! Z.to_nat (sp (regs c) - 1) = Some addr /\
    perform_instruction h 0x00EE c =
    Ok tt (with_regs (set_pc addr (set_sp (sp (regs c) - 1) (regs c))) c).
Proof.
  intros (_ & _ & Hst & _) Hsp.
  destruct (stack c !! Z.to_nat (sp (regs c) - 1)) as [addr|] eqn:Hl.
  2: { apply lookup_ge_None in Hl. unfold STACK_SIZE in Hst. lia. }
  exists addr. split; [reflexivity|].
  change (perform_instruction h 0x00EE c) with (case_0x0 0x00EE c).
  unfold case_0x0. run_monad. unfold read_stack, in_bounds, STACK_SIZE. simpl.
  unfold u8. rewrite Z.mod_small by lia.
  replace ((0 <=? sp (regs c) - 1) && (sp (regs c) - 1 <? 16)) with true by lia.
  rewrite Hl. reflexivity.
Qed.

Lemma return_underflows (h : Host) (c : Chip8) :
  sp (regs c) = 0 ->
  perform_instruction h 0x00EE c =
  Fault (StackOutOfBounds 255) (with_regs (set_sp 255 (regs c)) c).
Proof.
  intros Hsp.
  change (perform_instruction h 0x00EE c) with (case_0x0 0x00EE c).
  unfold case_0x0. run_monad. unfold read_stack. simpl. rewrite Hsp. reflexivity.
Qed.

Lemma wf_blank : wf blank.
Proof. repeat split. Qed.

Lemma wf_with_program (bytes : list Z) (c : Chip8) : wf c -> wf (with_program bytes c).
Proof.
  intros (HV & Hram & Hst & Hscr). repeat split; try assumption.
  unfold with_program. simpl. rewrite <- Hram. generalize (Z.to_nat ROM_START) (ram c).
  induction bytes as [|b bytes IH]; intros a m; simpl; [reflexivity|].
  rewrite IH. apply length_insert.
Qed.

Lemma calls_fill_the_stack (hs : list Host) :
  forall (h : Host) (c : Chip8),
    all_calls (hs ++ [h]) c = true ->
    0 <= sp (regs c) -> sp (regs c) + Z.of_nat (length hs) = 15 ->
    exists c15 instruction c15',
      cycles hs c = Ok tt c15 /\ cerr c15 = cerr c /\ sp (regs c15) = 15 /\
      fetch_instruction c15 = Ok instruction c15' /\
      opcode_of instruction = 2 /\
      perform_instruction h instruction c15' =
      Ok tt (with_cerr (cerr c ++ ["Stack overflow"%string]) c15').
Proof.
  induction hs as [|h0 hs IH]; intros h c Hall Hsp0 Hsp.
  - simpl in *. destruct (fetch_instruction c) as [instruction c1|] eqn:Hf;
      [|discriminate].
    apply andb_true_iff in Hall as [Hop _]. apply Z.eqb_eq in Hop.
    apply fetch_ok in Hf as Hc1. destruct Hc1 as [-> _].
    exists c, instruction. eexists.
    split; [reflexivity|]. split; [reflexivity|]. split; [lia|].
    split; [exact Hf|]. split; [exact Hop|].
    rewrite call_overflow by (assumption || (simpl; lia)). reflexivity.
  - simpl in Hall, Hsp.
    destruct (fetch_instruction c) as [instruction c1|] eqn:Hf; [|discriminate].
    apply andb_true_iff in Hall as [Hop Hall]. apply Z.eqb_eq in Hop.
    apply fetch_ok in Hf as Hc1. destruct Hc1 as [Hc1 _].
    assert (Hsp1 : sp (regs c1) = sp (regs c)) by (subst c1; reflexivity).
    assert (Herr1 : cerr c1 = cerr c) by (subst c1; reflexivity).
    rewrite call_pushes in Hall by (assumption || lia).
    match type of Hall with all_calls _ ?st = true => set (c2 := st) in * end.
    destruct (IH h c2 Hall) as (c15 & i15 & c15' & Hrun & Herr & Hsp15 & Hf15 & Hop15 & Hov).
    + subst c2. simpl. lia.
    + subst c2. simpl. lia.
    + exists c15, i15, c15'. repeat split; try assumption.
      * simpl. unfold cycle. unfold bind at 1 2. rewrite Hf.
        rewrite call_pushes by (assumption || lia). exact Hrun.
      * rewrite Herr. subst c2. simpl. exact Herr1.
      * rewrite Hov. subst c2. simpl. rewrite Herr1. reflexivity.
Qed.

(** C3: a call followed by a return comes back behind the call.  In a state
    with SP < 15 whose next instruction is 2nnn, the call succeeds; if the
    instruction then fetched at nnn is 00EE, the return succeeds and leaves
    PC at the address right after the 2nnn instruction and SP at its value
    before the call. *)
Theorem call_then_return_restores (h h' : Host) (c c1 : Chip8) (instruction : Z) :
  wf c -> 0 <= sp (regs c) < 15 ->
  fetch_instruction c = Ok instruction c1 -> opcode_of instruction = 2 ->
  exists c2,
    perform_instruction h instruction c1 = Ok tt c2 /\
    pc (regs c2) = nnn_of instruction /\
    forall c3, fetch_instruction c2 = Ok 0x00EE c3 ->
      exists c4,
        perform_instruction h' 0x00EE c3 = Ok tt c4 /\
        pc (regs c4) = pc (regs c) + 2 /\
        sp (regs c4) = sp (regs c).
Proof.
  intros Hwf Hsp Hf Hop. apply fetch_ok in Hf as (-> & Hpc0 & Hpc1).
  rewrite call_pushes by (assumption || (simpl; lia)). simpl.
  eexists. split; [reflexivity|]. split; [reflexivity|].
  intros c3 Hf3. apply fetch_ok in Hf3 as (-> & _ & _).
  destruct Hwf as (HV & Hram & Hst & Hscr).
  match goal with |- context [perform_instruction h' _ ?c3] =>
    destruct (return_pops h' c3) as (addr & Hl & ->) end.
  - repeat split; simpl; try assumption. rewrite length_insert. exact Hst.
  - simpl. lia.
  - simpl in Hl. replace (sp (regs c) + 1 - 1) with (sp (regs c)) in Hl by lia.
    rewrite list_lookup_insert_eq in Hl by (unfold STACK_SIZE in Hst; lia).
    injection Hl as <-. eexists. split; [reflexivity|]. simpl.
    unfold u16, RAM_SIZE in *. rewrite Z.mod_small by lia. lia.
Qed.

Lemma call_then_return_restores_witness :
  exists c2,
    perform_instruction no_keys 0x2204
      (with_regs (set_pc 0x202 (regs blank)) (with_program call_and_return blank))
    = Ok tt c2 /\
    pc (regs c2) = nnn_of 0x2204 /\
    forall c3, fetch_instruction c2 = Ok 0x00EE c3 ->
      exists c4,
        perform_instruction no_keys 0x00EE c3 = Ok tt c4 /\
        pc (regs c4) = pc (regs (with_program call_and_return blank)) + 2 /\
        sp (regs c4) = sp (regs (with_program call_and_return blank)).
Proof.
  apply (call_then_return_restores no_keys no_keys
           (with_program call_and_return blank)).
  - apply wf_with_program, wf_blank.
  - simpl. lia.
  - vm_compute. reflexivity.
  - reflexivity.
Defined.

(** C4: a call with SP = 15 only reports the overflow: registers (PC, SP,
    V0..VF, I), stack, memory and display are unchanged.  A call with
    SP < 15 stores PC in stack[SP], increments SP and sets PC to nnn, with
    no report.  Starting from an empty stack, when the next sixteen
    instructions are calls, the first fifteen run without a report and the
    sixteenth is the one that reports the overflow. *)
Theorem call_overflow_is_reported_and_dropped :
  (forall (h : Host) (instruction : Z) (c : Chip8),
      opcode_of instruction = 2 -> sp (regs c) = 15 ->
      exists c', perform_instruction h instruction c = Ok tt c' /\
        regs c' = regs c /\ stack c' = stack c /\ ram c' = ram c /\
        screen c' = screen c /\
        cerr c' = cerr c ++ ["Stack overflow"%string]) /\
  (forall (h : Host) (instruction : Z) (c : Chip8),
      opcode_of instruction = 2 -> wf c -> 0 <= sp (regs c) < 15 ->
      exists c', perform_instruction h instruction c = Ok tt c' /\
        stack c' !! Z.to_nat (sp (regs c)) = Some (pc (regs c)) /\
        sp (regs c') = sp (regs c) + 1 /\
        pc (regs c') = nnn_of instruction /\
        cerr c' = cerr c) /\
  (forall (hs : list Host) (h : Host) (c : Chip8),
      sp (regs c) = 0 -> length hs = 15%nat ->
      all_calls (hs ++ [h]) c = true ->
      exists c15 instruction c15',
        cycles hs c = Ok tt c15 /\ cerr c15 = cerr c /\
        fetch_instruction c15 = Ok instruction c15' /\
        perform_instruction h instruction c15' =
        Ok tt (with_cerr (cerr c ++ ["Stack overflow"%string]) c15')).
Proof.
  split; [|split].
  - intros h instruction c Hop Hsp. rewrite call_overflow by assumption.
    eexists. split; [reflexivity|]. repeat split.
  - intros h instruction c Hop (_ & _ & Hst & _) Hsp.
    rewrite call_pushes by assumption.
    eexists. split; [reflexivity|]. simpl. repeat split.
    apply list_lookup_insert_eq. unfold STACK_SIZE in Hst. lia.
  - intros hs h c Hsp Hlen Hall.
    destruct (calls_fill_the_stack hs h c Hall) as
      (c15 & i15 & c15' & Hrun & Herr & _ & Hf & _ & Hov); try lia.
    exists c15, i15, c15'. repeat split; assumption.
Qed.

Lemma call_overflow_is_reported_and_dropped_witness :
  (exists c',
      perform_instruction no_keys 0x2300
        (with_regs (set_sp 15 (regs blank)) blank) = Ok tt c' /\
      regs c' = set_sp 15 (regs blank) /\ stack c' = stack blank /\
      ram c' = ram blank /\ screen c' = screen blank /\
      cerr c' = ["Stack overflow"%string]) /\
  (exists c',
      perform_instruction no_keys 0x2300 blank = Ok tt c' /\
      stack c' !! 0%nat = Some 0x200 /\ sp (regs c') = 1 /\
      pc (regs c') = 0x300 /\ cerr c' = []) /\
  (exists c15 instruction c15',
      cycles (replicate 15 no_keys) (with_program call_chain blank) = Ok tt c15 /\
      cerr c15 = [] /\
      fetch_instruction c15 = Ok instruction c15' /\
      perform_instruction no_keys instruction c15' =
      Ok tt (with_cerr ["Stack overflow"%string] c15')).
Proof.
  destruct call_overflow_is_reported_and_dropped as (Hfull & Hpush & Hchain).
  split; [|split].
  - apply (Hfull no_keys 0x2300 (with_regs (set_sp 15 (regs blank)) blank));
      reflexivity.
  - apply (Hpush no_keys 0x2300 blank); [reflexivity | apply wf_blank | simpl; lia].
  - apply (Hchain (replicate 15 no_keys) no_keys (with_program call_chain blank));
      [reflexivity | reflexivity | vm_compute; reflexivity].
Defined.

(** The sixteen chained calls, run: SP stops at 15, the last call leaves PC
    behind itself and the report is on cerr.  A call and its return, run:
    PC is behind the call and the stack is empty again. *)
Example sixteen_calls_run :
  control_after (cycles (replicate 16 no_keys) (with_program call_chain blank)) =
  Some (0x220, 15, ["Stack overflow"%string]).
Proof. vm_compute. reflexivity. Qed.

Example call_and_return_run :
  control_after (cycles (replicate 2 no_keys) (with_program call_and_return blank)) =
  Some (0x202, 0, []).
Proof. vm_compute. reflexivity. Qed.

(** C10: the return opcode has no empty-stack guard.  With SP = 0 the
    decrement wraps the unsigned stack pointer to 255 and the read of
    stack[255] lies outside the 16-entry stack.  With SP >= 1, for every SP
    of the machine's range [0, 16), the decremented SP is a valid index, the
    stack read is in bounds, and PC becomes the entry read. *)
Theorem return_is_safe_only_on_nonempty_stack :
  (forall (h : Host) (c : Chip8),
      sp (regs c) = 0 ->
      perform_instruction h 0x00EE c =
      Fault (StackOutOfBounds 255) (with_regs (set_sp 255 (regs c)) c) /\
      in_bounds 255 STACK_SIZE = false) /\
  (forall (h : Host) (c : Chip8),
      wf c -> 1 <= sp (regs c) < STACK_SIZE ->
      exists addr c',
        perform_instruction h 0x00EE c = Ok tt c' /\
        sp (regs c') = sp (regs c) - 1 /\
        in_bounds (sp (regs c')) STACK_SIZE = true /\
        stack c !! Z.to_nat (sp (regs c')) = Some addr /\
        pc (regs c') = addr).
Proof.
  split.
  - intros h c Hsp. split; [apply return_underflows; assumption | reflexivity].
  - intros h c Hwf Hsp.
    unfold STACK_SIZE in Hsp.
    destruct (return_pops h c Hwf) as (addr & Hl & Hrun); [lia|].
    exists addr. eexists. split; [exact Hrun|]. simpl.
    split; [reflexivity|]. split; [|split; [exact Hl | reflexivity]].
    unfold in_bounds, STACK_SIZE. lia.
Qed.

Lemma return_is_safe_only_on_nonempty_stack_witness :
  (perform_instruction no_keys 0x00EE blank =
     Fault (StackOutOfBounds 255) (with_regs (set_sp 255 (regs blank)) blank) /\
   in_bounds 255 STACK_SIZE = false) /\
  (exists addr c',
      perform_instruction no_keys 0x00EE
        (with_regs (set_sp 1 (regs blank)) blank) = Ok tt c' /\
      sp (regs c') = 1 - 1 /\
      in_bounds (sp (regs c')) STACK_SIZE = true /\
      stack blank !! Z.to_nat (sp (regs c')) = Some addr /\
      pc (regs c') = addr).
Proof.
  destruct return_is_safe_only_on_nonempty_stack as (Hempty & Hpop).
  split.
  - apply (Hempty no_keys blank). reflexivity.
  - apply (Hpop no_keys (with_regs (set_sp 1 (regs blank)) blank));
      [apply wf_blank | unfold STACK_SIZE; simpl; lia].
Defined.

(** ** Waiting for a key *)

Lemma put_in_range (i v : Z) (r : Registers) :
  0 <= i <= 15 ->
  put_value_in_Vreg i v r = set_V (<[Z.to_nat i := v]> (V r)) r.
Proof.
  intros Hi. unfold put_value_in_Vreg.
  replace ((i >? 15) || (i <? 0)) with false by lia. reflexivity.
Qed.

(** C6: Fx0A scans the logical keys in the order 1,2,3,4,5,6,7,8,9,A,0,B,C,
    D,E,F and stores the hex value of the first one held down in Vx: cell x
    of the register array is overwritten with it, Vx reads as that value
    afterwards, and nothing else changes.  When none is down it only sets PC
    back by 2, so that the state is the one before the fetch and the
    instruction is fetched again on the next cycle. *)
Theorem wait_for_key_priority (h : Host) (instruction : Z) (c : Chip8) :
  opcode_of instruction = 0xF -> kk_of instruction = 0x0A ->
  length (V (regs c)) = 16%nat ->
  (forall key, List.find (key_down h) key_priority = Some key ->
     exists c',
       perform_instruction h instruction c = Ok tt c' /\
       c' = with_regs (set_V (<[Z.to_nat (x_of instruction) := key]> (V (regs c)))
                         (regs c)) c /\
       get_value_in_Vreg (x_of instruction) (regs c') = key) /\
  (List.find (key_down h) key_priority = None ->
     perform_instruction h instruction c =
     Ok tt (with_regs (set_pc (u16 (pc (regs c) - 2)) (regs c)) c) /\
     forall c0, fetch_instruction c0 = Ok instruction c ->
       perform_instruction h instruction c = Ok tt c0).
Proof.
  intros Hop Hkk HV. pose proof (x_of_range instruction) as Hx.
  unfold perform_instruction. rewrite Hop.
  unfold case_0xF. rewrite Hkk. run_monad.
  unfold wait_for_key, key_priority, key_down. simpl.
  repeat match goal with
         | |- context [key_state h ?k] =>
             destruct (key_state h k);
             [split; [|discriminate]; intros ? [= <-]; eexists;
              split; [reflexivity|]; simpl;
              split; [rewrite put_in_range by lia; reflexivity
                     | apply get_put_same; [lia | exact HV]]|]
         end.
  split; [discriminate|]. intros _. run_monad. split; [reflexivity|].
  intros c0 Hf. apply fetch_ok in Hf as (-> & Hlo & Hhi). simpl.
  unfold u16, RAM_SIZE in *. rewrite (Z.mod_small (pc (regs c0) + 2)) by lia.
  replace (pc (regs c0) + 2 - 2) with (pc (regs c0)) by lia.
  rewrite Z.mod_small by lia. destruct c0 as [[] ? ? ? ?]. reflexivity.
Qed.

Lemma wait_for_key_priority_witness :
  exists c,
    fetch_instruction (with_program [0xF3; 0x0A] blank) = Ok 0xF30A c /\
    (exists c',
       perform_instruction keys_5_and_A 0xF30A c = Ok tt c' /\
       c' = with_regs (set_V (<[Z.to_nat (x_of 0xF30A) := 5]> (V (regs c))) (regs c)) c /\
       get_value_in_Vreg (x_of 0xF30A) (regs c') = 5) /\
    perform_instruction no_keys 0xF30A c =
    Ok tt (with_regs (set_pc (u16 (pc (regs c) - 2)) (regs c)) c) /\
    perform_instruction no_keys 0xF30A c = Ok tt (with_program [0xF3; 0x0A] blank).
Proof.
  assert (Hf : exists c,
             fetch_instruction (with_program [0xF3; 0x0A] blank) = Ok 0xF30A c).
  { eexists. vm_compute. reflexivity. }
  destruct Hf as (c & Hf). exists c. split; [exact Hf|].
  assert (HV : length (V (regs c)) = 16%nat).
  { destruct (fetch_ok _ _ _ Hf) as (-> & _). reflexivity. }
  destruct (wait_for_key_priority keys_5_and_A 0xF30A c eq_refl eq_refl HV)
    as [Hfound _].
  destruct (wait_for_key_priority no_keys 0xF30A c eq_refl eq_refl HV)
    as [_ Hnone].
  split; [exact (Hfound 5 eq_refl)|].
  destruct (Hnone eq_refl) as [Hrewind Hretry].
  split; [exact Hrewind | exact (Hretry _ Hf)].
Defined.

Example wait_for_key_takes_5_before_A :
  List.find (key_down keys_5_and_A) key_priority = Some 5.
Proof. reflexivity. Qed.

(** ** Register dump and restore *)

Lemma zero_registers_frame (n : nat) (r : Registers) :
  (n <= length (V r))%nat ->
  I (zero_registers n r) = I r /\
  length (V (zero_registers n r)) = length (V r).
Proof.
  intros Hn. split; [reflexivity|]. unfold zero_registers. simpl.
  rewrite length_app, length_replicate, length_drop. lia.
Qed.

Lemma zero_registers_other (n : nat) (i : Z) (r : Registers) :
  Z.of_nat n <= i ->
  get_value_in_Vreg i (zero_registers n r) = get_value_in_Vreg i r.
Proof.
  intros Hi. unfold get_value_in_Vreg, zero_registers. simpl.
  destruct ((i <? 0) || (i >? 15)); [reflexivity|].
  rewrite lookup_app_r by (rewrite length_replicate; lia).
  rewrite length_replicate, lookup_drop. do 2 f_equal. lia.
Qed.

(** Two register arrays of 16 cells that read the same through
    [get_value_in_Vreg] are the same array. *)
Lemma registers_read_alike (r r' : Registers) :
  length (V r) = 16%nat -> length (V r') = 16%nat ->
  (forall i, 0 <= i <= 15 -> get_value_in_Vreg i r = get_value_in_Vreg i r') ->
  V r = V r'.
Proof.
  intros Hr Hr' Hget. apply list_eq. intros i.
  destruct (decide (i < 16)%nat) as [Hi|Hi].
  - specialize (Hget (Z.of_nat i) ltac:(lia)). unfold get_value_in_Vreg in Hget.
    replace ((Z.of_nat i <? 0) || (Z.of_nat i >? 15)) with false in Hget by lia.
    rewrite Nat2Z.id in Hget.
    destruct (lookup_lt_is_Some_2 (V r) i) as [a Ha]; [lia|].
    destruct (lookup_lt_is_Some_2 (V r') i) as [b Hb]; [lia|].
    rewrite Ha, Hb in *. simpl in Hget. congruence.
  - rewrite !lookup_ge_None_2 by lia. reflexivity.
Qed.

Lemma store_loop (n : nat) :
  forall (k : Z) (c : Chip8),
    0 <= k -> 0 <= I (regs c) ->
    I (regs c) + k + Z.of_nat n <= RAM_SIZE ->
    length (ram c) = Z.to_nat RAM_SIZE ->
    exists m,
      for_loop n k store_body c = Ok tt (with_ram m c) /\
      length m = Z.to_nat RAM_SIZE /\
      (forall j, k <= j < k + Z.of_nat n ->
         m !! Z.to_nat (I (regs c) + j) = Some (get_value_in_Vreg j (regs c))) /\
      (forall a, (a < Z.to_nat (I (regs c) + k))%nat -> m !! a = ram c !! a).
Proof.
  induction n as [|n IH]; intros k c Hk HI Hfit Hlen.
  - exists (ram c). split; [destruct c; reflexivity|]. split; [assumption|].
    split; [intros; lia | reflexivity].
  - simpl for_loop. unfold bind at 1. unfold store_body at 1. run_monad.
    unfold write_ram, in_bounds.
    replace ((0 <=? I (regs c) + k) && (I (regs c) + k <? RAM_SIZE)) with true by lia.
    set (c1 := with_ram _ c).
    destruct (IH (k + 1) c1) as (m & Hrun & Hm & Hnew & Hold);
      try (subst c1; simpl; rewrite ?length_insert; lia).
    exists m. split; [rewrite Hrun; subst c1; reflexivity|]. split; [exact Hm|].
    subst c1. simpl in *. split.
    + intros j Hj. destruct (Z.eq_dec j k) as [->|Hne].
      * rewrite Hold by lia. apply list_lookup_insert_eq. unfold RAM_SIZE in *. lia.
      * apply Hnew. lia.
    + intros a Ha. rewrite Hold by lia. apply list_lookup_insert_ne. lia.
Qed.

Lemma load_loop (n : nat) :
  forall (k : Z) (c : Chip8),
    0 <= k -> k + Z.of_nat n <= 16 -> 0 <= I (regs c) ->
    I (regs c) + k + Z.of_nat n <= RAM_SIZE ->
    length (ram c) = Z.to_nat RAM_SIZE -> length (V (regs c)) = 16%nat ->
    exists r,
      for_loop n k load_body c = Ok tt (with_regs r c) /\
      length (V r) = 16%nat /\
      (forall j, k <= j < k + Z.of_nat n ->
         ram c !! Z.to_nat (I (regs c) + j) = Some (get_value_in_Vreg j r)) /\
      (forall j, 0 <= j -> j < k \/ k + Z.of_nat n <= j ->
         get_value_in_Vreg j r = get_value_in_Vreg j (regs c)).
Proof.
  induction n as [|n IH]; intros k c Hk Hk16 HI Hfit Hlen HV.
  - exists (regs c). split; [destruct c; reflexivity|]. split; [assumption|].
    split; [intros; lia | reflexivity].
  - simpl for_loop. unfold bind at 1. unfold load_body at 1. run_monad.
    unfold read_ram, in_bounds.
    replace ((0 <=? I (regs c) + k) && (I (regs c) + k <? RAM_SIZE)) with true by lia.
    destruct (ram c !! Z.to_nat (I (regs c) + k)) as [b|] eqn:Hb.
    2: { apply lookup_ge_None in Hb. unfold RAM_SIZE in *. lia. }
    assert (HIput : I (put_value_in_Vreg k b (regs c)) = I (regs c)).
    { unfold put_value_in_Vreg. destruct ((k >? 15) || (k <? 0)); reflexivity. }
    set (c1 := with_regs _ c).
    destruct (IH (k + 1) c1) as (r & Hrun & Hr & Hnew & Hold);
      try (subst c1; simpl; rewrite ?HIput; lia);
      try (subst c1; simpl; rewrite put_length; exact HV).
    exists r. split; [rewrite Hrun; subst c1; reflexivity|]. split; [exact Hr|].
    subst c1. simpl in *. rewrite HIput in *. split.
    + intros j Hj. destruct (Z.eq_dec j k) as [->|Hne].
      * rewrite Hold by lia. rewrite get_put_same by (lia || assumption). exact Hb.
      * apply Hnew. lia.
    + intros j Hj0 Hj. rewrite Hold by lia. apply get_put_other; lia.
Qed.

(** C7: when I + x stays inside the 4096-byte memory, Fx55, then zeroing
    V0..Vx in the register array, then Fx65 with the same x and the same I
    succeed, and the register array V0..VF is again the one from before the
    Fx55. *)
Theorem store_zero_load_roundtrip (h h' : Host) (store load : Z) (c : Chip8) :
  wf c ->
  opcode_of store = 0xF -> kk_of store = 0x55 ->
  opcode_of load = 0xF -> kk_of load = 0x65 ->
  x_of load = x_of store ->
  0 <= I (regs c) -> I (regs c) + x_of store < RAM_SIZE ->
  exists c1, perform_instruction h store c = Ok tt c1 /\
    I (regs c1) = I (regs c) /\
    exists c3,
      perform_instruction h' load
        (with_regs (zero_registers (Z.to_nat (x_of store + 1)) (regs c1)) c1)
      = Ok tt c3 /\
      V (regs c3) = V (regs c).
Proof.
  intros (HV & Hram & _) Hop1 Hkk1 Hop2 Hkk2 Hx HI Hfit.
  pose proof (x_of_range store) as Hxr.
  unfold perform_instruction. rewrite Hop1, Hop2. unfold case_0xF.
  rewrite Hkk1, Hkk2, Hx. unfold bind at 1. unfold Vreg at 1, gets at 1.
  change (fun i : Z => let* base := gets (fun c => I (regs c)) in
                       let* Vi := Vreg i in write_ram (base + i) Vi)
    with store_body.
  destruct (store_loop (Z.to_nat (x_of store + 1)) 0 c) as (m & Hrun & Hm & Hnew & _);
    try lia; try assumption.
  rewrite Hrun. eexists. split; [reflexivity|]. split; [reflexivity|].
  set (r2 := zero_registers _ _).
  destruct (zero_registers_frame (Z.to_nat (x_of store + 1)) (regs (with_ram m c)))
    as [HI2 HV2]; [simpl; lia|]. fold r2 in HI2, HV2. simpl in HI2, HV2.
  unfold bind at 1. unfold Vreg at 1, gets at 1.
  change (fun i : Z => let* base := gets (fun c => I (regs c)) in
                       let* b := read_ram (base + i) in put_Vreg i b)
    with load_body.
  destruct (load_loop (Z.to_nat (x_of store + 1)) 0
              (with_regs r2 (with_ram m c))) as (r3 & Hrun3 & HV3 & Hnew3 & Hold3);
    simpl; rewrite ?HI2; try lia; try congruence.
  rewrite Hrun3. eexists. split; [reflexivity|]. simpl.
  simpl in Hnew3, Hold3.
  apply registers_read_alike; [exact HV3 | exact HV |].
  intros i Hi. destruct (Z_le_gt_dec i (x_of store)) as [Hle|Hgt].
  - specialize (Hnew i ltac:(lia)). specialize (Hnew3 i ltac:(lia)). congruence.
  - rewrite Hold3 by lia. subst r2. apply zero_registers_other. lia.
Qed.

Lemma store_zero_load_roundtrip_witness :
  exists c1, perform_instruction no_keys 0xF355 counting = Ok tt c1 /\
    I (regs c1) = I (regs counting) /\
    exists c3,
      perform_instruction no_keys 0xF365
        (with_regs (zero_registers (Z.to_nat (x_of 0xF355 + 1)) (regs c1)) c1)
      = Ok tt c3 /\
      V (regs c3) = V (regs counting).
Proof.
  apply (store_zero_load_roundtrip no_keys no_keys 0xF355 0xF365 counting);
    try reflexivity.
  - repeat split.
  - simpl. lia.
Defined.

(** ** Loading a ROM *)

Lemma copy_loop (buffer : list Z) (n : nat) :
  forall (k : Z) (c : Chip8),
    0 <= k -> ROM_START + k + Z.of_nat n <= RAM_SIZE ->
    length (ram c) = Z.to_nat RAM_SIZE ->
    exists m,
      for_loop n k (copy_body buffer) c = Ok tt (with_ram m c) /\
      length m = Z.to_nat RAM_SIZE /\
      (forall j, k <= j < k + Z.of_nat n ->
         m !! Z.to_nat (ROM_START + j) = Some (u8 (default 0 (buffer !! Z.to_nat j)))) /\
      (forall a, (a < Z.to_nat (ROM_START + k))%nat \/
                 (Z.to_nat (ROM_START + k) + n <= a)%nat -> m !! a = ram c !! a).
Proof.
  induction n as [|n IH]; intros k c Hk Hfit Hlen.
  - exists (ram c). split; [destruct c; reflexivity|]. split; [assumption|].
    split; [intros; lia | reflexivity].
  - simpl for_loop. unfold bind at 1. unfold copy_body at 1, write_ram, in_bounds.
    unfold ROM_START, RAM_SIZE in *.
    replace ((0 <=? 512 + k) && (512 + k <? 4096)) with true by lia.
    set (c1 := with_ram _ c).
    destruct (IH (k + 1) c1) as (m & Hrun & Hm & Hnew & Hold);
      try (subst c1; simpl; rewrite ?length_insert; lia).
    exists m. split; [rewrite Hrun; subst c1; reflexivity|]. split; [exact Hm|].
    subst c1. simpl in *. split.
    + intros j Hj. destruct (Z.eq_dec j k) as [->|Hne].
      * rewrite Hold by lia. apply list_lookup_insert_eq. lia.
      * apply Hnew. lia.
    + intros a Ha. rewrite Hold by lia. apply list_lookup_insert_ne. lia.
Qed.

Lemma for_loop_app (body : Z -> M unit) (n m : nat) :
  forall (k : Z) (c : Chip8),
    for_loop (n + m) k body c =
    match for_loop n k body c with
    | Ok _ c' => for_loop m (k + Z.of_nat n) body c'
    | Fault f c' => Fault f c'
    end.
Proof.
  induction n as [|n IH]; intros k c.
  - simpl. rewrite Z.add_0_r. reflexivity.
  - cbn [Nat.add for_loop]. unfold bind.
    destruct (body k c) as [[] c1|f c1]; [|reflexivity].
    rewrite IH. replace (k + 1 + Z.of_nat n) with (k + Z.of_nat (S n)) by lia.
    reflexivity.
Qed.

(** The outcomes of the loader that copy nothing: the two stream checks
    report and return; a size query that failed is not checked, and the
    buffer of size -1 throws with nothing reported. *)
Lemma load_rom_gives_up (fileName : string) (buffer : list Z) (c : Chip8) :
  rejected fileName CannotOpen c /\
  rejected fileName (Opened buffer false) c /\
  load_rom fileName NoSize c = Fault (VectorLength (-1)) c.
Proof. split; [|split]; [eexists; reflexivity .. | reflexivity]. Qed.

(** C5, as stated, fails: a blob of 3585 bytes is not rejected.  No load
    error is reported, and by the time the copy loop leaves the memory bank
    it has written the blob from address 0x200 on. *)
Lemma oversized_rom_is_not_rejected :
  ~ rejected "big.ch8" oversized blank /\
  exists c',
    load_rom "big.ch8" oversized blank = Fault (RamOutOfBounds RAM_SIZE) c' /\
    cerr c' = [] /\
    ram blank !! Z.to_nat ROM_START = Some 0 /\
    ram c' !! Z.to_nat ROM_START = Some 0xAA.
Proof.
  assert (H : exists c', load_rom "big.ch8" oversized blank =
                         Fault (RamOutOfBounds RAM_SIZE) c' /\
            cerr c' = [] /\ ram blank !! Z.to_nat ROM_START = Some 0 /\
            ram c' !! Z.to_nat ROM_START = Some 0xAA).
  { eexists. split; [vm_compute; reflexivity|]. repeat split. }
  split; [|exact H].
  intros [msg Hrej]. destruct H as (c' & Hrun & _). congruence.
Qed.

(** C5, amended: every blob of at most 3584 bytes that was read is accepted
    and copied verbatim to the addresses from 0x200 on, and no other byte of
    memory, and nothing else in the machine, changes.  A longer blob is not
    rejected: no load error is reported, and its first 3584 bytes have been
    written from 0x200 on when the copy loop leaves the memory bank. *)
Theorem load_rom_copies_what_fits (fileName : string) (buffer : list Z) (c : Chip8) :
  wf c -> bytes buffer ->
  ((length buffer <= 3584)%nat ->
   ~ rejected fileName (Opened buffer true) c /\
   exists m,
     load_rom fileName (Opened buffer true) c = Ok tt (with_ram m c) /\
     (forall i b, buffer !! i = Some b ->
        m !! (Z.to_nat ROM_START + i)%nat = Some b) /\
     (forall a, (a < Z.to_nat ROM_START)%nat \/
                (Z.to_nat ROM_START + length buffer <= a)%nat ->
        m !! a = ram c !! a)) /\
  ((3584 < length buffer)%nat ->
   ~ rejected fileName (Opened buffer true) c /\
   exists m,
     load_rom fileName (Opened buffer true) c =
     Fault (RamOutOfBounds RAM_SIZE) (with_ram m c) /\
     (forall i b, (i < 3584)%nat -> buffer !! i = Some b ->
        m !! (Z.to_nat ROM_START + i)%nat = Some b) /\
     (forall a, (a < Z.to_nat ROM_START)%nat -> m !! a = ram c !! a)).
Proof.
  intros (_ & Hram & _) Hb.
  assert (Hbyte : forall i b, buffer !! i = Some b ->
            u8 (default 0 (buffer !! Z.to_nat (Z.of_nat i))) = b).
  { intros i b Hi. rewrite Nat2Z.id, Hi. simpl. unfold u8. apply Z.mod_small.
    pose proof (Forall_lookup_1 _ _ _ _ Hb Hi) as Hr. simpl in Hr. lia. }
  split; intros Hlen.
  - destruct (copy_loop buffer (length buffer) 0 c) as (m & Hrun & Hm & Hnew & Hold);
      try (unfold ROM_START, RAM_SIZE; lia); try assumption.
    assert (Hload : load_rom fileName (Opened buffer true) c = Ok tt (with_ram m c))
      by exact Hrun.
    split.
    { intros [msg Hrej]. rewrite Hload in Hrej. injection Hrej as _ Hrej.
      apply (f_equal (@length string)) in Hrej. rewrite length_app in Hrej.
      simpl in Hrej. lia. }
    exists m. split; [exact Hload|]. split.
    + intros i b Hi. pose proof (lookup_lt_Some _ _ _ Hi) as Hlt.
      specialize (Hnew (Z.of_nat i) ltac:(lia)). rewrite (Hbyte i b Hi) in Hnew.
      replace (Z.to_nat ROM_START + i)%nat with (Z.to_nat (ROM_START + Z.of_nat i))
        by (unfold ROM_START; lia).
      exact Hnew.
    + intros a Ha. apply Hold. unfold ROM_START in *. lia.
  - destruct (copy_loop buffer 3584 0 c) as (m & Hrun & Hm & Hnew & Hold);
      try (unfold ROM_START, RAM_SIZE; lia); try assumption.
    assert (Hload : load_rom fileName (Opened buffer true) c =
                    Fault (RamOutOfBounds RAM_SIZE) (with_ram m c)).
    { unfold load_rom. change (negb true) with false. cbv iota.
      change (fun i : Z => write_ram (ROM_START + i)
                             (u8 (default 0 (buffer !! Z.to_nat i))))
        with (copy_body buffer).
      replace (length buffer) with (3584 + S (length buffer - 3585))%nat by lia.
      rewrite for_loop_app, Hrun. reflexivity. }
    split; [intros [msg Hrej]; rewrite Hload in Hrej; discriminate|].
    exists m. split; [exact Hload|]. split.
    + intros i b Hlt Hi.
      specialize (Hnew (Z.of_nat i) ltac:(lia)). rewrite (Hbyte i b Hi) in Hnew.
      replace (Z.to_nat ROM_START + i)%nat with (Z.to_nat (ROM_START + Z.of_nat i))
        by (unfold ROM_START; lia).
      exact Hnew.
    + intros a Ha. apply Hold. unfold ROM_START in *. lia.
Qed.

Lemma load_rom_copies_what_fits_witness :
  (~ rejected "jump.ch8" (Opened [0x12; 0x03] true) blank /\
   exists m,
     load_rom "jump.ch8" (Opened [0x12; 0x03] true) blank = Ok tt (with_ram m blank) /\
     (forall i b, [0x12; 0x03] !! i = Some b ->
        m !! (Z.to_nat ROM_START + i)%nat = Some b) /\
     (forall a, (a < Z.to_nat ROM_START)%nat \/
                (Z.to_nat ROM_START + length [0x12; 0x03] <= a)%nat ->
        m !! a = ram blank !! a)) /\
  (~ rejected "big.ch8" oversized blank /\
   exists m,
     load_rom "big.ch8" oversized blank =
     Fault (RamOutOfBounds RAM_SIZE) (with_ram m blank) /\
     (forall i b, (i < 3584)%nat -> replicate 3585 0xAA !! i = Some b ->
        m !! (Z.to_nat ROM_START + i)%nat = Some b) /\
     (forall a, (a < Z.to_nat ROM_START)%nat -> m !! a = ram blank !! a)).
Proof.
  split.
  - destruct (load_rom_copies_what_fits "jump.ch8" [0x12; 0x03] blank) as [Hfits _];
      [apply wf_blank | repeat constructor; lia |].
    apply Hfits. simpl. lia.
  - destruct (load_rom_copies_what_fits "big.ch8" (replicate 3585 0xAA) blank)
      as [_ Hbig]; [apply wf_blank | apply Forall_replicate; lia |].
    apply Hbig. rewrite length_replicate. lia.
Defined.

(** ** Parity of the program counter *)

Lemma even_u16 (z : Z) : Z.even (u16 z) = Z.even z.
Proof.
  unfold u16. rewrite (Z.div_mod z 65536) at 2 by lia.
  rewrite Z.even_add, Z.even_mul. simpl.
  destruct (Z.even (z `mod` 65536)); reflexivity.
Qed.

Lemma even_next (z : Z) : Z.even (u16 (z + 2)) = Z.even z.
Proof. rewrite even_u16, Z.even_add. simpl. destruct (Z.even z); reflexivity. Qed.

Lemma even_prev (z : Z) : Z.even (u16 (z - 2)) = Z.even z.
Proof. rewrite even_u16, Z.even_sub. simpl. destruct (Z.even z); reflexivity. Qed.

Create HintDb keeps.

Section Alignment.

(** The addresses PC may hold; the property is kept by stepping over an
    instruction and by stepping back. *)
Variable good : Z -> bool.
Hypothesis good_next : forall z, good (u16 (z + 2)) = good z.
Hypothesis good_prev : forall z, good (u16 (z - 2)) = good z.

#[local] Set Default Proof Using "All".

Lemma preserves_ret {A} (a : A) : preserves good (ret a).
Proof. intros c a' c' Hc [= _ <-]. exact Hc. Qed.

Lemma preserves_bind {A B} (m : M A) (k : A -> M B) :
  preserves good m -> (forall a, preserves good (k a)) -> preserves good (bind m k).
Proof.
  intros Hm Hk c b c' Hc. unfold bind.
  destruct (m c) as [a c1|] eqn:Hmc; [|discriminate].
  intros Hkc. exact (Hk a c1 b c' (Hm c a c1 Hc Hmc) Hkc).
Qed.

Lemma preserves_gets {A} (f : Chip8 -> A) : preserves good (gets f).
Proof. intros c a c' Hc [= _ <-]. exact Hc. Qed.

Lemma preserves_if {A} (b : bool) (m1 m2 : M A) :
  preserves good m1 -> preserves good m2 -> preserves good (if b then m1 else m2).
Proof. destruct b; auto. Qed.

Lemma put_keeps_control (i v : Z) (r : Registers) :
  pc (put_value_in_Vreg i v r) = pc r /\ sp (put_value_in_Vreg i v r) = sp r.
Proof.
  unfold put_value_in_Vreg. destruct ((i >? 15) || (i <? 0)); split; reflexivity.
Qed.

Lemma preserves_put_Vreg (i v : Z) : preserves good (put_Vreg i v).
Proof.
  intros c a c' (Hpc & Hsp & Hst) [= _ <-]. unfold aligned. simpl.
  destruct (put_keeps_control i v (regs c)) as [-> ->]. auto.
Qed.

Lemma preserves_Vreg (i : Z) : preserves good (Vreg i).
Proof. apply preserves_gets. Qed.

Lemma preserves_read_ram (addr : Z) : preserves good (read_ram addr).
Proof.
  intros c a c' Hc. unfold read_ram.
  destruct (in_bounds addr RAM_SIZE); [|discriminate].
  destruct (ram c !! Z.to_nat addr); [|discriminate].
  intros [= _ <-]. exact Hc.
Qed.

Lemma preserves_write_ram (addr v : Z) : preserves good (write_ram addr v).
Proof.
  intros c a c' Hc. unfold write_ram.
  destruct (in_bounds addr RAM_SIZE); [|discriminate].
  intros [= _ <-]. exact Hc.
Qed.

Lemma preserves_draw_pixel_row (x y b : Z) : preserves good (draw_pixel_row x y b).
Proof.
  intros c a c' Hc. unfold draw_pixel_row.
  destruct (draw_bits 8 0 x y b (screen c) false). intros [= _ <-]. exact Hc.
Qed.

Lemma preserves_report (msg : string) : preserves good (report msg).
Proof. intros c a c' Hc [= _ <-]. exact Hc. Qed.

Lemma preserves_skip : preserves good skip.
Proof.
  intros c a c' (Hpc & Hsp & Hst) [= _ <-]. unfold aligned. simpl.
  rewrite good_next. auto.
Qed.

Lemma preserves_for_loop (n : nat) (body : Z -> M unit) :
  (forall i, preserves good (body i)) -> forall k, preserves good (for_loop n k body).
Proof.
  intros Hb. induction n as [|n IH]; intros k; simpl.
  - apply preserves_ret.
  - apply preserves_bind; [apply Hb | intros _; apply IH].
Qed.

Lemma preserves_draw_loop (n : nat) :
  forall x y memory_location, preserves good (draw_loop n x y memory_location).
Proof.
  induction n as [|n IH]; intros x y memory_location; simpl.
  - apply preserves_ret.
  - apply preserves_bind; [apply preserves_read_ram | intros cur_byte].
    apply preserves_bind; [apply preserves_draw_pixel_row | intros collided].
    apply preserves_bind.
    + apply preserves_if; [apply preserves_put_Vreg | apply preserves_ret].
    + intros _. apply preserves_if; [apply preserves_ret | apply IH].
Qed.

#[local] Hint Resolve preserves_ret preserves_gets preserves_put_Vreg
  preserves_Vreg preserves_read_ram preserves_write_ram preserves_draw_pixel_row
  preserves_report preserves_skip preserves_for_loop preserves_draw_loop : keeps.

Lemma preserves_modify_regs (f : Registers -> Registers) :
  (forall r, pc (f r) = pc r /\ sp (f r) = sp r) -> preserves good (modify_regs f).
Proof.
  intros Hf c a c' (Hpc & Hsp & Hst) [= _ <-]. unfold aligned. simpl.
  destruct (Hf (regs c)) as [-> ->]. auto.
Qed.

Lemma preserves_clear_screen :
  preserves good (modify (fun c => with_screen (clear_screen (screen c)) c)).
Proof. intros c a c' Hc [= _ <-]. exact Hc. Qed.

Lemma preserves_rewind :
  preserves good (modify_regs (fun r => set_pc (u16 (pc r - 2)) r)).
Proof.
  intros c a c' (Hpc & Hsp & Hst) [= _ <-]. unfold aligned. simpl.
  rewrite good_prev. auto.
Qed.

Lemma preserves_return :
  preserves good (modify_regs (fun r => set_sp (u8 (sp r - 1)) r) ;;;
             let* top := gets (fun c => sp (regs c)) in
             let* addr := read_stack top in
             modify_regs (set_pc addr)).
Proof.
  intros c a c' (Hpc & Hsp & Hst). run_monad. unfold read_stack. simpl.
  destruct (in_bounds (u8 (sp (regs c) - 1)) STACK_SIZE) eqn:Hin; [|discriminate].
  destruct (stack c !! Z.to_nat (u8 (sp (regs c) - 1))) as [addr|] eqn:Hl; [|discriminate].
  intros [= _ <-]. unfold aligned. simpl.
  assert (Hnz : sp (regs c) <> 0).
  { intros H0. rewrite H0 in Hin. discriminate. }
  unfold u8 in *. rewrite Z.mod_small in * by lia.
  split; [|split; [lia|]].
  - apply (Hst (sp (regs c) - 1)); [lia | exact Hl].
  - intros i b Hi. apply Hst. lia.
Qed.

Lemma preserves_jump (instruction : Z) :
  good (nnn_of instruction) = true -> preserves good (case_0x1 instruction).
Proof.
  intros Hn c a c' (Hpc & Hsp & Hst) [= _ <-]. unfold aligned. simpl. auto.
Qed.

Lemma preserves_call (instruction : Z) :
  good (nnn_of instruction) = true -> preserves good (case_0x2 instruction).
Proof.
  intros Hn c a c' (Hpc & Hsp & Hst). unfold case_0x2. run_monad.
  destruct (sp (regs c) >=? 15) eqn:Hfull.
  - intros [= _ <-]. unfold aligned. simpl. auto.
  - unfold write_stack, in_bounds, STACK_SIZE.
    replace ((0 <=? sp (regs c)) && (sp (regs c) <? 16)) with true by lia.
    simpl. intros [= _ <-]. unfold aligned. simpl.
    unfold u8. rewrite Z.mod_small by lia.
    split; [exact Hn | split; [lia|]].
    intros i b Hi. destruct (Z.eq_dec i (sp (regs c))) as [->|Hne].
    + intros Hl. apply list_lookup_insert_Some in Hl as [(_ & <- & _)|(Hne & _)];
        [exact Hpc | congruence].
    + rewrite list_lookup_insert_ne by lia. apply Hst. lia.
Qed.

Lemma indexed_jump_aligned (instruction : Z) (c c' : Chip8) :
  aligned good c ->
  good (u16 (nnn_of instruction + get_value_in_Vreg 0 (regs c))) = true ->
  case_0xB instruction c = Ok tt c' -> aligned good c'.
Proof.
  intros (Hpc & Hsp & Hst) Hn [= <-]. unfold aligned. simpl. auto.
Qed.

#[local] Hint Resolve preserves_clear_screen preserves_rewind preserves_return : keeps.

(** Break a computation down to the primitives above. *)
Ltac keep_all :=
  repeat first
    [ progress auto with keeps
    | apply preserves_modify_regs; intros ?; split; reflexivity
    | apply preserves_for_loop; intros ?
    | apply preserves_bind; [|intros ?]
    | apply preserves_if
    | match goal with
      | |- preserves good (match ?x with _ => _ end) => destruct x; cbv beta iota
      end ].

Lemma preserves_case_0x0 (instruction : Z) : preserves good (case_0x0 instruction).
Proof. unfold case_0x0. keep_all. Qed.

Lemma preserves_case_0x3 (instruction : Z) : preserves good (case_0x3 instruction).
Proof. unfold case_0x3. keep_all. Qed.

Lemma preserves_case_0x4 (instruction : Z) : preserves good (case_0x4 instruction).
Proof. unfold case_0x4. keep_all. Qed.

Lemma preserves_case_0x5 (instruction : Z) : preserves good (case_0x5 instruction).
Proof. unfold case_0x5. keep_all. Qed.

Lemma preserves_case_0x6 (instruction : Z) : preserves good (case_0x6 instruction).
Proof. unfold case_0x6. keep_all. Qed.

Lemma preserves_case_0x7 (instruction : Z) : preserves good (case_0x7 instruction).
Proof. unfold case_0x7. keep_all. Qed.

Lemma preserves_case_0x8 (instruction : Z) : preserves good (case_0x8 instruction).
Proof. unfold case_0x8. keep_all. Qed.

Lemma preserves_case_0x9 (instruction : Z) : preserves good (case_0x9 instruction).
Proof. unfold case_0x9. keep_all. Qed.

Lemma preserves_case_0xA (instruction : Z) : preserves good (case_0xA instruction).
Proof. unfold case_0xA. keep_all. Qed.

Lemma preserves_case_0xC (h : Host) (instruction : Z) : preserves good (case_0xC h instruction).
Proof. unfold case_0xC. keep_all. Qed.

Lemma preserves_case_0xD (instruction : Z) : preserves good (case_0xD instruction).
Proof. unfold case_0xD. keep_all. Qed.

Lemma preserves_case_0xE (h : Host) (instruction : Z) : preserves good (case_0xE h instruction).
Proof. unfold case_0xE. keep_all. Qed.

Lemma preserves_case_0xF (h : Host) (instruction : Z) : preserves good (case_0xF h instruction).
Proof. unfold case_0xF, wait_for_key. keep_all. Qed.

Lemma perform_aligned (h : Host) (instruction : Z) (c c' : Chip8) :
  aligned good c -> targets good instruction c = true ->
  perform_instruction h instruction c = Ok tt c' -> aligned good c'.
Proof.
  unfold perform_instruction, targets. intros Hc Ht Hrun.
  destruct (opcode_of instruction) as [|p|p]; [| do 4 (try destruct p as [p|p|]) |];
    cbv beta iota in Hrun, Ht;
    lazymatch type of Hrun with
    | ret _ _ = _ => exact (preserves_ret _ _ _ _ Hc Hrun)
    | case_0x0 _ _ = _ => exact (preserves_case_0x0 _ _ _ _ Hc Hrun)
    | case_0x1 _ _ = _ => exact (preserves_jump _ Ht _ _ _ Hc Hrun)
    | case_0x2 _ _ = _ => exact (preserves_call _ Ht _ _ _ Hc Hrun)
    | case_0x3 _ _ = _ => exact (preserves_case_0x3 _ _ _ _ Hc Hrun)
    | case_0x4 _ _ = _ => exact (preserves_case_0x4 _ _ _ _ Hc Hrun)
    | case_0x5 _ _ = _ => exact (preserves_case_0x5 _ _ _ _ Hc Hrun)
    | case_0x6 _ _ = _ => exact (preserves_case_0x6 _ _ _ _ Hc Hrun)
    | case_0x7 _ _ = _ => exact (preserves_case_0x7 _ _ _ _ Hc Hrun)
    | case_0x8 _ _ = _ => exact (preserves_case_0x8 _ _ _ _ Hc Hrun)
    | case_0x9 _ _ = _ => exact (preserves_case_0x9 _ _ _ _ Hc Hrun)
    | case_0xA _ _ = _ => exact (preserves_case_0xA _ _ _ _ Hc Hrun)
    | case_0xB _ _ = _ => exact (indexed_jump_aligned _ _ _ Hc Ht Hrun)
    | case_0xC _ _ _ = _ => exact (preserves_case_0xC _ _ _ _ _ Hc Hrun)
    | case_0xD _ _ = _ => exact (preserves_case_0xD _ _ _ _ Hc Hrun)
    | case_0xE _ _ _ = _ => exact (preserves_case_0xE _ _ _ _ _ Hc Hrun)
    | case_0xF _ _ _ = _ => exact (preserves_case_0xF _ _ _ _ _ Hc Hrun)
    end.
Qed.

Lemma fetch_aligned (c c' : Chip8) (instruction : Z) :
  aligned good c -> fetch_instruction c = Ok instruction c' -> aligned good c'.
Proof.
  intros (Hpc & Hsp & Hst) Hf. apply fetch_ok in Hf as (-> & _).
  unfold aligned. simpl. rewrite good_next. auto.
Qed.

Lemma timers_aligned (c c' : Chip8) :
  aligned good c -> update_timers c = Ok tt c' -> aligned good c'.
Proof.
  intros (Hpc & Hsp & Hst) [= <-]. unfold aligned. simpl.
  destruct (delay_timer (regs c) >? 0); simpl;
    destruct (sound_timer (regs c) >? 0); simpl; auto.
Qed.

Lemma reaches_aligned (c0 c : Chip8) :
  aligned good c0 -> reaches (targets good) c0 c -> aligned good c.
Proof.
  intros H0 Hr. induction Hr as [|h c c1 c2 instruction _ IH Hf Hall Hrun|c c' _ IH Ht].
  - exact H0.
  - eapply perform_aligned; [eapply fetch_aligned; eassumption | eassumption ..].
  - eapply timers_aligned; eassumption.
Qed.

End Alignment.

Lemma reaches_mono (P Q : Z -> Chip8 -> bool) (c0 c : Chip8) :
  (forall instruction c1, P instruction c1 = true -> Q instruction c1 = true) ->
  reaches P c0 c -> reaches Q c0 c.
Proof.
  intros HPQ Hr. induction Hr as [|h c c1 c2 instruction _ IH Hf Hall Hrun|c c' _ IH Ht].
  - apply reaches_start.
  - eapply reaches_cycle; eauto.
  - eapply reaches_timers; eauto.
Qed.

Lemma targets_anywhere (instruction : Z) (c : Chip8) :
  targets (fun _ => true) instruction c = true.
Proof.
  unfold targets. destruct (opcode_of instruction) as [|p|p]; try reflexivity.
  do 4 (try destruct p as [p|p|]); reflexivity.
Qed.

(** X27: whatever the program does, a stack pointer within 0..15 stays
    there: calls stop at 15 and a return from 0 faults. *)
Lemma sp_stays_in_range (c0 c : Chip8) :
  0 <= sp (regs c0) <= 15 -> reaches any_instruction c0 c ->
  0 <= sp (regs c) <= 15.
Proof.
  intros Hsp Hr.
  assert (Ha : aligned (fun _ => true) c).
  { apply (reaches_aligned (fun _ => true) (fun _ => eq_refl) (fun _ => eq_refl) c0).
    - split; [reflexivity | split; [exact Hsp | reflexivity]].
    - eapply reaches_mono; [|exact Hr]. intros; apply targets_anywhere. }
  exact (proj1 (proj2 Ha)).
Qed.

Lemma sp_stays_in_range_witness :
  exists c2, reaches any_instruction (with_program call_and_return blank) c2 /\
    sp (regs c2) = 1 /\ 0 <= sp (regs c2) <= 15.
Proof.
  assert (Hstep : exists c1 c2,
             fetch_instruction (with_program call_and_return blank) = Ok 0x2204 c1 /\
             perform_instruction no_keys 0x2204 c1 = Ok tt c2 /\
             sp (regs c2) = 1).
  { do 2 eexists. split; [vm_compute; reflexivity|].
    split; [vm_compute; reflexivity | reflexivity]. }
  destruct Hstep as (c1 & c2 & Hf & Hrun & Hsp).
  assert (Hr : reaches any_instruction (with_program call_and_return blank) c2).
  { eapply reaches_cycle; [apply reaches_start | exact Hf | reflexivity | exact Hrun]. }
  exists c2. split; [exact Hr|]. split; [exact Hsp|].
  apply (sp_stays_in_range (with_program call_and_return blank) c2); [|exact Hr].
  simpl. lia.
Defined.

(** C9, as stated, fails: nothing keeps a jump from going to an odd
    address.  From the blank machine with the program 1203 at 0x200 (PC
    even, stack empty) one cycle reaches a state where the next fetch leaves
    PC = 0x205. *)
Lemma pc_odd_after_fetch_behind_odd_jump : ~ pc_even_after_fetch any_instruction.
Proof.
  intros Hclaim.
  assert (Hstep : exists c1 c2 c3 instruction,
             fetch_instruction (with_program odd_jump blank) = Ok 0x1203 c1 /\
             perform_instruction no_keys 0x1203 c1 = Ok tt c2 /\
             fetch_instruction c2 = Ok instruction c3 /\
             Z.even (pc (regs c3)) = false).
  { do 4 eexists. split; [vm_compute; reflexivity|].
    split; [vm_compute; reflexivity|]. split; [vm_compute; reflexivity|]. reflexivity. }
  destruct Hstep as (c1 & c2 & c3 & instruction & Hf1 & Hrun & Hf2 & Hodd).
  assert (Heven : Z.even (pc (regs c3)) = true).
  { apply (Hclaim (with_program odd_jump blank) c2 c3 instruction).
    - apply wf_with_program, wf_blank.
    - reflexivity.
    - reflexivity.
    - eapply reaches_cycle; [apply reaches_start | exact Hf1 | reflexivity | exact Hrun].
    - exact Hf2. }
  congruence.
Qed.

(** C9, amended: in a run that starts with PC even and the call stack empty
    and in which every 1nnn and 2nnn executed has an even nnn and every Bnnn
    executed has nnn + V0 even, PC is even after every fetch. *)
Theorem pc_even_after_fetch_with_even_targets : pc_even_after_fetch even_targets.
Proof.
  intros c0 c c1 instruction _ Hpc Hsp Hr Hf.
  assert (H0 : aligned Z.even c0).
  { split; [exact Hpc|]. split; [lia|]. intros i a Hi. lia. }
  pose proof (reaches_aligned Z.even even_next even_prev c0 c H0 Hr) as Hc.
  exact (proj1 (fetch_aligned Z.even even_next even_prev c c1 instruction Hc Hf)).
Qed.

Lemma pc_even_after_fetch_with_even_targets_witness :
  exists c2 c3,
    reaches even_targets (with_program even_jumps blank) c2 /\
    fetch_instruction c2 = Ok 0x1200 c3 /\
    Z.even (pc (regs c3)) = true.
Proof.
  assert (Hstep : exists c1 c2 c3,
             fetch_instruction (with_program even_jumps blank) = Ok 0x1204 c1 /\
             perform_instruction no_keys 0x1204 c1 = Ok tt c2 /\
             fetch_instruction c2 = Ok 0x1200 c3).
  { do 3 eexists. split; [vm_compute; reflexivity|].
    split; [vm_compute; reflexivity|]. vm_compute. reflexivity. }
  destruct Hstep as (c1 & c2 & c3 & Hf1 & Hrun & Hf2).
  assert (Hr : reaches even_targets (with_program even_jumps blank) c2).
  { eapply reaches_cycle; [apply reaches_start | exact Hf1 | reflexivity | exact Hrun]. }
  exists c2, c3. split; [exact Hr|]. split; [exact Hf2|].
  apply (pc_even_after_fetch_with_even_targets
           (with_program even_jumps blank) c2 c3 0x1200).
  - apply wf_with_program, wf_blank.
  - reflexivity.
  - reflexivity.
  - exact Hr.
  - exact Hf2.
Defined.

(** ** Drawing a sprite *)

(** Decide the integer comparisons of a goal and leave the arithmetic to lia. *)
Ltac split_comparisons :=
  repeat match goal with
         | |- context [?a <=? ?b] => destruct (Z.leb_spec a b)
         | |- context [?a <? ?b] => destruct (Z.ltb_spec a b)
         | |- context [?a =? ?b] => destruct (Z.eqb_spec a b)
         end;
  simpl; try reflexivity; try lia.

Lemma pixel_insert (scr : list bool) (px0 py0 px py : Z) (v : bool) :
  length scr = Z.to_nat (SCREEN_WIDTH * SCREEN_HEIGHT) ->
  0 <= px0 < 64 -> 0 <= py0 < 32 -> 0 <= px < 64 -> 0 <= py < 32 ->
  pixel (<[pixel_index px0 py0 := v]> scr) px py =
  if (px =? px0) && (py =? py0) then v else pixel scr px py.
Proof.
  intros Hlen Hx0 Hy0 Hx Hy. unfold pixel, pixel_index, SCREEN_WIDTH, SCREEN_HEIGHT in *.
  destruct (Z.eqb_spec px px0) as [->|Hne]; simpl.
  - destruct (Z.eqb_spec py py0) as [->|Hne].
    + rewrite list_lookup_insert_eq by lia. reflexivity.
    + rewrite list_lookup_insert_ne by lia. reflexivity.
  - rewrite list_lookup_insert_ne by lia. reflexivity.
Qed.

Lemma draw_bits_spec (x y cur_byte : Z) (k : nat) :
  0 <= x -> 0 <= y < 32 ->
  forall (bit_index : Z) (scr : list bool) (collision : bool),
    0 <= bit_index ->
    length scr = Z.to_nat (SCREEN_WIDTH * SCREEN_HEIGHT) ->
    exists collision' scr',
      draw_bits k bit_index x y cur_byte scr collision = (collision', scr') /\
      length scr' = Z.to_nat (SCREEN_WIDTH * SCREEN_HEIGHT) /\
      (forall px py, 0 <= px < 64 -> 0 <= py < 32 ->
         pixel scr' px py =
         xorb (pixel scr px py) (row_mask x y cur_byte bit_index k px py)) /\
      (collision' = true <->
       collision = true \/
       exists px, 0 <= px < 64 /\ pixel scr px y = true /\
                  row_mask x y cur_byte bit_index k px y = true).
Proof.
  intros Hx Hy. induction k as [|k IH]; intros bit_index scr collision Hb Hlen.
  - exists collision, scr. split; [reflexivity|]. split; [exact Hlen|]. split.
    + intros px py Hpx Hpy. rewrite <- (xorb_false_r (pixel scr px py)) at 1.
      f_equal. unfold row_mask. split_comparisons.
    + split; [auto|]. intros [H|(px & _ & _ & Hm)]; [exact H|].
      unfold row_mask in Hm.
      rewrite !andb_true_iff in Hm. destruct Hm as (((_ & Hlo) & Hhi) & _).
      apply Z.leb_le in Hlo. apply Z.ltb_lt in Hhi. lia.
  - simpl draw_bits. unfold SCREEN_WIDTH at 1.
    destruct (Z.ltb_spec (x + bit_index) 64) as [Hin|Hout].
    + set (old := default false (scr !! pixel_index (x + bit_index) y)).
      set (bit := Z.testbit cur_byte (7 - bit_index)).
      destruct (IH (bit_index + 1) (<[pixel_index (x + bit_index) y := xorb old bit]> scr)
                  (collision || old && bit)) as (c' & scr' & Hrun & Hlen' & Hpix & Hcol);
        [lia | rewrite length_insert; exact Hlen |].
      exists c', scr'. split; [exact Hrun|]. split; [exact Hlen'|]. split.
      * intros px py Hpx Hpy. rewrite Hpix by assumption.
        rewrite pixel_insert by (assumption || lia).
        unfold row_mask. fold (pixel scr (x + bit_index) y) in old.
        destruct (Z.eqb_spec px (x + bit_index)) as [->|Hne];
          [destruct (Z.eqb_spec py y) as [->|Hney]|]; simpl.
        -- replace (7 - (x + bit_index - x)) with (7 - bit_index) by lia.
           fold bit. subst old. split_comparisons.
           destruct (pixel scr (x + bit_index) y), bit; reflexivity.
        -- reflexivity.
        -- f_equal. split_comparisons.
      * rewrite Hcol. rewrite orb_true_iff, andb_true_iff.
        fold (pixel scr (x + bit_index) y) in old. split.
        -- intros [[H|[Ho Hbit]]|(px & Hpx & Hset & Hm)].
           ++ left. exact H.
           ++ right. exists (x + bit_index). split; [lia|]. split; [exact Ho|].
              unfold row_mask.
              replace (7 - (x + bit_index - x)) with (7 - bit_index) by lia.
              fold bit. rewrite Hbit. split_comparisons.
           ++ right. exists px. split; [exact Hpx|].
              unfold row_mask in *.
              rewrite !andb_true_iff in Hm. destruct Hm as (((_ & Hlo) & Hhi) & Hbit).
              apply Z.leb_le in Hlo. apply Z.ltb_lt in Hhi.
              rewrite pixel_insert in Hset by (assumption || lia).
              replace (px =? x + bit_index) with false in Hset by lia.
              simpl in Hset. split; [exact Hset|]. rewrite Hbit. split_comparisons.
        -- intros [H|(px & Hpx & Hset & Hm)]; [left; left; exact H|].
           unfold row_mask in Hm.
           rewrite !andb_true_iff in Hm. destruct Hm as (((_ & Hlo) & Hhi) & Hbit).
           apply Z.leb_le in Hlo. apply Z.ltb_lt in Hhi.
           destruct (Z.eq_dec px (x + bit_index)) as [->|Hne].
           ++ left. right. split; [exact Hset|].
              replace (7 - (x + bit_index - x)) with (7 - bit_index) in Hbit by lia.
              exact Hbit.
           ++ right. exists px. split; [exact Hpx|].
              rewrite pixel_insert by (assumption || lia).
              replace (px =? x + bit_index) with false by lia. simpl.
              split; [exact Hset|]. unfold row_mask. rewrite Hbit. split_comparisons.
    + destruct (IH (bit_index + 1) scr collision) as (c' & scr' & Hrun & Hlen' & Hpix & Hcol);
        [lia | exact Hlen |].
      exists c', scr'. split; [exact Hrun|]. split; [exact Hlen'|]. split.
      * intros px py Hpx Hpy. rewrite Hpix by assumption. f_equal.
        unfold row_mask. split_comparisons.
      * rewrite Hcol. split; (intros [H|(px & Hpx & Hset & Hm)]; [left; exact H|]);
          right; exists px; (split; [exact Hpx|]); (split; [exact Hset|]);
          unfold row_mask in *;
          rewrite !andb_true_iff in Hm; destruct Hm as (((_ & Hlo) & Hhi) & Hbit);
          apply Z.leb_le in Hlo; apply Z.ltb_lt in Hhi; rewrite Hbit;
          split_comparisons.
Qed.

Lemma mask_first_row (m : list Z) (x y mem cur_byte : Z) (n : nat) (px : Z) :
  0 <= mem -> m !! Z.to_nat mem = Some cur_byte ->
  sprite_mask m x y mem (S n) px y = row_mask x y cur_byte 0 8 px y.
Proof.
  intros Hmem Hb. unfold sprite_mask, row_mask.
  replace (mem + (y - y)) with mem by lia. rewrite Hb. simpl default.
  rewrite Nat2Z.inj_succ. split_comparisons.
Qed.

Lemma mask_other_rows (m : list Z) (x y mem : Z) (n : nat) (px py : Z) :
  py <> y ->
  sprite_mask m x y mem (S n) px py = sprite_mask m x (y + 1) (mem + 1) n px py.
Proof.
  intros Hne. unfold sprite_mask.
  replace (mem + 1 + (py - (y + 1))) with (mem + (py - y)) by lia.
  rewrite Nat2Z.inj_succ. split_comparisons.
Qed.

Lemma row_mask_off_row (x y cur_byte b : Z) (k : nat) (px py : Z) :
  py <> y -> row_mask x y cur_byte b k px py = false.
Proof. intros Hne. unfold row_mask. split_comparisons. Qed.

Lemma mask_below_top (m : list Z) (x y mem : Z) (n : nat) (px py : Z) :
  py < y -> sprite_mask m x y mem n px py = false.
Proof. intros Hlt. unfold sprite_mask. split_comparisons. Qed.

Lemma put_put_same (i a b : Z) (r : Registers) :
  put_value_in_Vreg i a (put_value_in_Vreg i b r) = put_value_in_Vreg i a r.
Proof.
  unfold put_value_in_Vreg. destruct ((i >? 15) || (i <? 0)); [reflexivity|].
  unfold set_V. simpl. f_equal. apply list_insert_insert_eq.
Qed.

Lemma draw_loop_spec (x : Z) (n : nat) :
  0 <= x < 64 ->
  forall (y mem : Z) (c : Chip8),
    0 <= y < 32 -> 0 <= mem ->
    mem + Z.min (Z.of_nat n) (32 - y) <= RAM_SIZE ->
    length (ram c) = Z.to_nat RAM_SIZE ->
    length (screen c) = Z.to_nat (SCREEN_WIDTH * SCREEN_HEIGHT) ->
    exists c',
      draw_loop n x y mem c = Ok tt c' /\
      ram c' = ram c /\ stack c' = stack c /\ cerr c' = cerr c /\
      length (screen c') = Z.to_nat (SCREEN_WIDTH * SCREEN_HEIGHT) /\
      (forall px py, 0 <= px < 64 -> 0 <= py < 32 ->
         pixel (screen c') px py =
         xorb (pixel (screen c) px py) (sprite_mask (ram c) x y mem n px py)) /\
      ((collides (screen c) (sprite_mask (ram c) x y mem n) /\
        regs c' = put_value_in_Vreg 15 1 (regs c)) \/
       (~ collides (screen c) (sprite_mask (ram c) x y mem n) /\
        regs c' = regs c)).
Proof.
  intros Hx. induction n as [|n IH]; intros y mem c Hy Hmem Hfit Hram Hscr.
  - exists c. split; [reflexivity|]. repeat (split; [reflexivity || assumption|]).
    split.
    + intros px py Hpx Hpy. rewrite <- (xorb_false_r (pixel (screen c) px py)) at 1.
      f_equal. unfold sprite_mask. split_comparisons.
    + right. split; [|reflexivity]. intros (px & py & _ & _ & _ & Hm).
      unfold sprite_mask in Hm. rewrite !andb_true_iff in Hm.
      destruct Hm as ((((_ & _) & Hlo) & Hhi) & _).
      apply Z.leb_le in Hlo. apply Z.ltb_lt in Hhi. lia.
  - simpl draw_loop. unfold bind at 1. unfold read_ram, in_bounds.
    unfold RAM_SIZE in *. rewrite Nat2Z.inj_succ in Hfit.
    replace ((0 <=? mem) && (mem <? 4096)) with true by lia.
    destruct (ram c !! Z.to_nat mem) as [cur_byte|] eqn:Hbyte.
    2: { apply lookup_ge_None in Hbyte. lia. }
    unfold bind at 1. unfold draw_pixel_row at 1.
    destruct (draw_bits_spec x y cur_byte 8 ltac:(lia) Hy 0 (screen c) false ltac:(lia) Hscr)
      as (coll & scr1 & Hrow & Hlen1 & Hpix1 & Hcol1).
    rewrite Hrow.
    assert (Hcol : coll = true <->
                   exists px, 0 <= px < 64 /\ pixel (screen c) px y = true /\
                              row_mask x y cur_byte 0 8 px y = true).
    { rewrite Hcol1. split; [intros [H|H]; [discriminate | exact H] | auto]. }
    clear Hcol1.
    set (r2 := if coll then put_value_in_Vreg 15 1 (regs c) else regs c).
    set (c2 := with_regs r2 (with_screen scr1 c)).
    assert (Hstep : forall k : unit -> M unit,
               bind (if coll then put_Vreg 15 1 else ret tt) k (with_screen scr1 c) = k tt c2).
    { intros k. subst c2 r2. destruct coll; [reflexivity|].
      unfold bind, ret. destruct c; reflexivity. }
    rewrite Hstep. clear Hstep.
    destruct (Z.geb_spec (y + 1) 32) as [Hlast|Hmore]; [replace (y + 1 >=? 32) with true by lia | replace (y + 1 >=? 32) with false by lia].
    + exists c2. split; [reflexivity|]. subst c2. simpl.
      repeat (split; [reflexivity || assumption|]). split.
      * intros px py Hpx Hpy. rewrite Hpix1 by assumption. f_equal.
        destruct (Z.eq_dec py y) as [->|Hne].
        -- symmetry. apply mask_first_row; assumption.
        -- rewrite row_mask_off_row by assumption. symmetry.
           apply mask_below_top. lia.
      * subst r2. destruct coll.
        -- left. split; [|reflexivity]. apply proj1 in Hcol.
           destruct (Hcol eq_refl) as (px & Hpx & Hset & Hm).
           exists px, y. rewrite (mask_first_row _ _ _ _ cur_byte) by assumption. auto.
        -- right. split; [|reflexivity]. intros (px & py & Hpx & Hpy & Hset & Hm).
           assert (py = y) as -> by (destruct (Z.eq_dec py y); [assumption|];
             rewrite mask_below_top in Hm by lia; discriminate).
           rewrite (mask_first_row _ _ _ _ cur_byte) in Hm by assumption.
           assert (false = true) by (apply Hcol; eauto). discriminate.
    + unfold u16. rewrite (Z.mod_small (mem + 1)) by lia.
      destruct (IH (y + 1) (mem + 1) c2) as
        (c' & Hrun & Hram' & Hst' & Herr' & Hlen' & Hpix' & Hreg');
        try (subst c2; simpl; assumption || lia).
      exists c'. split; [exact Hrun|]. subst c2. simpl in *.
      repeat (split; [assumption|]). split.
      * intros px py Hpx Hpy. rewrite Hpix', Hpix1 by assumption.
        rewrite xorb_assoc. f_equal.
        destruct (Z.eq_dec py y) as [->|Hne].
        -- rewrite (mask_below_top _ _ (y + 1)) by lia. rewrite xorb_false_r.
           symmetry. apply mask_first_row; assumption.
        -- rewrite row_mask_off_row by assumption. simpl.
           symmetry. apply mask_other_rows. assumption.
      * assert (Hrest : collides scr1 (sprite_mask (ram c) x (y + 1) (mem + 1) n) <->
                        exists px py, 0 <= px < 64 /\ 0 <= py < 32 /\ py <> y /\
                          pixel (screen c) px py = true /\
                          sprite_mask (ram c) x y mem (S n) px py = true).
        { split.
          - intros (px & py & Hpx & Hpy & Hset & Hm).
            assert (Hne : py <> y) by (intros ->; rewrite mask_below_top in Hm by lia;
                                       discriminate).
            exists px, py. rewrite mask_other_rows by assumption.
            rewrite Hpix1, row_mask_off_row, xorb_false_r in Hset by assumption. auto.
          - intros (px & py & Hpx & Hpy & Hne & Hset & Hm).
            exists px, py. rewrite mask_other_rows in Hm by assumption.
            rewrite Hpix1, row_mask_off_row, xorb_false_r by assumption. auto. }
        assert (Hall : collides (screen c) (sprite_mask (ram c) x y mem (S n)) <->
                       coll = true \/ collides scr1 (sprite_mask (ram c) x (y + 1) (mem + 1) n)).
        { rewrite Hrest, Hcol. split.
          - intros (px & py & Hpx & Hpy & Hset & Hm).
            destruct (Z.eq_dec py y) as [->|Hne].
            + left. exists px. rewrite (mask_first_row _ _ _ _ cur_byte) in Hm by assumption.
              auto.
            + right. exists px, py. auto.
          - intros [(px & Hpx & Hset & Hm)|(px & py & Hpx & Hpy & Hne & Hset & Hm)].
            + exists px, y. rewrite (mask_first_row _ _ _ _ cur_byte) by assumption. auto.
            + exists px, py. auto. }
        subst r2. destruct Hreg' as [[Hc' Hr']|[Hc' Hr']]; rewrite Hr'.
        -- left. split; [apply Hall; right; exact Hc'|].
           destruct coll; [apply put_put_same | reflexivity].
        -- destruct coll.
           ++ left. split; [apply Hall; left; reflexivity | reflexivity].
           ++ right. split; [|reflexivity]. intros H. apply Hall in H as [H|H];
                [discriminate | exact (Hc' H)].
Qed.

Lemma land_63 (a : Z) : Z.land a 63 = a `mod` 64.
Proof. change 63 with (Z.ones 6). rewrite Z.land_ones by lia. reflexivity. Qed.

Lemma land_31 (a : Z) : Z.land a 31 = a `mod` 32.
Proof. change 31 with (Z.ones 5). rewrite Z.land_ones by lia. reflexivity. Qed.

(** C2: Dxyn draws the n sprite rows stored at I with their top left corner
    at (Vx mod 64, Vy mod 32).  Each display pixel is XORed with the sprite
    bit that lies on it; rows that would fall on display rows 32 and beyond
    are not drawn (and not read), and nothing wraps around to the top or to
    the left.  VF ends as 1 when some pixel went from set to clear and as 0
    otherwise, whatever it held before; no other register and no memory cell
    changes. *)
Theorem draw_sprite_clips_and_flags (h : Host) (instruction : Z) (c : Chip8) :
  wf c -> opcode_of instruction = 0xD ->
  let x0 := get_value_in_Vreg (x_of instruction) (regs c) `mod` 64 in
  let y0 := get_value_in_Vreg (y_of instruction) (regs c) `mod` 32 in
  let n := Z.to_nat (n_of instruction) in
  0 <= I (regs c) ->
  I (regs c) + Z.min (Z.of_nat n) (32 - y0) <= RAM_SIZE ->
  exists c',
    perform_instruction h instruction c = Ok tt c' /\
    (forall px py, 0 <= px < 64 -> 0 <= py < 32 ->
       pixel (screen c') px py =
       xorb (pixel (screen c) px py)
            (sprite_mask (ram c) x0 y0 (I (regs c)) n px py)) /\
    (erased (screen c) (screen c') -> get_value_in_Vreg 0xF (regs c') = 1) /\
    (~ erased (screen c) (screen c') -> get_value_in_Vreg 0xF (regs c') = 0) /\
    (forall i, 0 <= i -> i <> 0xF ->
       get_value_in_Vreg i (regs c') = get_value_in_Vreg i (regs c)) /\
    ram c' = ram c.
Proof.
  intros (HV & Hram & Hst & Hscr) Hop x0 y0 n HI Hfit.
  unfold perform_instruction. rewrite Hop. unfold case_0xD.
  unfold bind at 1. unfold Vreg at 1, gets at 1.
  unfold bind at 1. unfold Vreg at 1, gets at 1.
  unfold bind at 1. unfold gets at 1.
  unfold bind at 1. unfold put_Vreg at 1, modify_regs, modify.
  rewrite land_63, land_31. fold x0 y0 n.
  set (c0 := with_regs (put_value_in_Vreg 15 0 (regs c)) c).
  assert (Hx0 : 0 <= x0 < 64) by (subst x0; apply Z.mod_pos_bound; lia).
  assert (Hy0 : 0 <= y0 < 32) by (subst y0; apply Z.mod_pos_bound; lia).
  destruct (draw_loop_spec x0 n Hx0 y0 (I (regs c)) c0 Hy0 HI) as
    (c' & Hrun & Hram' & _ & _ & _ & Hpix & Hreg); try assumption.
  assert (HI0 : I (regs c0) = I (regs c)).
  { subst c0. simpl. unfold put_value_in_Vreg. simpl. reflexivity. }
  exists c'. split; [exact Hrun|]. simpl in Hpix, Hreg, Hram'.
  assert (Hiff : erased (screen c) (screen c') <->
                 collides (screen c) (sprite_mask (ram c) x0 y0 (I (regs c)) n)).
  { split; intros (px & py & Hpx & Hpy & Hset & H); exists px, py;
      (split; [exact Hpx|]); (split; [exact Hpy|]); (split; [exact Hset|]).
    - rewrite Hpix, Hset in H by assumption.
      destruct (sprite_mask (ram c) x0 y0 (I (regs c)) n px py); [reflexivity | discriminate].
    - rewrite Hpix, Hset, H by assumption. reflexivity. }
  split; [exact Hpix|]. rewrite Hiff.
  destruct Hreg as [[Hcol ->]|[Hcol ->]]; rewrite ?put_put_same.
  - split; [intros _; apply get_put_same; [lia | exact HV]|].
    split; [intros Hn; contradiction|]. split; [|exact Hram'].
    intros i Hi Hne. apply get_put_other; [exact Hi | congruence].
  - split; [intros Hy; contradiction|].
    split; [intros _; apply get_put_same; [lia | exact HV]|]. split; [|exact Hram'].
    intros i Hi Hne. apply get_put_other; [exact Hi | congruence].
Qed.

Lemma draw_sprite_clips_and_flags_witness :
  exists c',
    perform_instruction no_keys 0xD012 corner_sprite = Ok tt c' /\
    (forall px py, 0 <= px < 64 -> 0 <= py < 32 ->
       pixel (screen c') px py =
       xorb (pixel (screen corner_sprite) px py)
            (sprite_mask (ram corner_sprite) (126 `mod` 64) (63 `mod` 32) 0x300 2 px py)) /\
    (erased (screen corner_sprite) (screen c') -> get_value_in_Vreg 0xF (regs c') = 1) /\
    (~ erased (screen corner_sprite) (screen c') -> get_value_in_Vreg 0xF (regs c') = 0) /\
    (forall i, 0 <= i -> i <> 0xF ->
       get_value_in_Vreg i (regs c') = get_value_in_Vreg i (regs corner_sprite)) /\
    ram c' = ram corner_sprite.
Proof.
  apply (draw_sprite_clips_and_flags no_keys 0xD012 corner_sprite).
  - repeat split.
  - reflexivity.
  - vm_compute. discriminate.
  - vm_compute. discriminate.
Defined.

(** Drawn at the bottom right corner, the sprite lights (62, 31) and
    (63, 31) only: its second row and its last six columns are cut off, not
    wrapped.  Drawn a second time it clears them and sets VF. *)
Example draw_at_corner :
  lit_after (perform_instruction no_keys 0xD012 corner_sprite) =
  Some ([(62, 31); (63, 31)], 0).
Proof. vm_compute. reflexivity. Qed.

Example draw_twice_at_corner :
  lit_after ((perform_instruction no_keys 0xD012 ;;;
              perform_instruction no_keys 0xD012) corner_sprite) =
  Some ([], 1).
Proof. vm_compute. reflexivity. Qed.

(** * Further properties of the code *)

(** ** The key map *)

Lemma key_name_injective (k k' : KeyMap.SDL_Keycode) (s : string) :
  key_name k = Some s -> key_name k' = Some s -> k = k'.
Proof. destruct k, k'; simpl; intros [= <-] H; (reflexivity || discriminate). Qed.

Lemma handle_key_down_insert (sym : KeyMap.SDL_Keycode) (ks : gmap string bool) :
  KeyMap.handle_key_down sym ks =
  match key_name sym with Some s => <[s := true]> ks | None => ks end.
Proof. destruct sym; reflexivity. Qed.

Lemma handle_key_up_insert (sym : KeyMap.SDL_Keycode) (ks : gmap string bool) :
  KeyMap.handle_key_up sym ks =
  match key_name sym with Some s => <[s := false]> ks | None => ks end.
Proof. destruct sym; reflexivity. Qed.

Lemma handle_event_lookup (sym : KeyMap.SDL_Keycode) (s : string)
    (e : KeyMap.key_event) (ks : gmap string bool) :
  key_name sym = Some s ->
  KeyMap.handle_event ks e !! s =
  match event_on sym e with Some b => Some b | None => ks !! s end.
Proof.
  intros Hs. destruct e as [k|k]; simpl;
    rewrite ?handle_key_down_insert, ?handle_key_up_insert;
    (destruct (decide (k = sym)) as [->|Hne];
     [rewrite Hs; apply lookup_insert_eq|]);
    (destruct (key_name k) as [s'|] eqn:Hk; [|reflexivity]);
    apply lookup_insert_ne; intros ->; apply Hne;
    exact (key_name_injective _ _ _ Hk Hs).
Qed.

Lemma handle_event_other (s : string) (e : KeyMap.key_event) (ks : gmap string bool) :
  (forall sym, key_name sym <> Some s) ->
  KeyMap.handle_event ks e !! s = ks !! s.
Proof.
  intros Hs. destruct e as [k|k]; simpl;
    rewrite ?handle_key_down_insert, ?handle_key_up_insert;
    (destruct (key_name k) as [s'|] eqn:Hk; [|reflexivity]);
    apply lookup_insert_ne; intros ->; exact (Hs k Hk).
Qed.

(** X1: after any sequence of key events, the entry of a mapped key holds the
    direction of the last event about that key, or its old value when no
    event was about it; key up clears exactly the entry key down sets.
    Entries under any other name, and the set of names, are never touched. *)
Theorem key_state_follows_last_event
    (es : list KeyMap.key_event) (ks : gmap string bool) :
  (forall sym s, key_name sym = Some s ->
     KeyMap.handle_events es ks !! s =
     match last_event sym es with Some b => Some b | None => ks !! s end) /\
  (forall s, (forall sym, key_name sym <> Some s) ->
     KeyMap.handle_events es ks !! s = ks !! s).
Proof.
  split.
  - intros sym s Hs. revert ks. induction es as [|e es IH]; intros ks; [reflexivity|].
    unfold KeyMap.handle_events in *. simpl. rewrite IH.
    destruct (last_event sym es); [reflexivity|].
    apply handle_event_lookup. exact Hs.
  - intros s Hs. revert ks. induction es as [|e es IH]; intros ks; [reflexivity|].
    unfold KeyMap.handle_events in *. simpl. rewrite IH.
    apply handle_event_other. exact Hs.
Qed.

Lemma key_state_follows_last_event_witness :
  KeyMap.handle_events
    [KeyMap.KEYDOWN KeyMap.SDLK_q; KeyMap.KEYDOWN KeyMap.SDLK_w;
     KeyMap.KEYUP KeyMap.SDLK_q; KeyMap.KEYDOWN KeyMap.SDLK_other]
    KeyMap.key_state !! "Q"%string = Some false /\
  KeyMap.handle_events
    [KeyMap.KEYDOWN KeyMap.SDLK_q; KeyMap.KEYDOWN KeyMap.SDLK_w;
     KeyMap.KEYUP KeyMap.SDLK_q; KeyMap.KEYDOWN KeyMap.SDLK_other]
    KeyMap.key_state !! "Unknown"%string = KeyMap.key_state !! "Unknown"%string.
Proof.
  split.
  - exact (proj1 (key_state_follows_last_event _ KeyMap.key_state)
             KeyMap.SDLK_q "Q"%string eq_refl).
  - apply (proj2 (key_state_follows_last_event _ KeyMap.key_state)).
    intros sym. destruct sym; discriminate.
Defined.

Lemma hex_digit_cases (v : Z) :
  0 <= v <= 15 ->
  v = 0 \/ v = 1 \/ v = 2 \/ v = 3 \/ v = 4 \/ v = 5 \/ v = 6 \/ v = 7 \/
  v = 8 \/ v = 9 \/ v = 10 \/ v = 11 \/ v = 12 \/ v = 13 \/ v = 14 \/ v = 15.
Proof. lia. Qed.

(** X2: [get_key_from_u8] sends the 16 hex digits one-to-one onto the 16
    names of the [key_state] table, and every other value to the name
    Unknown, which is not in the table. *)
Theorem get_key_from_u8_names_the_table :
  (forall v, 0 <= v <= 15 ->
     KeyMap.key_state !! KeyMap.get_key_from_u8 v = Some false) /\
  (forall v w, 0 <= v <= 15 -> 0 <= w <= 15 ->
     KeyMap.get_key_from_u8 v = KeyMap.get_key_from_u8 w -> v = w) /\
  (forall s, is_Some (KeyMap.key_state !! s) ->
     exists v, 0 <= v <= 15 /\ KeyMap.get_key_from_u8 v = s) /\
  (forall v, ~ 0 <= v <= 15 ->
     KeyMap.get_key_from_u8 v = "Unknown"%string /\
     KeyMap.key_state !! "Unknown"%string = None).
Proof.
  split; [|split; [|split]].
  - intros v Hv. apply hex_digit_cases in Hv.
    repeat (destruct Hv as [->|Hv]; [reflexivity|]). subst v. reflexivity.
  - intros v w Hv Hw Heq. apply hex_digit_cases in Hv. apply hex_digit_cases in Hw.
    repeat (destruct Hv as [->|Hv];
            [repeat (destruct Hw as [->|Hw]; [reflexivity || discriminate|]);
             subst w; reflexivity || discriminate|]).
    subst v. repeat (destruct Hw as [->|Hw]; [reflexivity || discriminate|]).
    subst w. reflexivity.
  - intros s [b Hb]. apply elem_of_list_to_map_2 in Hb.
    repeat (apply elem_of_cons in Hb as [Hb|Hb];
            [injection Hb as -> _;
             first [ exists 0; split; [lia | reflexivity] | exists 1; split; [lia | reflexivity]
                   | exists 2; split; [lia | reflexivity] | exists 3; split; [lia | reflexivity]
                   | exists 4; split; [lia | reflexivity] | exists 5; split; [lia | reflexivity]
                   | exists 6; split; [lia | reflexivity] | exists 7; split; [lia | reflexivity]
                   | exists 8; split; [lia | reflexivity] | exists 9; split; [lia | reflexivity]
                   | exists 10; split; [lia | reflexivity] | exists 11; split; [lia | reflexivity]
                   | exists 12; split; [lia | reflexivity] | exists 13; split; [lia | reflexivity]
                   | exists 14; split; [lia | reflexivity] | exists 15; split; [lia | reflexivity] ]|]).
    apply elem_of_nil in Hb. contradiction.
  - intros v Hv. split; [|reflexivity].
    destruct v as [|p|p]; [lia | | reflexivity].
    do 4 (try destruct p as [p|p|]); try reflexivity; lia.
Qed.

Lemma get_key_from_u8_names_the_table_witness :
  KeyMap.key_state !! KeyMap.get_key_from_u8 0xC = Some false /\
  (KeyMap.get_key_from_u8 4 = KeyMap.get_key_from_u8 4 -> 4 = 4) /\
  (exists v, 0 <= v <= 15 /\ KeyMap.get_key_from_u8 v = "R"%string) /\
  KeyMap.get_key_from_u8 16 = "Unknown"%string /\
  KeyMap.key_state !! "Unknown"%string = None.
Proof.
  destruct get_key_from_u8_names_the_table as (Hin & Hinj & Honto & Hout).
  split; [apply Hin; lia|]. split; [apply Hinj; lia|].
  split; [apply Honto; eexists; reflexivity|]. apply Hout. lia.
Defined.

(** ** Register access, once more *)

(** A check of [bytes] that computes. *)
Lemma bytes_check (l : list Z) :
  forallb (fun b => (0 <=? b) && (b <=? 255)) l = true -> bytes l.
Proof.
  intros H. apply Forall_forall. intros b Hb.
  rewrite forallb_forall in H. apply list_elem_of_In in Hb.
  specialize (H b Hb). lia.
Qed.

Lemma put_keeps_rest (i v : Z) (r : Registers) :
  pc (put_value_in_Vreg i v r) = pc r /\ sp (put_value_in_Vreg i v r) = sp r /\
  I (put_value_in_Vreg i v r) = I r /\
  delay_timer (put_value_in_Vreg i v r) = delay_timer r /\
  sound_timer (put_value_in_Vreg i v r) = sound_timer r.
Proof.
  unfold put_value_in_Vreg. destruct ((i >? 15) || (i <? 0)); repeat split.
Qed.

(** X3: a register written with [put_value_in_Vreg] reads back with
    [get_value_in_Vreg]; every other register, and I, PC, SP and the timers,
    keep their values. *)
Theorem register_write_then_read (i j v : Z) (r : Registers) :
  0 <= i <= 15 -> length (V r) = 16%nat ->
  get_value_in_Vreg i (put_value_in_Vreg i v r) = v /\
  (j <> i -> get_value_in_Vreg j (put_value_in_Vreg i v r) = get_value_in_Vreg j r) /\
  I (put_value_in_Vreg i v r) = I r /\
  pc (put_value_in_Vreg i v r) = pc r /\
  sp (put_value_in_Vreg i v r) = sp r /\
  delay_timer (put_value_in_Vreg i v r) = delay_timer r /\
  sound_timer (put_value_in_Vreg i v r) = sound_timer r.
Proof.
  intros Hi Hlen. split; [apply get_put_same; assumption|]. split.
  - intros Hne. unfold get_value_in_Vreg.
    destruct ((j <? 0) || (j >? 15)) eqn:Hj; [reflexivity|].
    unfold put_value_in_Vreg. replace ((i >? 15) || (i <? 0)) with false by lia.
    simpl. rewrite list_lookup_insert_ne by lia. reflexivity.
  - unfold put_value_in_Vreg. replace ((i >? 15) || (i <? 0)) with false by lia.
    repeat split.
Qed.

Lemma register_write_then_read_witness :
  get_value_in_Vreg 3 (put_value_in_Vreg 3 77 (regs blank)) = 77 /\
  get_value_in_Vreg 5 (put_value_in_Vreg 3 77 (regs blank)) =
  get_value_in_Vreg 5 (regs blank) /\
  I (put_value_in_Vreg 3 77 (regs blank)) = I (regs blank) /\
  pc (put_value_in_Vreg 3 77 (regs blank)) = pc (regs blank) /\
  sp (put_value_in_Vreg 3 77 (regs blank)) = sp (regs blank) /\
  delay_timer (put_value_in_Vreg 3 77 (regs blank)) = delay_timer (regs blank) /\
  sound_timer (put_value_in_Vreg 3 77 (regs blank)) = sound_timer (regs blank).
Proof.
  destruct (register_write_then_read 3 5 77 (regs blank)) as (Hsame & Hother & Hrest);
    [lia | reflexivity |].
  split; [exact Hsame|]. split; [apply Hother; lia | exact Hrest].
Defined.

(** ** Fetching *)

Lemma bytes_glue (hi lo : Z) :
  0 <= hi <= 255 -> 0 <= lo <= 255 ->
  u16 (Z.lor (hi ≪ 8) lo) = 256 * hi + lo.
Proof.
  intros Hhi Hlo.
  assert (Hdisj : Z.land (hi ≪ 8) lo = 0).
  { apply Z.bits_inj'. intros n Hn. rewrite Z.land_spec, Z.bits_0.
    destruct (Z.ltb_spec n 8) as [Hlt|Hge].
    - rewrite Z.shiftl_spec_low by assumption. reflexivity.
    - destruct (Z.eq_dec lo 0) as [->|Hnz]; [rewrite Z.bits_0; apply andb_false_r|].
      rewrite (Z.bits_above_log2 lo n); [apply andb_false_r | lia |].
      assert (Z.log2 lo < 8) by (apply Z.log2_lt_pow2; lia). lia. }
  pose proof (Z.add_lor_land (hi ≪ 8) lo) as Hadd. rewrite Hdisj, Z.add_0_r in Hadd.
  rewrite Hadd, Z.shiftl_mul_pow2 by lia. change (2 ^ 8) with 256.
  unfold u16. rewrite Z.mod_small by lia. lia.
Qed.

(** X5: when PC and PC + 1 are addresses of memory, [fetch_instruction]
    returns the two bytes at PC as one big-endian word and moves PC two
    bytes on, changing nothing else; in every other state it is an access
    outside memory, as at PC = 4095, where the second byte is missing. *)
Theorem fetch_reads_big_endian (c : Chip8) :
  length (ram c) = Z.to_nat RAM_SIZE -> bytes (ram c) ->
  (0 <= pc (regs c) /\ pc (regs c) + 1 < RAM_SIZE ->
   exists hi lo,
     ram c !! Z.to_nat (pc (regs c)) = Some hi /\
     ram c !! Z.to_nat (pc (regs c) + 1) = Some lo /\
     fetch_instruction c =
     Ok (256 * hi + lo) (with_regs (set_pc (pc (regs c) + 2) (regs c)) c)) /\
  (~ (0 <= pc (regs c) /\ pc (regs c) + 1 < RAM_SIZE) ->
   exists addr, fetch_instruction c = Fault (RamOutOfBounds addr) c /\
                (addr = pc (regs c) \/ addr = pc (regs c) + 1) /\
                in_bounds addr RAM_SIZE = false).
Proof.
  intros Hlen Hb. unfold RAM_SIZE in *. split.
  - intros [Hlo Hhi].
    destruct (ram c !! Z.to_nat (pc (regs c))) as [hi|] eqn:H1.
    2: { apply lookup_ge_None in H1. lia. }
    destruct (ram c !! Z.to_nat (pc (regs c) + 1)) as [lo|] eqn:H2.
    2: { apply lookup_ge_None in H2. lia. }
    exists hi, lo. split; [reflexivity|]. split; [reflexivity|].
    unfold fetch_instruction, read_ram, in_bounds, RAM_SIZE. run_monad.
    replace ((0 <=? pc (regs c)) && (pc (regs c) <? 4096)) with true by lia.
    rewrite H1.
    replace ((0 <=? pc (regs c) + 1) && (pc (regs c) + 1 <? 4096)) with true by lia.
    rewrite H2. simpl.
    rewrite bytes_glue
      by (exact (Forall_lookup_1 _ _ _ _ Hb H1) || exact (Forall_lookup_1 _ _ _ _ Hb H2)).
    unfold u16. rewrite Z.mod_small by lia. reflexivity.
  - intros Hout. unfold fetch_instruction, read_ram, in_bounds, RAM_SIZE. run_monad.
    destruct ((0 <=? pc (regs c)) && (pc (regs c) <? 4096)) eqn:Hin.
    + destruct (ram c !! Z.to_nat (pc (regs c))) as [hi|] eqn:H1.
      2: { apply lookup_ge_None in H1. lia. }
      replace ((0 <=? pc (regs c) + 1) && (pc (regs c) + 1 <? 4096)) with false by lia.
      exists (pc (regs c) + 1). split; [reflexivity|]. split; [right; reflexivity | lia].
    + exists (pc (regs c)). split; [reflexivity|]. split; [left; reflexivity | exact Hin].
Qed.

Lemma fetch_reads_big_endian_witness :
  (exists hi lo,
     ram (with_program call_and_return blank) !! Z.to_nat 0x200 = Some hi /\
     ram (with_program call_and_return blank) !! Z.to_nat (0x200 + 1) = Some lo /\
     fetch_instruction (with_program call_and_return blank) =
     Ok (256 * hi + lo)
        (with_regs (set_pc (0x200 + 2) (regs blank)) (with_program call_and_return blank))) /\
  (exists addr,
     fetch_instruction (with_regs (set_pc 4095 (regs blank)) blank) =
     Fault (RamOutOfBounds addr) (with_regs (set_pc 4095 (regs blank)) blank) /\
     (addr = 4095 \/ addr = 4095 + 1) /\ in_bounds addr RAM_SIZE = false).
Proof.
  split.
  - destruct (fetch_reads_big_endian (with_program call_and_return blank)) as [Hok _];
      [reflexivity | apply bytes_check; vm_compute; reflexivity |].
    apply Hok. change (0 <= 0x200 /\ 0x200 + 1 < 4096). lia.
  - destruct (fetch_reads_big_endian (with_regs (set_pc 4095 (regs blank)) blank))
      as [_ Hout]; [reflexivity | apply bytes_check; vm_compute; reflexivity |].
    apply Hout. change (~ (0 <= 4095 /\ 4095 + 1 < 4096)). lia.
Defined.

(** ** The loader and the first fetch *)

Lemma fetch_of_bytes (c : Chip8) (hi lo : Z) :
  0 <= pc (regs c) -> pc (regs c) + 1 < RAM_SIZE ->
  ram c !! Z.to_nat (pc (regs c)) = Some hi ->
  ram c !! Z.to_nat (pc (regs c) + 1) = Some lo ->
  0 <= hi <= 255 -> 0 <= lo <= 255 ->
  fetch_instruction c =
  Ok (256 * hi + lo) (with_regs (set_pc (pc (regs c) + 2) (regs c)) c).
Proof.
  intros Hlo Hhi H1 H2 Hb1 Hb2. unfold RAM_SIZE in *.
  unfold fetch_instruction, read_ram, in_bounds, RAM_SIZE. run_monad.
  replace ((0 <=? pc (regs c)) && (pc (regs c) <? 4096)) with true by lia.
  rewrite H1.
  replace ((0 <=? pc (regs c) + 1) && (pc (regs c) + 1 <? 4096)) with true by lia.
  rewrite H2. simpl. rewrite bytes_glue by assumption.
  unfold u16. rewrite Z.mod_small by lia. reflexivity.
Qed.

(** X6: a blob of 2 to 3584 bytes loaded by [load_rom] into a machine whose
    PC is at 0x200 is what the first [fetch_instruction] reads: the fetched
    word is the first two bytes of the blob, big-endian. *)
Theorem loaded_program_is_fetched (fileName : string) (buffer : list Z) (c : Chip8) :
  wf c -> bytes buffer -> (2 <= length buffer <= 3584)%nat ->
  pc (regs c) = ROM_START ->
  exists b0 b1 c1,
    buffer !! 0%nat = Some b0 /\ buffer !! 1%nat = Some b1 /\
    load_rom fileName (Opened buffer true) c = Ok tt c1 /\
    fetch_instruction c1 =
    Ok (256 * b0 + b1) (with_regs (set_pc (ROM_START + 2) (regs c1)) c1).
Proof.
  intros (_ & Hram & _) Hb Hlen Hpc.
  destruct (buffer !! 0%nat) as [b0|] eqn:H0.
  2: { apply lookup_ge_None in H0. lia. }
  destruct (buffer !! 1%nat) as [b1|] eqn:H1.
  2: { apply lookup_ge_None in H1. lia. }
  destruct (copy_loop buffer (length buffer) 0 c) as (m & Hrun & Hm & Hnew & _);
    try (unfold ROM_START, RAM_SIZE; lia); try assumption.
  pose proof (Forall_lookup_1 _ _ _ _ Hb H0) as Hb0.
  pose proof (Forall_lookup_1 _ _ _ _ Hb H1) as Hb1. simpl in Hb0, Hb1.
  exists b0, b1, (with_ram m c). split; [reflexivity|]. split; [reflexivity|].
  split; [exact Hrun|].
  pose proof (Hnew 0 ltac:(lia)) as Hm0. pose proof (Hnew 1 ltac:(lia)) as Hm1.
  change (Z.to_nat 0) with 0%nat in Hm0. change (Z.to_nat 1) with 1%nat in Hm1.
  rewrite H0 in Hm0. rewrite H1 in Hm1. simpl in Hm0, Hm1.
  unfold u8 in Hm0, Hm1. rewrite Z.mod_small in Hm0, Hm1 by lia.
  rewrite Z.add_0_r in Hm0.
  rewrite (fetch_of_bytes (with_ram m c) b0 b1); simpl; rewrite ?Hpc;
    try (unfold ROM_START, RAM_SIZE; lia); try assumption.
  reflexivity.
Qed.

Lemma loaded_program_is_fetched_witness :
  exists b0 b1 c1,
    [0x12; 0x03] !! 0%nat = Some b0 /\ [0x12; 0x03] !! 1%nat = Some b1 /\
    load_rom "jump.ch8" (Opened [0x12; 0x03] true) blank = Ok tt c1 /\
    fetch_instruction c1 =
    Ok (256 * b0 + b1) (with_regs (set_pc (ROM_START + 2) (regs c1)) c1).
Proof.
  apply (loaded_program_is_fetched "jump.ch8" [0x12; 0x03] blank).
  - apply wf_blank.
  - apply bytes_check. reflexivity.
  - simpl. lia.
  - reflexivity.
Defined.

(** ** Timers *)

Lemma timers_set_same (c : Chip8) :
  timers_set (delay_timer (regs c)) (sound_timer (regs c)) c = c.
Proof. destruct c as [[] ? ? ? ?]. reflexivity. Qed.

Lemma timers_set_twice (d s d' s' : Z) (c : Chip8) :
  timers_set d s (timers_set d' s' c) = timers_set d s c.
Proof. reflexivity. Qed.

Lemma update_timers_step (c : Chip8) :
  0 <= delay_timer (regs c) <= 255 -> 0 <= sound_timer (regs c) <= 255 ->
  update_timers c =
  Ok tt (timers_set (Z.max 0 (delay_timer (regs c) - 1))
                    (Z.max 0 (sound_timer (regs c) - 1)) c).
Proof.
  intros Hd Hs. unfold update_timers. run_monad. unfold timers_set. do 2 f_equal.
  destruct (delay_timer (regs c) >? 0) eqn:Hd0; simpl;
    destruct (sound_timer (regs c) >? 0) eqn:Hs0; simpl;
    unfold set_sound_timer, set_delay_timer, u8; simpl;
    rewrite ?Z.mod_small by lia; f_equal; try lia.
  destruct (regs c) as [v i p s d t]. simpl in *. f_equal; lia.
Qed.

(** X7: each call of [update_timers] lowers a non-zero timer by one and
    leaves a timer at zero alone, so after [n] ticks the delay and sound
    timers hold max(0, timer - n): they count down to zero and stay there,
    without wrapping; nothing else in the machine changes. *)
Theorem timers_count_down_to_zero (n : nat) (c : Chip8) :
  0 <= delay_timer (regs c) <= 255 -> 0 <= sound_timer (regs c) <= 255 ->
  ticks n c =
  Ok tt (timers_set (Z.max 0 (delay_timer (regs c) - Z.of_nat n))
                    (Z.max 0 (sound_timer (regs c) - Z.of_nat n)) c).
Proof.
  revert c. induction n as [|n IH]; intros c Hd Hs.
  - simpl. unfold ret. rewrite !Z.sub_0_r, !Z.max_r by lia.
    rewrite timers_set_same. reflexivity.
  - simpl ticks. unfold bind. rewrite update_timers_step by assumption.
    rewrite IH by (simpl; lia). simpl. rewrite timers_set_twice.
    do 2 f_equal; lia.
Qed.

Lemma timers_count_down_to_zero_witness :
  ticks 5 (timers_set 3 200 blank) =
  Ok tt (timers_set (Z.max 0 (3 - Z.of_nat 5)) (Z.max 0 (200 - Z.of_nat 5))
           (timers_set 3 200 blank)).
Proof. apply (timers_count_down_to_zero 5 (timers_set 3 200 blank)); simpl; lia. Defined.

(** X8: a value written to the delay timer by Fx15 and read back by Fy07
    after [n] timer ticks has gone down by [n], but not below zero. *)
Theorem delay_timer_round_trip (h h' : Host) (setter getter : Z) (n : nat) (c : Chip8) :
  opcode_of setter = 0xF -> kk_of setter = 0x15 ->
  opcode_of getter = 0xF -> kk_of getter = 0x07 ->
  length (V (regs c)) = 16%nat -> bytes (V (regs c)) ->
  0 <= sound_timer (regs c) <= 255 ->
  exists c1 c2 c3,
    perform_instruction h setter c = Ok tt c1 /\
    ticks n c1 = Ok tt c2 /\
    perform_instruction h' getter c2 = Ok tt c3 /\
    get_value_in_Vreg (x_of getter) (regs c3) =
    Z.max 0 (get_value_in_Vreg (x_of setter) (regs c) - Z.of_nat n).
Proof.
  intros Hop1 Hkk1 Hop2 Hkk2 Hlen Hb Hs.
  pose proof (get_byte (x_of setter) _ Hb) as Hx.
  pose proof (x_of_range getter) as Hy.
  unfold perform_instruction. rewrite Hop1, Hop2. unfold case_0xF.
  rewrite Hkk1, Hkk2. run_monad. eexists. eexists. eexists.
  split; [reflexivity|]. split.
  - apply timers_count_down_to_zero; simpl; assumption.
  - split; [reflexivity|]. simpl. apply get_put_same; assumption.
Qed.

Lemma delay_timer_round_trip_witness :
  exists c1 c2 c3,
    perform_instruction no_keys 0xF315 counting = Ok tt c1 /\
    ticks 10 c1 = Ok tt c2 /\
    perform_instruction no_keys 0xF507 c2 = Ok tt c3 /\
    get_value_in_Vreg (x_of 0xF507) (regs c3) =
    Z.max 0 (get_value_in_Vreg (x_of 0xF315) (regs counting) - Z.of_nat 10).
Proof.
  apply (delay_timer_round_trip no_keys no_keys 0xF315 0xF507 10 counting);
    try reflexivity.
  - apply bytes_check. reflexivity.
  - simpl. lia.
Defined.

(** ** Conditional skips *)

(** X9: the conditional skips come in complementary pairs.  Run from the
    same state with the same operands, exactly one of 3xkk and 4xkk, one of
    5xy0 and 9xy0, and one of Ex9E and ExA1 moves PC two bytes on, and the
    other changes nothing. *)
Theorem skip_pairs_are_complementary (h : Host) (c : Chip8) :
  (forall eq ne, opcode_of eq = 0x3 -> opcode_of ne = 0x4 ->
     x_of ne = x_of eq -> kk_of ne = kk_of eq ->
     complementary (perform_instruction h eq c) (perform_instruction h ne c) c
       (get_value_in_Vreg (x_of eq) (regs c) = kk_of eq)) /\
  (forall eq ne, opcode_of eq = 0x5 -> opcode_of ne = 0x9 ->
     x_of ne = x_of eq -> y_of ne = y_of eq ->
     complementary (perform_instruction h eq c) (perform_instruction h ne c) c
       (get_value_in_Vreg (x_of eq) (regs c) = get_value_in_Vreg (y_of eq) (regs c))) /\
  (forall down up, opcode_of down = 0xE -> opcode_of up = 0xE ->
     kk_of down = 0x9E -> kk_of up = 0xA1 -> x_of up = x_of down ->
     complementary (perform_instruction h down c) (perform_instruction h up c) c
       (key_down h (get_value_in_Vreg (x_of down) (regs c)) = true)).
Proof.
  split; [|split].
  - intros i3 i4 Hop3 Hop4 Hx Hkk. unfold perform_instruction. rewrite Hop3, Hop4.
    unfold case_0x3, case_0x4. rewrite Hx, Hkk. run_monad.
    destruct (Z.eqb_spec (kk_of i3) (get_value_in_Vreg (x_of i3) (regs c))) as [He|Hne];
      simpl; [left | right]; (split; [congruence|]); split; reflexivity.
  - intros i5 i9 Hop5 Hop9 Hx Hy. unfold perform_instruction. rewrite Hop5, Hop9.
    unfold case_0x5, case_0x9. rewrite Hx, Hy.
    pose proof (x_of_range i5). pose proof (y_of_range i5).
    unfold u8. rewrite !Z.mod_small by lia. run_monad.
    destruct (Z.eqb_spec (get_value_in_Vreg (x_of i5) (regs c))
                (get_value_in_Vreg (y_of i5) (regs c))) as [He|Hne];
      simpl; [left | right]; (split; [assumption|]); split; reflexivity.
  - intros i1 i2 Hop1 Hop2 Hkk1 Hkk2 Hx. unfold perform_instruction. rewrite Hop1, Hop2.
    unfold case_0xE. rewrite Hkk1, Hkk2, Hx. run_monad.
    destruct (key_down h (get_value_in_Vreg (x_of i1) (regs c)));
      simpl; [left | right]; (split; [congruence|]); split; reflexivity.
Qed.

Lemma skip_pairs_are_complementary_witness :
  complementary (perform_instruction no_keys 0x3107 counting)
    (perform_instruction no_keys 0x4107 counting) counting
    (get_value_in_Vreg (x_of 0x3107) (regs counting) = kk_of 0x3107) /\
  complementary (perform_instruction no_keys 0x5120 counting)
    (perform_instruction no_keys 0x9120 counting) counting
    (get_value_in_Vreg (x_of 0x5120) (regs counting) =
     get_value_in_Vreg (y_of 0x5120) (regs counting)) /\
  complementary (perform_instruction keys_5_and_A 0xE49E counting)
    (perform_instruction keys_5_and_A 0xE4A1 counting) counting
    (key_down keys_5_and_A (get_value_in_Vreg (x_of 0xE49E) (regs counting)) = true).
Proof.
  destruct (skip_pairs_are_complementary no_keys counting) as (H34 & H59 & _).
  destruct (skip_pairs_are_complementary keys_5_and_A counting) as (_ & _ & HE).
  split; [apply H34; reflexivity|]. split; [apply H59; reflexivity|].
  apply HE; reflexivity.
Defined.

(** ** Arithmetic and logic *)

Lemma put_same_value (i : Z) (r : Registers) :
  0 <= i <= 15 -> length (V r) = 16%nat ->
  put_value_in_Vreg i (get_value_in_Vreg i r) r = r.
Proof.
  intros Hi Hlen. unfold put_value_in_Vreg, get_value_in_Vreg.
  replace ((i >? 15) || (i <? 0)) with false by lia.
  replace ((i <? 0) || (i >? 15)) with false by lia.
  destruct (V r !! Z.to_nat i) as [v|] eqn:Hv.
  2: { apply lookup_ge_None in Hv. lia. }
  simpl. rewrite list_insert_id by exact Hv. destruct r. reflexivity.
Qed.

(** X10: 8xy3 is its own inverse: with x different from y, running it twice
    gives back the machine it started from. *)
Theorem xor_twice_is_identity (h h' : Host) (instruction : Z) (c : Chip8) :
  opcode_of instruction = 8 -> n_of instruction = 0x3 ->
  x_of instruction <> y_of instruction ->
  length (V (regs c)) = 16%nat ->
  exists c1,
    perform_instruction h instruction c = Ok tt c1 /\
    perform_instruction h' instruction c1 = Ok tt c.
Proof.
  intros Hop Hn Hxy Hlen.
  pose proof (x_of_range instruction) as Hx. pose proof (y_of_range instruction) as Hy.
  unfold perform_instruction. rewrite Hop. unfold case_0x8. rewrite Hn. run_monad.
  eexists. split; [reflexivity|]. simpl.
  rewrite (get_put_other (x_of instruction) (y_of instruction)) by lia.
  rewrite get_put_same by (lia || assumption).
  rewrite put_put_same, Z.lxor_assoc, Z.lxor_nilpotent, Z.lxor_0_r.
  rewrite put_same_value by (lia || assumption).
  destruct c. reflexivity.
Qed.

Lemma xor_twice_is_identity_witness :
  exists c1,
    perform_instruction no_keys 0x8123 counting = Ok tt c1 /\
    perform_instruction no_keys 0x8123 c1 = Ok tt counting.
Proof.
  apply (xor_twice_is_identity no_keys no_keys 0x8123 counting); try reflexivity.
  vm_compute. discriminate.
Defined.

(** X11: 8xy5 undoes 8xy4: with x and y different from each other and from
    0xF, adding Vy to Vx and then subtracting it gives every register
    V0..VE its old value (only the flag in VF differs). *)
Theorem add_then_subtract_restores (h h' : Host) (add sub : Z) (c : Chip8) :
  opcode_of add = 8 -> n_of add = 0x4 ->
  opcode_of sub = 8 -> n_of sub = 0x5 ->
  x_of sub = x_of add -> y_of sub = y_of add ->
  x_of add <> y_of add -> x_of add <> 0xF -> y_of add <> 0xF ->
  length (V (regs c)) = 16%nat -> bytes (V (regs c)) ->
  exists c1 c2,
    perform_instruction h add c = Ok tt c1 /\
    perform_instruction h' sub c1 = Ok tt c2 /\
    forall i, 0 <= i < 15 ->
      get_value_in_Vreg i (regs c2) = get_value_in_Vreg i (regs c).
Proof.
  intros Hop1 Hn1 Hop2 Hn2 Hx Hy Hxy HxF HyF Hlen Hb.
  pose proof (x_of_range add) as Hxr. pose proof (y_of_range add) as Hyr.
  pose proof (get_byte (x_of add) _ Hb) as Hbx.
  pose proof (get_byte (y_of add) _ Hb) as Hby.
  unfold perform_instruction. rewrite Hop1, Hop2. unfold case_0x8.
  rewrite Hn1, Hn2, Hx, Hy. run_monad.
  eexists. eexists. split; [reflexivity|]. split; [reflexivity|]. simpl.
  rewrite (get_put_other (x_of add) (y_of add)) by lia.
  rewrite (get_put_other 15 (y_of add)) by lia.
  rewrite get_put_same by (lia || (rewrite put_length; assumption)).
  intros i Hi.
  destruct (Z.eq_dec i (x_of add)) as [->|Hne].
  - rewrite get_put_same by (lia || (rewrite !put_length; assumption)).
    unfold u8, u16.
    rewrite (Z.mod_small (get_value_in_Vreg (x_of add) (regs c)) 65536) by lia.
    rewrite (Z.mod_small (get_value_in_Vreg (y_of add) (regs c)) 65536) by lia.
    rewrite (Z.mod_small (_ + _) 65536) by lia.
    set (a := get_value_in_Vreg (x_of add) (regs c)) in *.
    set (b := get_value_in_Vreg (y_of add) (regs c)) in *.
    Z.div_mod_to_equations. lia.
  - rewrite !get_put_other by lia. reflexivity.
Qed.

Lemma add_then_subtract_restores_witness :
  exists c1 c2,
    perform_instruction no_keys 0x8124 counting = Ok tt c1 /\
    perform_instruction no_keys 0x8125 c1 = Ok tt c2 /\
    forall i, 0 <= i < 15 ->
      get_value_in_Vreg i (regs c2) = get_value_in_Vreg i (regs counting).
Proof.
  apply (add_then_subtract_restores no_keys no_keys 0x8124 0x8125 counting);
    try reflexivity; try (vm_compute; discriminate).
  apply bytes_check. reflexivity.
Defined.

(** X12: the shifts lose no bit.  With x different from 0xF, after 8xy6 the
    old Vx is 2 * Vx + VF, and after 8xyE 2 * (old Vx) is
    256 * VF + Vx; in both cases VF is 0 or 1. *)
Theorem shifts_move_one_bit_into_VF (h : Host) (instruction : Z) (c : Chip8) :
  opcode_of instruction = 8 -> x_of instruction <> 0xF ->
  length (V (regs c)) = 16%nat -> bytes (V (regs c)) ->
  (n_of instruction = 0x6 ->
   exists c', perform_instruction h instruction c = Ok tt c' /\
     get_value_in_Vreg (x_of instruction) (regs c) =
     2 * get_value_in_Vreg (x_of instruction) (regs c') +
     get_value_in_Vreg 0xF (regs c') /\
     0 <= get_value_in_Vreg 0xF (regs c') <= 1) /\
  (n_of instruction = 0xE ->
   exists c', perform_instruction h instruction c = Ok tt c' /\
     2 * get_value_in_Vreg (x_of instruction) (regs c) =
     256 * get_value_in_Vreg 0xF (regs c') +
     get_value_in_Vreg (x_of instruction) (regs c') /\
     0 <= get_value_in_Vreg 0xF (regs c') <= 1).
Proof.
  intros Hop HxF Hlen Hb.
  pose proof (x_of_range instruction) as Hxr.
  pose proof (get_byte (x_of instruction) _ Hb) as Hbx.
  unfold perform_instruction. rewrite Hop. unfold case_0x8.
  split; intros Hn; rewrite Hn; run_monad; eexists; (split; [reflexivity|]); simpl;
    rewrite !(get_put_same (x_of instruction)) by (lia || (rewrite put_length; assumption));
    rewrite !(get_put_other (x_of instruction) 15) by lia;
    rewrite !(get_put_same 15) by (lia || assumption);
    set (a := get_value_in_Vreg (x_of instruction) (regs c)) in *; unfold u8.
  - change (Z.land a 1) with (Z.land a (Z.ones 1)).
    rewrite Z.land_ones, Z.shiftr_div_pow2 by lia.
    change (2 ^ 1) with 2. Z.div_mod_to_equations. lia.
  - rewrite Z.shiftr_div_pow2, Z.shiftl_mul_pow2 by lia.
    change (2 ^ 7) with 128. change (2 ^ 1) with 2. Z.div_mod_to_equations. lia.
Qed.

Lemma shifts_move_one_bit_into_VF_witness :
  (exists c', perform_instruction no_keys 0x8206 counting = Ok tt c' /\
     get_value_in_Vreg (x_of 0x8206) (regs counting) =
     2 * get_value_in_Vreg (x_of 0x8206) (regs c') + get_value_in_Vreg 0xF (regs c') /\
     0 <= get_value_in_Vreg 0xF (regs c') <= 1) /\
  (exists c', perform_instruction no_keys 0x820E counting = Ok tt c' /\
     2 * get_value_in_Vreg (x_of 0x820E) (regs counting) =
     256 * get_value_in_Vreg 0xF (regs c') + get_value_in_Vreg (x_of 0x820E) (regs c') /\
     0 <= get_value_in_Vreg 0xF (regs c') <= 1).
Proof.
  split.
  - destruct (shifts_move_one_bit_into_VF no_keys 0x8206 counting) as [Hr _];
      [reflexivity | vm_compute; discriminate | reflexivity
      | apply bytes_check; reflexivity |].
    apply Hr. reflexivity.
  - destruct (shifts_move_one_bit_into_VF no_keys 0x820E counting) as [_ Hl];
      [reflexivity | vm_compute; discriminate | reflexivity
      | apply bytes_check; reflexivity |].
    apply Hl. reflexivity.
Defined.

(** X13: whatever number the generator draws, Cxkk leaves in Vx a byte with
    no bit outside kk: Vx AND kk = Vx and 0 <= Vx <= kk. *)
Theorem random_byte_stays_under_mask (h : Host) (instruction : Z) (c : Chip8) :
  opcode_of instruction = 0xC -> length (V (regs c)) = 16%nat ->
  exists c', perform_instruction h instruction c = Ok tt c' /\
    Z.land (get_value_in_Vreg (x_of instruction) (regs c')) (kk_of instruction) =
    get_value_in_Vreg (x_of instruction) (regs c') /\
    0 <= get_value_in_Vreg (x_of instruction) (regs c') <= kk_of instruction.
Proof.
  intros Hop Hlen. pose proof (x_of_range instruction) as Hxr.
  unfold perform_instruction. rewrite Hop. unfold case_0xC.
  replace (u8 (x_of instruction)) with (x_of instruction)
    by (unfold u8; rewrite Z.mod_small; lia).
  run_monad. eexists. split; [reflexivity|]. simpl.
  rewrite !get_put_same by (lia || assumption).
  assert (Hkk : 0 <= kk_of instruction) by (unfold kk_of, u8; apply Z.mod_pos_bound; lia).
  set (kk := kk_of instruction) in *. set (r := u8 (random_num h)).
  split.
  - rewrite (Z.land_comm kk r), <- Z.land_assoc, Z.land_diag. reflexivity.
  - apply Z.ldiff_le; [exact Hkk|].
    apply Z.bits_inj'. intros n Hn.
    rewrite Z.ldiff_spec, Z.land_spec, Z.bits_0.
    destruct (Z.testbit kk n), (Z.testbit r n); reflexivity.
Qed.

Lemma random_byte_stays_under_mask_witness :
  exists c', perform_instruction (mkHost (fun _ => false) 0x1F5) 0xC30F counting = Ok tt c' /\
    Z.land (get_value_in_Vreg (x_of 0xC30F) (regs c')) (kk_of 0xC30F) =
    get_value_in_Vreg (x_of 0xC30F) (regs c') /\
    0 <= get_value_in_Vreg (x_of 0xC30F) (regs c') <= kk_of 0xC30F.
Proof.
  apply (random_byte_stays_under_mask (mkHost (fun _ => false) 0x1F5) 0xC30F counting);
    reflexivity.
Defined.

(** ** Drawing twice *)

Lemma draw_effect (h : Host) (instruction : Z) (c : Chip8) :
  wf c -> opcode_of instruction = 0xD -> 0 <= I (regs c) ->
  I (regs c) + n_of instruction <= RAM_SIZE ->
  exists c', perform_instruction h instruction c = Ok tt c' /\
    wf c' /\ ram c' = ram c /\
    (regs c' = put_value_in_Vreg 15 1 (put_value_in_Vreg 15 0 (regs c)) \/
     regs c' = put_value_in_Vreg 15 0 (regs c)) /\
    forall px py, 0 <= px < 64 -> 0 <= py < 32 ->
      pixel (screen c') px py =
      xorb (pixel (screen c) px py)
           (sprite_mask (ram c)
              (get_value_in_Vreg (x_of instruction) (regs c) `mod` 64)
              (get_value_in_Vreg (y_of instruction) (regs c) `mod` 32)
              (I (regs c)) (Z.to_nat (n_of instruction)) px py).
Proof.
  intros (HV & Hram & Hst & Hscr) Hop HI Hfit.
  pose proof (n_of_range instruction) as Hn.
  unfold perform_instruction. rewrite Hop. unfold case_0xD.
  unfold bind at 1. unfold Vreg at 1, gets at 1.
  unfold bind at 1. unfold Vreg at 1, gets at 1.
  unfold bind at 1. unfold gets at 1.
  unfold bind at 1. unfold put_Vreg at 1, modify_regs, modify.
  rewrite land_63, land_31.
  set (x0 := _ `mod` 64). set (y0 := _ `mod` 32).
  assert (Hx0 : 0 <= x0 < 64) by (subst x0; apply Z.mod_pos_bound; lia).
  assert (Hy0 : 0 <= y0 < 32) by (subst y0; apply Z.mod_pos_bound; lia).
  set (c0 := with_regs (put_value_in_Vreg 15 0 (regs c)) c).
  destruct (draw_loop_spec x0 (Z.to_nat (n_of instruction)) Hx0 y0 (I (regs c)) c0 Hy0 HI)
    as (c' & Hrun & Hram' & Hst' & _ & Hlen' & Hpix & Hreg); try assumption; [lia|].
  exists c'. split; [exact Hrun|]. simpl in *.
  assert (Hregs : regs c' = put_value_in_Vreg 15 1 (put_value_in_Vreg 15 0 (regs c)) \/
                  regs c' = put_value_in_Vreg 15 0 (regs c)).
  { destruct Hreg as [[_ ->]|[_ ->]]; [left | right]; reflexivity. }
  split.
  - repeat split; try congruence.
    destruct Hregs as [-> | ->]; rewrite ?put_length; exact HV.
  - split; [exact Hram'|]. split; [exact Hregs | exact Hpix].
Qed.

Lemma screens_agree (s1 s2 : list bool) :
  length s1 = Z.to_nat (SCREEN_WIDTH * SCREEN_HEIGHT) ->
  length s2 = Z.to_nat (SCREEN_WIDTH * SCREEN_HEIGHT) ->
  (forall px py, 0 <= px < 64 -> 0 <= py < 32 -> pixel s1 px py = pixel s2 px py) ->
  s1 = s2.
Proof.
  unfold SCREEN_WIDTH, SCREEN_HEIGHT. intros H1 H2 Hpix. apply list_eq. intros i.
  destruct (decide (i < 2048)%nat) as [Hi|Hi].
  - specialize (Hpix (Z.of_nat i `mod` 64) (Z.of_nat i / 64)).
    unfold pixel, pixel_index, SCREEN_WIDTH in Hpix.
    replace (Z.to_nat (Z.of_nat i / 64 * 64 + Z.of_nat i `mod` 64)) with i in Hpix
      by (Z.div_mod_to_equations; lia).
    destruct (lookup_lt_is_Some_2 s1 i) as [b1 Hb1]; [lia|].
    destruct (lookup_lt_is_Some_2 s2 i) as [b2 Hb2]; [lia|].
    rewrite Hb1, Hb2 in *. simpl in Hpix. f_equal. apply Hpix.
    + apply Z.mod_pos_bound. lia.
    + Z.div_mod_to_equations. lia.
  - rewrite !lookup_ge_None_2 by lia. reflexivity.
Qed.

(** X14: Dxyn is its own inverse on the display: with Vx and Vy not in VF
    and the sprite inside memory, drawing the same sprite a second time
    gives back the display as it was before the first; memory is as it
    was. *)
Theorem draw_twice_restores_display (h h' : Host) (instruction : Z) (c : Chip8) :
  wf c -> opcode_of instruction = 0xD ->
  x_of instruction <> 0xF -> y_of instruction <> 0xF ->
  0 <= I (regs c) -> I (regs c) + n_of instruction <= RAM_SIZE ->
  exists c1 c2,
    perform_instruction h instruction c = Ok tt c1 /\
    perform_instruction h' instruction c1 = Ok tt c2 /\
    screen c2 = screen c /\ ram c2 = ram c.
Proof.
  intros Hwf Hop Hx Hy HI Hfit.
  pose proof (x_of_range instruction) as Hxr.
  pose proof (y_of_range instruction) as Hyr.
  destruct (draw_effect h instruction c) as (c1 & Hrun1 & Hwf1 & Hram1 & Hregs1 & Hpix1);
    try assumption.
  assert (Hsame : I (regs c1) = I (regs c) /\
                  get_value_in_Vreg (x_of instruction) (regs c1) =
                  get_value_in_Vreg (x_of instruction) (regs c) /\
                  get_value_in_Vreg (y_of instruction) (regs c1) =
                  get_value_in_Vreg (y_of instruction) (regs c)).
  { destruct Hregs1 as [-> | ->];
      rewrite ?(get_put_other 15 (x_of instruction)),
              ?(get_put_other 15 (y_of instruction)) by lia;
      (split; [|split; reflexivity]).
    - transitivity (I (put_value_in_Vreg 15 0 (regs c))); apply put_keeps_rest.
    - apply put_keeps_rest. }
  destruct Hsame as (HI1 & Hx1 & Hy1).
  destruct (draw_effect h' instruction c1) as (c2 & Hrun2 & Hwf2 & Hram2 & _ & Hpix2);
    try assumption; try (rewrite HI1; assumption).
  exists c1, c2. split; [exact Hrun1|]. split; [exact Hrun2|].
  split; [|congruence].
  apply screens_agree; [apply Hwf2 | apply Hwf |].
  intros px py Hpx Hpy. rewrite Hpix2, Hpix1 by assumption.
  rewrite Hram1, HI1, Hx1, Hy1. destruct (pixel (screen c) px py), (sprite_mask _ _ _ _ _ px py); reflexivity.
Qed.

Lemma draw_twice_restores_display_witness :
  exists c1 c2,
    perform_instruction no_keys 0xD012 corner_sprite = Ok tt c1 /\
    perform_instruction no_keys 0xD012 c1 = Ok tt c2 /\
    screen c2 = screen corner_sprite /\ ram c2 = ram corner_sprite.
Proof.
  apply (draw_twice_restores_display no_keys no_keys 0xD012 corner_sprite);
    [repeat split | reflexivity | vm_compute; discriminate | vm_compute; discriminate
    | vm_compute; discriminate | vm_compute; discriminate].
Defined.

(** ** Decimal digits and the font *)

(** X15: Fx33 stores the three decimal digits of Vx: with I + 2 inside
    memory, the cells I, I + 1 and I + 2 receive the hundreds, tens and ones
    of Vx, digits between 0 and 9 that add up to Vx again, and no other cell
    and no register changes.  With I + 2 outside memory the first write, the
    one to I + 2, is already out of bounds and nothing has been written. *)
Theorem bcd_digits (h : Host) (instruction : Z) (c : Chip8) :
  opcode_of instruction = 0xF -> kk_of instruction = 0x33 ->
  length (ram c) = Z.to_nat RAM_SIZE -> bytes (V (regs c)) -> 0 <= I (regs c) ->
  (I (regs c) + 2 < RAM_SIZE ->
   exists m hundreds tens ones,
     perform_instruction h instruction c = Ok tt (with_ram m c) /\
     m !! Z.to_nat (I (regs c)) = Some hundreds /\
     m !! Z.to_nat (I (regs c) + 1) = Some tens /\
     m !! Z.to_nat (I (regs c) + 2) = Some ones /\
     0 <= hundreds <= 9 /\ 0 <= tens <= 9 /\ 0 <= ones <= 9 /\
     100 * hundreds + 10 * tens + ones =
     get_value_in_Vreg (x_of instruction) (regs c) /\
     forall a, (a < Z.to_nat (I (regs c)))%nat \/ (Z.to_nat (I (regs c)) + 2 < a)%nat ->
       m !! a = ram c !! a) /\
  (RAM_SIZE <= I (regs c) + 2 ->
   perform_instruction h instruction c = Fault (RamOutOfBounds (I (regs c) + 2)) c).
Proof.
  intros Hop Hkk Hlen Hb HI. unfold RAM_SIZE in *.
  pose proof (get_byte (x_of instruction) _ Hb) as Hx.
  unfold perform_instruction. rewrite Hop. unfold case_0xF. rewrite Hkk.
  run_monad. unfold write_ram, in_bounds, RAM_SIZE. simpl.
  set (vx := get_value_in_Vreg (x_of instruction) (regs c)) in *.
  set (i := I (regs c)) in *. split.
  - intros Hfit.
    replace ((0 <=? i + 2) && (i + 2 <? 4096)) with true by lia.
    replace ((0 <=? i + 1) && (i + 1 <? 4096)) with true by lia.
    replace ((0 <=? i) && (i <? 4096)) with true by lia.
    unfold u8. rewrite (Z.mod_small (vx / 10)) by (Z.div_mod_to_equations; lia).
    rewrite (Z.mod_small (vx / 10 / 10)) by (Z.div_mod_to_equations; lia).
    eexists. exists ((vx / 10 / 10) `mod` 10), ((vx / 10) `mod` 10), (vx `mod` 10).
    split; [reflexivity|]. cbn [ram with_ram].
    split; [apply list_lookup_insert_eq; rewrite ?length_insert; lia|].
    split; [rewrite list_lookup_insert_ne by lia;
            apply list_lookup_insert_eq; rewrite ?length_insert; lia|].
    split; [rewrite !list_lookup_insert_ne by lia;
            apply list_lookup_insert_eq; rewrite ?length_insert; lia|].
    split; [Z.div_mod_to_equations; lia|].
    split; [Z.div_mod_to_equations; lia|].
    split; [Z.div_mod_to_equations; lia|].
    split; [Z.div_mod_to_equations; lia|].
    intros a Ha. rewrite !list_lookup_insert_ne by lia. reflexivity.
  - intros Hout. replace ((0 <=? i + 2) && (i + 2 <? 4096)) with false by lia.
    reflexivity.
Qed.

Lemma bcd_digits_witness :
  (exists m hundreds tens ones,
     perform_instruction no_keys 0xF933 counting = Ok tt (with_ram m counting) /\
     m !! Z.to_nat 0x300 = Some hundreds /\
     m !! Z.to_nat (0x300 + 1) = Some tens /\
     m !! Z.to_nat (0x300 + 2) = Some ones /\
     0 <= hundreds <= 9 /\ 0 <= tens <= 9 /\ 0 <= ones <= 9 /\
     100 * hundreds + 10 * tens + ones = get_value_in_Vreg (x_of 0xF933) (regs counting) /\
     forall a, (a < Z.to_nat 0x300)%nat \/ (Z.to_nat 0x300 + 2 < a)%nat ->
       m !! a = ram counting !! a) /\
  perform_instruction no_keys 0xF933 (with_regs (set_I 4094 (regs counting)) counting) =
  Fault (RamOutOfBounds (4094 + 2)) (with_regs (set_I 4094 (regs counting)) counting).
Proof.
  split.
  - destruct (bcd_digits no_keys 0xF933 counting) as [Hin _];
      [reflexivity | reflexivity | reflexivity | apply bytes_check; reflexivity
      | simpl; lia |].
    apply Hin. simpl. unfold RAM_SIZE. lia.
  - destruct (bcd_digits no_keys 0xF933 (with_regs (set_I 4094 (regs counting)) counting))
      as [_ Hout];
      [reflexivity | reflexivity | reflexivity | apply bytes_check; reflexivity
      | simpl; lia |].
    apply Hout. simpl. unfold RAM_SIZE. lia.
Defined.

(** X16: Fx29 points I at 0x050 + 5 * Vx.  For a hex digit in Vx that is a
    5-byte glyph inside the font area 0x050..0x09F, and for every byte in Vx
    the 5 bytes from I on are inside memory, so that a sprite of up to 5
    rows drawn next is drawn without leaving memory. *)
Theorem font_glyph_is_in_memory (h h' : Host) (font draw : Z) (c : Chip8) :
  wf c -> bytes (V (regs c)) ->
  opcode_of font = 0xF -> kk_of font = 0x29 ->
  opcode_of draw = 0xD -> n_of draw <= 5 ->
  exists c1 c2,
    perform_instruction h font c = Ok tt c1 /\
    I (regs c1) = 0x050 + 5 * get_value_in_Vreg (x_of font) (regs c) /\
    (get_value_in_Vreg (x_of font) (regs c) <= 0xF ->
     0x050 <= I (regs c1) /\ I (regs c1) + 5 <= 0x0A0) /\
    perform_instruction h' draw c1 = Ok tt c2.
Proof.
  intros Hwf Hb Hop1 Hkk1 Hop2 Hn.
  pose proof (get_byte (x_of font) _ Hb) as Hx.
  assert (Hfont : perform_instruction h font c =
                  Ok tt (with_regs (set_I (0x050 + 5 * get_value_in_Vreg (x_of font) (regs c))
                                      (regs c)) c)).
  { unfold perform_instruction. rewrite Hop1. unfold case_0xF. rewrite Hkk1.
    run_monad. unfold u16. rewrite Z.mod_small by lia. do 3 f_equal. lia. }
  rewrite Hfont.
  destruct (draw_effect h' draw
              (with_regs (set_I (0x050 + 5 * get_value_in_Vreg (x_of font) (regs c))
                            (regs c)) c)) as (c2 & Hrun & _);
    try assumption; try (simpl; unfold RAM_SIZE; lia).
  eexists. exists c2. split; [reflexivity|]. simpl.
  split; [reflexivity|]. split; [lia | exact Hrun].
Qed.

Lemma font_glyph_is_in_memory_witness :
  exists c1 c2,
    perform_instruction no_keys 0xF929 counting = Ok tt c1 /\
    I (regs c1) = 0x050 + 5 * get_value_in_Vreg (x_of 0xF929) (regs counting) /\
    (0x050 <= I (regs c1) /\ I (regs c1) + 5 <= 0x0A0) /\
    perform_instruction no_keys 0xD015 c1 = Ok tt c2.
Proof.
  destruct (font_glyph_is_in_memory no_keys no_keys 0xF929 0xD015 counting)
    as (c1 & c2 & Hfont & HI & Hglyph & Hdraw);
    [repeat split | apply bytes_check; reflexivity | reflexivity | reflexivity
    | reflexivity | vm_compute; discriminate |].
  exists c1, c2. split; [exact Hfont|]. split; [exact HI|].
  split; [apply Hglyph; vm_compute; discriminate | exact Hdraw].
Defined.

(** ** The key scan and the key skips *)

(** X17: Fx0A and Ex9E agree on the keys.  Either none of the 16 keys is
    down and Fx0A only rewinds PC, or Fx0A leaves in Vx the hex value of a
    key that is down, and PC where it was, so that Ex9E on the same register
    skips and ExA1 does not. *)
Theorem key_wait_agrees_with_key_skip (h : Host) (wait down up : Z) (c : Chip8) :
  opcode_of wait = 0xF -> kk_of wait = 0x0A ->
  opcode_of down = 0xE -> kk_of down = 0x9E -> x_of down = x_of wait ->
  opcode_of up = 0xE -> kk_of up = 0xA1 -> x_of up = x_of wait ->
  length (V (regs c)) = 16%nat ->
  exists c1, perform_instruction h wait c = Ok tt c1 /\
    (((forall value, 0 <= value <= 15 -> key_down h value = false) /\
      c1 = rewound c) \/
     (exists value, 0 <= value <= 15 /\ key_down h value = true /\
        get_value_in_Vreg (x_of wait) (regs c1) = value /\
        pc (regs c1) = pc (regs c) /\
        perform_instruction h down c1 = Ok tt (skipped c1) /\
        perform_instruction h up c1 = Ok tt c1)).
Proof.
  intros Hop Hkk Hop1 Hkk1 Hx1 Hop2 Hkk2 Hx2 Hlen.
  pose proof (x_of_range wait) as Hx.
  unfold perform_instruction. rewrite Hop, Hop1, Hop2.
  unfold case_0xF, case_0xE. rewrite Hkk, Hkk1, Hkk2, Hx1, Hx2.
  run_monad. unfold wait_for_key.
  repeat match goal with
         | |- context [if key_state h ?k then _ else _] =>
             destruct (key_state h k) eqn:?;
             [eexists; split; [reflexivity|]; right; cbn [regs with_regs];
              rewrite get_put_same by (assumption || lia);
              eexists; split; [|split; [|split; [reflexivity|]]];
              [lia | cbv [key_down get_keycode_from_u8]; assumption
              | cbv [key_down get_keycode_from_u8];
                match goal with H : key_state h _ = true |- _ => rewrite H end;
                split; [apply put_keeps_rest | split; reflexivity]]
             |]
         end.
  eexists. split; [reflexivity|]. left. split; [|reflexivity].
  intros value Hv. destruct (hex_digit_cases value Hv) as
    [->|[->|[->|[->|[->|[->|[->|[->|[->|[->|[->|[->|[->|[->|[->| ->]]]]]]]]]]]]]]];
    cbv [key_down get_keycode_from_u8]; assumption.
Qed.

Lemma key_wait_agrees_with_key_skip_witness :
  exists c1, perform_instruction keys_5_and_A 0xF30A blank = Ok tt c1 /\
    (((forall value, 0 <= value <= 15 -> key_down keys_5_and_A value = false) /\
      c1 = rewound blank) \/
     (exists value, 0 <= value <= 15 /\ key_down keys_5_and_A value = true /\
        get_value_in_Vreg (x_of 0xF30A) (regs c1) = value /\
        pc (regs c1) = pc (regs blank) /\
        perform_instruction keys_5_and_A 0xE39E c1 = Ok tt (skipped c1) /\
        perform_instruction keys_5_and_A 0xE3A1 c1 = Ok tt c1)).
Proof.
  apply (key_wait_agrees_with_key_skip keys_5_and_A 0xF30A 0xE39E 0xE3A1 blank);
    reflexivity.
Defined.

(** ** Restoring and dumping again *)

Lemma load_loop_keeps_I (n : nat) :
  forall (k : Z) (c c' : Chip8),
    for_loop n k load_body c = Ok tt c' ->
    I (regs c') = I (regs c) /\ ram c' = ram c.
Proof.
  induction n as [|n IH]; intros k c c'; simpl.
  - intros [= <-]. split; reflexivity.
  - unfold load_body at 1. unfold bind at 1. unfold bind at 1. unfold gets at 1.
    unfold bind at 1. unfold read_ram.
    destruct (in_bounds (I (regs c) + k) RAM_SIZE); [|discriminate].
    destruct (ram c !! Z.to_nat (I (regs c) + k)) as [b|]; [|discriminate].
    run_monad. intros Hrest. apply IH in Hrest as [HI Hram]. simpl in *.
    rewrite HI, Hram. split; [apply put_keeps_rest | reflexivity].
Qed.

Lemma store_loop_same (n : nat) :
  forall (k : Z) (c : Chip8),
    0 <= k -> 0 <= I (regs c) -> I (regs c) + k + Z.of_nat n <= RAM_SIZE ->
    (forall j, k <= j < k + Z.of_nat n ->
       ram c !! Z.to_nat (I (regs c) + j) = Some (get_value_in_Vreg j (regs c))) ->
    for_loop n k store_body c = Ok tt c.
Proof.
  induction n as [|n IH]; intros k c Hk HI Hfit Hsame; simpl.
  - reflexivity.
  - unfold store_body at 1. run_monad. unfold write_ram, in_bounds.
    replace ((0 <=? I (regs c) + k) && (I (regs c) + k <? RAM_SIZE)) with true by lia.
    rewrite list_insert_id by (apply Hsame; lia).
    replace (with_ram (ram c) c) with c by (destruct c; reflexivity).
    apply IH; try lia. intros j Hj. apply Hsame. lia.
Qed.

(** X18: Fx55 after Fx65 writes back what was read: with I + x inside
    memory, restoring V0..Vx from memory leaves memory and I as they were,
    and dumping the registers again leaves the whole machine as it was
    after the restore. *)
Theorem load_then_store_keeps_memory (h h' : Host) (load store : Z) (c : Chip8) :
  opcode_of load = 0xF -> kk_of load = 0x65 ->
  opcode_of store = 0xF -> kk_of store = 0x55 -> x_of store = x_of load ->
  wf c -> 0 <= I (regs c) -> I (regs c) + x_of load < RAM_SIZE ->
  exists c1, perform_instruction h load c = Ok tt c1 /\
    ram c1 = ram c /\ I (regs c1) = I (regs c) /\
    perform_instruction h' store c1 = Ok tt c1.
Proof.
  intros Hop1 Hkk1 Hop2 Hkk2 Hx (HV & Hram & _) HI Hfit.
  pose proof (x_of_range load) as Hxr.
  unfold perform_instruction. rewrite Hop1, Hop2. unfold case_0xF.
  rewrite Hkk1, Hkk2, Hx. run_monad.
  fold load_body store_body.
  change (fun i => let* base := gets (fun c0 => I (regs c0)) in
                   let* b := read_ram (base + i) in put_Vreg i b) with load_body.
  change (fun i => let* base := gets (fun c0 => I (regs c0)) in
                   let* Vi := Vreg i in write_ram (base + i) Vi) with store_body.
  destruct (load_loop (Z.to_nat (x_of load + 1)) 0 c) as (r & Hrun & Hlen & Hread & _);
    try assumption; try lia.
  destruct (load_loop_keeps_I _ _ _ _ Hrun) as [HI' _]. simpl in HI'.
  exists (with_regs r c). split; [exact Hrun|]. split; [reflexivity|].
  split; [exact HI'|].
  apply store_loop_same; simpl; rewrite ?HI'; try lia.
  intros j Hj. apply Hread. lia.
Qed.

Lemma load_then_store_keeps_memory_witness :
  exists c1, perform_instruction no_keys 0xF365 counting = Ok tt c1 /\
    ram c1 = ram counting /\ I (regs c1) = I (regs counting) /\
    perform_instruction no_keys 0xF355 c1 = Ok tt c1.
Proof.
  apply (load_then_store_keeps_memory no_keys no_keys 0xF365 0xF355 counting);
    [reflexivity | reflexivity | reflexivity | reflexivity | reflexivity
    | repeat split | simpl; lia | vm_compute; reflexivity].
Defined.

(** ** What the instructions leave alone *)

Section Frame.

Context {B : Type} (f : Chip8 -> B).

Lemma untouched_ret {A} (a : A) : untouched f (ret a).
Proof. intros c. reflexivity. Qed.

Lemma untouched_gets {A} (g : Chip8 -> A) : untouched f (gets g).
Proof. intros c. reflexivity. Qed.

Lemma untouched_bind {A A'} (m : M A) (k : A -> M A') :
  untouched f m -> (forall a, untouched f (k a)) -> untouched f (bind m k).
Proof.
  intros Hm Hk c. unfold bind. specialize (Hm c).
  destruct (m c) as [a c1|e c1]; simpl in *; [|exact Hm].
  rewrite Hk. exact Hm.
Qed.

Lemma untouched_if {A} (b : bool) (m1 m2 : M A) :
  untouched f m1 -> untouched f m2 -> untouched f (if b then m1 else m2).
Proof. destruct b; auto. Qed.

Lemma untouched_modify (g : Chip8 -> Chip8) :
  (forall c, f (g c) = f c) -> untouched f (modify g).
Proof. intros Hg c. apply Hg. Qed.

Lemma untouched_read_ram (addr : Z) : untouched f (read_ram addr).
Proof.
  intros c. unfold read_ram. destruct (in_bounds addr RAM_SIZE); [|reflexivity].
  destruct (ram c !! Z.to_nat addr); reflexivity.
Qed.

Lemma untouched_read_stack (idx : Z) : untouched f (read_stack idx).
Proof.
  intros c. unfold read_stack. destruct (in_bounds idx STACK_SIZE); [|reflexivity].
  destruct (stack c !! Z.to_nat idx); reflexivity.
Qed.

Lemma untouched_write_ram (addr v : Z) :
  (forall m c, f (with_ram m c) = f c) -> untouched f (write_ram addr v).
Proof.
  intros Hf c. unfold write_ram. destruct (in_bounds addr RAM_SIZE); [|reflexivity].
  apply Hf.
Qed.

Lemma untouched_write_stack (idx v : Z) :
  (forall st c, f (with_stack st c) = f c) -> untouched f (write_stack idx v).
Proof.
  intros Hf c. unfold write_stack. destruct (in_bounds idx STACK_SIZE); [|reflexivity].
  apply Hf.
Qed.

Lemma untouched_draw_pixel_row (x y b : Z) :
  (forall scr c, f (with_screen scr c) = f c) -> untouched f (draw_pixel_row x y b).
Proof.
  intros Hf c. unfold draw_pixel_row.
  destruct (draw_bits 8 0 x y b (screen c) false). apply Hf.
Qed.

Lemma untouched_for_loop (n : nat) (body : Z -> M unit) :
  (forall i, untouched f (body i)) -> forall k, untouched f (for_loop n k body).
Proof.
  intros Hb. induction n as [|n IH]; intros k; simpl.
  - apply untouched_ret.
  - apply untouched_bind; [apply Hb | intros _; apply IH].
Qed.

Lemma untouched_draw_loop (n : nat) :
  (forall scr c, f (with_screen scr c) = f c) ->
  (forall i v c, f (with_regs (put_value_in_Vreg i v (regs c)) c) = f c) ->
  forall x y memory_location, untouched f (draw_loop n x y memory_location).
Proof.
  intros Hscr Hput. induction n as [|n IH]; intros x y memory_location; simpl.
  - apply untouched_ret.
  - apply untouched_bind; [apply untouched_read_ram | intros cur_byte].
    apply untouched_bind; [apply untouched_draw_pixel_row, Hscr | intros collided].
    apply untouched_bind.
    + apply untouched_if; [|apply untouched_ret].
      apply untouched_modify. intros c. apply Hput.
    + intros _. apply untouched_if; [apply untouched_ret | apply IH].
Qed.

End Frame.

(** Break a computation down to its reads and writes; what is left are the
    writes, each with the question whether it reaches the part looked at. *)
Ltac frame :=
  unfold put_Vreg, skip, report, Vreg, modify_regs;
  repeat lazymatch goal with
    | |- untouched _ (ret _) => apply untouched_ret
    | |- untouched _ (gets _) => apply untouched_gets
    | |- untouched _ (read_ram _) => apply untouched_read_ram
    | |- untouched _ (read_stack _) => apply untouched_read_stack
    | |- untouched _ (bind _ _) => apply untouched_bind; [|intros ?]
    | |- untouched _ (if _ then _ else _) => apply untouched_if
    | |- untouched _ (for_loop _ _ _) => apply untouched_for_loop; intros ?
    | |- untouched _ (draw_loop _ _ _ _) =>
        apply untouched_draw_loop; [intros ? ?|intros ? ? ?]
    | |- untouched _ (modify _) => apply untouched_modify; intros ?
    | |- untouched _ (write_ram _ _) => apply untouched_write_ram; intros ? ?
    | |- untouched _ (write_stack _ _) => apply untouched_write_stack; intros ? ?
    | |- untouched _ (match ?x with _ => _ end) => destruct x; cbv beta iota
    end;
  try reflexivity; try (cbn; apply put_keeps_rest); try (exfalso; congruence).

Ltac by_opcode instruction :=
  unfold perform_instruction;
  let op := fresh "op" in
  set (op := opcode_of instruction) in *; clearbody op;
  destruct op as [|op|op]; [| do 4 (try destruct op as [op|op|]) |];
  cbv beta iota;
  unfold case_0x0, case_0x1, case_0x2, case_0x3, case_0x4, case_0x5, case_0x6,
    case_0x7, case_0x8, case_0x9, case_0xA, case_0xB, case_0xC, case_0xD,
    case_0xE, case_0xF, wait_for_key;
  let k := fresh "k" in
  set (k := kk_of instruction) in *; clearbody k.

Lemma perform_keeps_ram (h : Host) (instruction : Z) :
  writes_memory instruction = false ->
  untouched ram (perform_instruction h instruction).
Proof.
  unfold writes_memory. intros Hno.
  assert (Hno' : opcode_of instruction <> 0xF \/
                 (kk_of instruction <> 0x33 /\ kk_of instruction <> 0x55)) by lia.
  clear Hno. by_opcode instruction; frame; lia.
Qed.

Lemma perform_keeps_screen (h : Host) (instruction : Z) :
  draws instruction = false ->
  untouched screen (perform_instruction h instruction).
Proof.
  unfold draws. intros Hno.
  assert (Hno' : instruction <> 0x00E0 /\ opcode_of instruction <> 0xD) by lia.
  clear Hno. destruct Hno' as [H1 H2]. by_opcode instruction; frame; lia.
Qed.

Lemma without_true (excluded : Z -> bool) (instruction : Z) (c : Chip8) :
  without excluded instruction c = true -> excluded instruction = false.
Proof. unfold without. destruct (excluded instruction); [discriminate | reflexivity]. Qed.

(** X19: memory is written by Fx33 and Fx55 only: a run of fetches,
    instructions and timer ticks in which neither of the two is executed
    ends with memory as it started, so a program without them cannot change
    itself. *)
Theorem memory_is_written_only_by_Fx33_and_Fx55 (c0 c : Chip8) :
  reaches (without writes_memory) c0 c -> ram c = ram c0.
Proof.
  intros Hr. induction Hr as [|h c c1 c2 instruction _ IH Hf Hall Hrun|c c' _ IH Ht].
  - reflexivity.
  - apply fetch_ok in Hf as (-> & _). apply without_true in Hall.
    pose proof (perform_keeps_ram h instruction Hall
                  (with_regs (set_pc (u16 (pc (regs c) + 2)) (regs c)) c)) as Hk.
    rewrite Hrun in Hk. simpl in Hk. rewrite Hk. exact IH.
  - injection Ht as <-. exact IH.
Qed.

Lemma memory_is_written_only_by_Fx33_and_Fx55_witness :
  exists c2, reaches (without writes_memory) (with_program even_jumps blank) c2 /\
    pc (regs c2) = 0x204 /\ ram c2 = ram (with_program even_jumps blank).
Proof.
  assert (Hstep : exists c1 c2,
             fetch_instruction (with_program even_jumps blank) = Ok 0x1204 c1 /\
             perform_instruction no_keys 0x1204 c1 = Ok tt c2 /\
             pc (regs c2) = 0x204).
  { do 2 eexists. split; [vm_compute; reflexivity|].
    split; [vm_compute; reflexivity | reflexivity]. }
  destruct Hstep as (c1 & c2 & Hf & Hrun & Hpc).
  assert (Hr : reaches (without writes_memory) (with_program even_jumps blank) c2).
  { eapply reaches_cycle; [apply reaches_start | exact Hf | reflexivity | exact Hrun]. }
  exists c2. split; [exact Hr|]. split; [exact Hpc|].
  apply (memory_is_written_only_by_Fx33_and_Fx55 (with_program even_jumps blank) c2).
  exact Hr.
Defined.

(** X20: the display is changed by 00E0 and Dxyn only: a run in which
    neither is executed ends with the display buffer as it started. *)
Theorem display_is_changed_only_by_00E0_and_Dxyn (c0 c : Chip8) :
  reaches (without draws) c0 c -> screen c = screen c0.
Proof.
  intros Hr. induction Hr as [|h c c1 c2 instruction _ IH Hf Hall Hrun|c c' _ IH Ht].
  - reflexivity.
  - apply fetch_ok in Hf as (-> & _). apply without_true in Hall.
    pose proof (perform_keeps_screen h instruction Hall
                  (with_regs (set_pc (u16 (pc (regs c) + 2)) (regs c)) c)) as Hk.
    rewrite Hrun in Hk. simpl in Hk. rewrite Hk. exact IH.
  - injection Ht as <-. exact IH.
Qed.

Lemma display_is_changed_only_by_00E0_and_Dxyn_witness :
  exists c2, reaches (without draws) (with_program call_and_return blank) c2 /\
    pc (regs c2) = 0x204 /\ screen c2 = screen (with_program call_and_return blank).
Proof.
  assert (Hstep : exists c1 c2,
             fetch_instruction (with_program call_and_return blank) = Ok 0x2204 c1 /\
             perform_instruction no_keys 0x2204 c1 = Ok tt c2 /\
             pc (regs c2) = 0x204).
  { do 2 eexists. split; [vm_compute; reflexivity|].
    split; [vm_compute; reflexivity | reflexivity]. }
  destruct Hstep as (c1 & c2 & Hf & Hrun & Hpc).
  assert (Hr : reaches (without draws) (with_program call_and_return blank) c2).
  { eapply reaches_cycle; [apply reaches_start | exact Hf | reflexivity | exact Hrun]. }
  exists c2. split; [exact Hr|]. split; [exact Hpc|].
  apply (display_is_changed_only_by_00E0_and_Dxyn (with_program call_and_return blank) c2).
  exact Hr.
Defined.

Lemma call_spares_last_slot (instruction : Z) :
  untouched (fun c => stack c !! 15%nat) (case_0x2 instruction).
Proof.
  intros c. unfold case_0x2. run_monad.
  destruct (sp (regs c) >=? 15) eqn:Hfull; [reflexivity|].
  unfold write_stack, in_bounds, STACK_SIZE.
  destruct ((0 <=? sp (regs c)) && (sp (regs c) <? 16)) eqn:Hin; [|reflexivity].
  simpl. apply list_lookup_insert_ne. lia.
Qed.

(** X21: the call stack and the error stream belong to 2nnn: no other
    instruction writes a stack slot or reports an error, whether it returns
    or faults, and no instruction at all writes the last slot, stack[15]. *)
Theorem stack_is_written_only_by_calls (h : Host) (instruction : Z) (c : Chip8) :
  stack (state_of (perform_instruction h instruction c)) !! 15%nat = stack c !! 15%nat /\
  (opcode_of instruction <> 0x2 ->
   stack (state_of (perform_instruction h instruction c)) = stack c /\
   cerr (state_of (perform_instruction h instruction c)) = cerr c).
Proof.
  split; [|intros Hop; split]; revert c.
  - change (untouched (fun c => stack c !! 15%nat) (perform_instruction h instruction)).
    unfold perform_instruction.
    destruct (opcode_of instruction) as [|op|op];
      [| do 4 (try destruct op as [op|op|]) |]; cbv beta iota;
      try apply call_spares_last_slot;
      unfold case_0x0, case_0x1, case_0x3, case_0x4, case_0x5, case_0x6,
        case_0x7, case_0x8, case_0x9, case_0xA, case_0xB, case_0xC, case_0xD,
        case_0xE, case_0xF, wait_for_key; frame.
  - change (untouched stack (perform_instruction h instruction)).
    by_opcode instruction; frame; lia.
  - change (untouched cerr (perform_instruction h instruction)).
    by_opcode instruction; frame; lia.
Qed.

Lemma stack_is_written_only_by_calls_witness :
  stack (state_of (perform_instruction no_keys 0x00EE blank)) !! 15%nat = stack blank !! 15%nat /\
  stack (state_of (perform_instruction no_keys 0x00EE blank)) = stack blank /\
  cerr (state_of (perform_instruction no_keys 0x00EE blank)) = cerr blank.
Proof.
  destruct (stack_is_written_only_by_calls no_keys 0x00EE blank) as [Hlast Hrest].
  split; [exact Hlast|]. apply Hrest. vm_compute. discriminate.
Defined.

(** X22: the index register and the two timers have their own
    instructions: I is changed by Annn, Fx1E and Fx29 only, the delay timer
    by Fx15 only and the sound timer by Fx18 only. *)
Theorem index_and_timers_have_their_own_instructions
    (h : Host) (instruction : Z) (c : Chip8) :
  (opcode_of instruction <> 0xA ->
   opcode_of instruction <> 0xF \/
   (kk_of instruction <> 0x1E /\ kk_of instruction <> 0x29) ->
   I (regs (state_of (perform_instruction h instruction c))) = I (regs c)) /\
  (opcode_of instruction <> 0xF \/ kk_of instruction <> 0x15 ->
   delay_timer (regs (state_of (perform_instruction h instruction c))) =
   delay_timer (regs c)) /\
  (opcode_of instruction <> 0xF \/ kk_of instruction <> 0x18 ->
   sound_timer (regs (state_of (perform_instruction h instruction c))) =
   sound_timer (regs c)).
Proof.
  split; [intros H1 H2 | split; intros H1]; revert c.
  - change (untouched (fun c => I (regs c)) (perform_instruction h instruction)).
    by_opcode instruction; frame; lia.
  - change (untouched (fun c => delay_timer (regs c)) (perform_instruction h instruction)).
    by_opcode instruction; frame; lia.
  - change (untouched (fun c => sound_timer (regs c)) (perform_instruction h instruction)).
    by_opcode instruction; frame; lia.
Qed.

Lemma index_and_timers_have_their_own_instructions_witness :
  I (regs (state_of (perform_instruction no_keys 0xF315 counting))) = I (regs counting) /\
  delay_timer (regs (state_of (perform_instruction no_keys 0xF318 counting))) =
  delay_timer (regs counting) /\
  sound_timer (regs (state_of (perform_instruction no_keys 0xF315 counting))) =
  sound_timer (regs counting).
Proof.
  split; [|split].
  - apply (index_and_timers_have_their_own_instructions no_keys 0xF315 counting).
    + vm_compute. discriminate.
    + right. split; vm_compute; discriminate.
  - apply (index_and_timers_have_their_own_instructions no_keys 0xF318 counting).
    right. vm_compute. discriminate.
  - apply (index_and_timers_have_their_own_instructions no_keys 0xF315 counting).
    right. vm_compute. discriminate.
Defined.

(** X23: V0..VF are written by 6xkk, 7xkk, 8xyn, Cxkk, Dxyn, Fx07, Fx0A and
    Fx65 only: every other instruction, whether it returns or faults, leaves
    the sixteen registers as they were. *)
Theorem registers_are_written_only_by_data_instructions
    (h : Host) (instruction : Z) (c : Chip8) :
  opcode_of instruction <> 0x6 -> opcode_of instruction <> 0x7 ->
  opcode_of instruction <> 0x8 -> opcode_of instruction <> 0xC ->
  opcode_of instruction <> 0xD ->
  opcode_of instruction <> 0xF \/
  (kk_of instruction <> 0x07 /\ kk_of instruction <> 0x0A /\ kk_of instruction <> 0x65) ->
  V (regs (state_of (perform_instruction h instruction c))) = V (regs c).
Proof.
  intros H6 H7 H8 HC HD HF. revert c.
  change (untouched (fun c => V (regs c)) (perform_instruction h instruction)).
  by_opcode instruction; frame; lia.
Qed.

Lemma registers_are_written_only_by_data_instructions_witness :
  V (regs (state_of (perform_instruction no_keys 0xF355 counting))) = V (regs counting).
Proof.
  apply (registers_are_written_only_by_data_instructions no_keys 0xF355 counting);
    try (vm_compute; discriminate).
  right. repeat split; vm_compute; discriminate.
Defined.

(** X24: the stack pointer is changed by 00EE and 2nnn only, and PC, the
    fetch apart, by 00EE, the jumps 1nnn, 2nnn and Bnnn, the skips 3xkk,
    4xkk, 5xy0, 9xy0, Ex9E and ExA1, and the rewind of Fx0A only. *)
Theorem control_is_changed_only_by_control_instructions
    (h : Host) (instruction : Z) (c : Chip8) :
  instruction <> 0x00EE -> opcode_of instruction <> 0x2 ->
  sp (regs (state_of (perform_instruction h instruction c))) = sp (regs c) /\
  (opcode_of instruction <> 0x1 -> opcode_of instruction <> 0x3 ->
   opcode_of instruction <> 0x4 -> opcode_of instruction <> 0x5 ->
   opcode_of instruction <> 0x9 -> opcode_of instruction <> 0xB ->
   opcode_of instruction <> 0xE ->
   opcode_of instruction <> 0xF \/ kk_of instruction <> 0x0A ->
   pc (regs (state_of (perform_instruction h instruction c))) = pc (regs c)).
Proof.
  intros Hret Hcall. split; [|intros H1 H3 H4 H5 H9 HB HE HF]; revert c.
  - change (untouched (fun c => sp (regs c)) (perform_instruction h instruction)).
    by_opcode instruction; frame; lia.
  - change (untouched (fun c => pc (regs c)) (perform_instruction h instruction)).
    by_opcode instruction; frame; lia.
Qed.

Lemma control_is_changed_only_by_control_instructions_witness :
  sp (regs (state_of (perform_instruction no_keys 0xD015 counting))) = sp (regs counting) /\
  pc (regs (state_of (perform_instruction no_keys 0xD015 counting))) = pc (regs counting).
Proof.
  assert (Hret : 0xD015 <> 0x00EE) by discriminate.
  assert (Hop : forall op, op <> 0xD -> opcode_of 0xD015 <> op).
  { intros op Hne. change (opcode_of 0xD015) with 0xD. congruence. }
  pose proof (control_is_changed_only_by_control_instructions no_keys 0xD015 counting
                Hret (Hop 0x2 ltac:(discriminate))) as [Hsp Hpc].
  split; [exact Hsp|].
  exact (Hpc (Hop 0x1 ltac:(discriminate)) (Hop 0x3 ltac:(discriminate))
             (Hop 0x4 ltac:(discriminate)) (Hop 0x5 ltac:(discriminate))
             (Hop 0x9 ltac:(discriminate)) (Hop 0xB ltac:(discriminate))
             (Hop 0xE ltac:(discriminate)) (or_introl (Hop 0xF ltac:(discriminate)))).
Defined.

(** ** The early revision: fall-through and the call stack *)

(** X25: in the early revision case 0x0 has no break and falls into the
    jump of case 0x1: an instruction 0nnn other than 00EE does what it does
    in the current interpreter, which leaves PC alone, and then jumps to
    nnn; so 00E0 clears the display and continues at 0x0E0. *)
Theorem early_zero_page_falls_into_jump (h : Host) (instruction : Z) (c : Chip8) :
  opcode_of instruction = 0x0 -> instruction <> 0x00EE ->
  exists c1,
    perform_instruction h instruction c = Ok tt c1 /\
    pc (regs c1) = pc (regs c) /\
    Early.perform_instruction instruction c = Ok tt (jumped (nnn_of instruction) c1).
Proof.
  intros Hop Hne. unfold perform_instruction, Early.perform_instruction.
  rewrite Hop. unfold Early.case_0x0, case_0x0, case_0x1.
  generalize (nnn_of instruction). intros nnn. clear Hop.
  destruct instruction as [|p|p];
    try (eexists; split; [reflexivity | split; reflexivity]).
  do 8 (destruct p as [p|p|];
        try (eexists; split; [reflexivity | split; reflexivity])).
  congruence.
Qed.

Lemma early_zero_page_falls_into_jump_witness :
  exists c1,
    perform_instruction no_keys 0x00E0 corner_sprite = Ok tt c1 /\
    pc (regs c1) = pc (regs corner_sprite) /\
    Early.perform_instruction 0x00E0 corner_sprite = Ok tt (jumped (nnn_of 0x00E0) c1).
Proof.
  apply (early_zero_page_falls_into_jump no_keys 0x00E0 corner_sprite);
    [reflexivity | discriminate].
Defined.

(** X26: in the early revision a return does not come back.  2nnn
    increments SP first and stores the return address in stack[SP + 1]; 00EE
    decrements SP and reads stack[SP], the slot below the one the call
    wrote, and then falls into the jump: after call and return SP is as
    before the call, PC is 0x0EE, and the return address lies unread in
    stack[SP + 1]. *)
Theorem early_return_misses_the_return_address (call : Z) (c : Chip8) :
  opcode_of call = 0x2 -> wf c -> 0 <= sp (regs c) < 15 ->
  exists c1 c2,
    Early.perform_instruction call c = Ok tt c1 /\
    stack c1 !! Z.to_nat (sp (regs c) + 1) = Some (pc (regs c)) /\
    stack c1 !! Z.to_nat (sp (regs c)) = stack c !! Z.to_nat (sp (regs c)) /\
    Early.perform_instruction 0x00EE c1 = Ok tt c2 /\
    sp (regs c2) = sp (regs c) /\ pc (regs c2) = 0x0EE /\ stack c2 = stack c1.
Proof.
  intros Hop (HV & Hram & Hst & Hscr) Hsp. unfold STACK_SIZE in *.
  unfold Early.perform_instruction. rewrite Hop.
  change (opcode_of 0x00EE) with 0x0. cbv beta iota.
  unfold Early.case_0x2, Early.case_0x0, case_0x1. run_monad.
  replace (sp (regs c) >=? 16 - 1) with false by lia.
  destruct (lookup_lt_is_Some_2 (stack c) (Z.to_nat (sp (regs c)))) as [a Ha]; [lia|].
  unfold write_stack, in_bounds, STACK_SIZE, u8. simpl.
  rewrite (Z.mod_small (sp (regs c) + 1)) by lia.
  replace ((0 <=? sp (regs c) + 1) && (sp (regs c) + 1 <? 16)) with true by lia.
  eexists. eexists. split; [reflexivity|]. simpl.
  split; [apply list_lookup_insert_eq; lia|].
  split; [apply list_lookup_insert_ne; lia|].
  replace (sp (regs c) + 1 - 1) with (sp (regs c)) by lia.
  rewrite Z.mod_small by lia. unfold read_stack, in_bounds, STACK_SIZE. simpl.
  replace ((0 <=? sp (regs c)) && (sp (regs c) <? 16)) with true by lia.
  rewrite list_lookup_insert_ne by lia.
  rewrite Ha.
  simpl. split; [reflexivity|]. split; [reflexivity|]. split; reflexivity.
Qed.

Lemma early_return_misses_the_return_address_witness :
  exists c1 c2,
    Early.perform_instruction 0x2204 blank = Ok tt c1 /\
    stack c1 !! Z.to_nat (sp (regs blank) + 1) = Some (pc (regs blank)) /\
    stack c1 !! Z.to_nat (sp (regs blank)) = stack blank !! Z.to_nat (sp (regs blank)) /\
    Early.perform_instruction 0x00EE c1 = Ok tt c2 /\
    sp (regs c2) = sp (regs blank) /\ pc (regs c2) = 0x0EE /\ stack c2 = stack c1.
Proof.
  apply (early_return_misses_the_return_address 0x2204 blank);
    [reflexivity | repeat split | vm_compute; split; [discriminate | reflexivity]].
Defined.
